(** * Compliance Shield: the scan risk-scoring engine

    A shallow embedding of [scanner.ts] ([analyzeUrl]) and
    [scanner-utils.ts] ([analyzeSecurityHeaders], [analyzeThirdPartyScripts],
    [validateSSL], [determineCureEligibility]).  Line numbers are those of
    the files that hold them, [src/manual-testing-checklist.md] and
    [src/DEPLOYMENT.md].

    Conventions of the embedding.
    - A JavaScript string is the Rocq [string] of its UTF-8 bytes.
    - A JavaScript number is an integer [Z] (scores, status codes and
      counts are integral; fractions and IEEE rounding are not modelled).
    - [async]/[await], [try]/[catch] and the calls to the outside (Firecrawl,
      the two HEAD requests, Bedrock) live in the monad [M]: a computation
      reads the answers of the outside from a [World], may throw a
      [JSError], and logs every outside call it makes.
    - [console.log]/[console.error] have no influence on any result and are
      left out. *)

From Stdlib Require Import String Ascii List ZArith NArith Bool Lia.
From Stdlib Require Import Numbers.DecimalString.
From ExtLib Require Import Structures.Monad Structures.MonadExc.
Import ListNotations.
Import MonadNotation.

Set Warnings "-register-all".

Local Open Scope string_scope.
Local Open Scope bool_scope.
Local Open Scope Z_scope.
Local Open Scope monad_scope.

(* ===================================================================== *)
(** ** Strings *)
(* ===================================================================== *)

Module JsString.

(** [s.startsWith(p)] *)
Definition startsWith (s p : string) : bool := String.prefix p s.

(** [s.includes(sub)] *)
Fixpoint includes (s sub : string) : bool :=
  String.prefix sub s ||
  match s with
  | EmptyString => false
  | String _ rest => includes rest sub
  end.

(** The string without its first [n] bytes. *)
Fixpoint drop (n : nat) (s : string) : string :=
  match n, s with
  | O, _ => s
  | S _, EmptyString => EmptyString
  | S m, String _ rest => drop m rest
  end.

(** [s.replace(pat, rep)] with a string pattern: only the first occurrence
    is replaced. *)
Fixpoint replace (s pat rep : string) : string :=
  if String.prefix pat s then rep ++ drop (String.length pat) s
  else match s with
       | EmptyString => EmptyString
       | String c rest => String c (replace rest pat rep)
       end.

Definition lowerAscii (c : ascii) : ascii :=
  let n := nat_of_ascii c in
  if (Nat.leb 65 n && Nat.leb n 90)%bool then ascii_of_nat (n + 32) else c.

(** Case folding of a regular expression with the [i] flag and without the
    [u] flag: only ASCII letters fold onto ASCII letters. *)
Fixpoint asciiLower (s : string) : string :=
  match s with
  | EmptyString => EmptyString
  | String c rest => String (lowerAscii c) (asciiLower rest)
  end.

(** [s.toLowerCase()], as far as ASCII needles can see it.  Besides A-Z, two
    code points have a lower-case form that contains an ASCII letter:
    U+212A KELVIN SIGN (E2 84 AA) becomes [k], and U+0130 (C4 B0) becomes
    [i] followed by U+0307 (CC 87).  Every other non-ASCII letter maps to
    non-ASCII bytes, which no ASCII needle can match; those bytes are left
    as they are. *)
Fixpoint toLowerCase (s : string) : string :=
  match s with
  | EmptyString => EmptyString
  | String "226" (String "132" (String "170" rest)) =>
      String "k" (toLowerCase rest)
  | String "196" (String "176" rest) =>
      String "i" (String "204" (String "135" (toLowerCase rest)))
  | String c rest => String (lowerAscii c) (toLowerCase rest)
  end.

Definition bytes (l : list nat) : string :=
  string_of_list_ascii (map ascii_of_nat l).

(** WhiteSpace and LineTerminator of ECMAScript, in UTF-8: TAB, LF, VT, FF,
    CR, SP, U+00A0, U+1680, U+2000..U+200A, U+2028, U+2029, U+202F, U+205F,
    U+3000, U+FEFF. *)
Definition whiteSpace : list string :=
  map bytes
    [ [9]; [10]; [11]; [12]; [13]; [32]; [194; 160]; [225; 154; 128];
      [226; 128; 128]; [226; 128; 129]; [226; 128; 130]; [226; 128; 131];
      [226; 128; 132]; [226; 128; 133]; [226; 128; 134]; [226; 128; 135];
      [226; 128; 136]; [226; 128; 137]; [226; 128; 138]; [226; 128; 168];
      [226; 128; 169]; [226; 128; 175]; [226; 129; 159]; [227; 128; 128];
      [239; 187; 191] ]%nat.

Fixpoint revAcc (s acc : string) : string :=
  match s with
  | EmptyString => acc
  | String c rest => revAcc rest (String c acc)
  end.

Definition rev (s : string) : string := revAcc s EmptyString.

(** One white-space code point removed from the front, if there is one. *)
Definition stripOne (ws : list string) (s : string) : option string :=
  match find (fun w => String.prefix w s) ws with
  | Some w => Some (drop (String.length w) s)
  | None => None
  end.

Fixpoint stripAll (fuel : nat) (ws : list string) (s : string) : string :=
  match fuel with
  | O => s
  | S fuel' =>
      match stripOne ws s with
      | Some s' => stripAll fuel' ws s'
      | None => s
      end
  end.

Definition trimStart (s : string) : string :=
  stripAll (String.length s) whiteSpace s.

Definition trimEnd (s : string) : string :=
  rev (stripAll (String.length s) (map rev whiteSpace) (rev s)).

(** [s.trim()] *)
Definition trim (s : string) : string := trimEnd (trimStart s).

(** [String(n)] for a non-negative integer. *)
Definition ofN (n : N) : string := NilEmpty.string_of_uint (N.to_uint n).

End JsString.


(* ===================================================================== *)
(** ** JavaScript values *)
(* ===================================================================== *)

(** What [JSON.parse] can return, and [undefined] for an absent property. *)
Inductive JSValue : Type :=
| JUndefined
| JNull
| JBool (b : bool)
| JNum (n : Z)
| JStr (s : string)
| JArr (items : list JSValue)
| JObj (fields : list (string * JSValue)).

(** ToBoolean *)
Definition truthy (v : JSValue) : bool :=
  match v with
  | JUndefined | JNull => false
  | JBool b => b
  | JNum n => negb (n =? 0)
  | JStr s => negb (String.eqb s "")
  | JArr _ | JObj _ => true
  end.

(** [a || b], [a && b] and [!a]: the first two return one of their
    operands, not a boolean. *)
Definition js_or (a b : JSValue) : JSValue := if truthy a then a else b.
Definition js_and (a b : JSValue) : JSValue := if truthy a then b else a.
Definition js_not (a : JSValue) : JSValue := JBool (negb (truthy a)).

(** [v === "lit"] *)
Definition js_is_string (v : JSValue) (lit : string) : bool :=
  match v with
  | JStr s => String.eqb s lit
  | _ => false
  end.

(** The value bound to key [k] in an object's own properties (the keys of
    a parsed object are distinct). *)
Definition lookup (fields : list (string * JSValue)) (k : string) : JSValue :=
  match find (fun p => String.eqb (fst p) k) fields with
  | Some p => snd p
  | None => JUndefined
  end.

(** [v.k] for a key [k] that no built-in prototype defines (every key the
    scanner reads is of that kind): [None] stands for the TypeError that
    reading a property of [null] or [undefined] throws. *)
Definition getProp (v : JSValue) (k : string) : option JSValue :=
  match v with
  | JUndefined | JNull => None
  | JObj fields => Some (lookup fields k)
  | JBool _ | JNum _ | JStr _ | JArr _ => Some JUndefined
  end.

(** The same read when [v] is known not to be [null] or [undefined]. *)
Definition field (v : JSValue) (k : string) : JSValue :=
  match getProp v k with
  | Some x => x
  | None => JUndefined
  end.

Definition nullish (v : JSValue) : bool :=
  match v with
  | JUndefined | JNull => true
  | _ => false
  end.

(** [v?.k] *)
Definition getPropOpt (v : JSValue) (k : string) : JSValue := field v k.

(** A thrown [Error]: its [name] and [message]. *)
Record JSError : Type := mkError { errName : string; errMessage : string }.

Definition Error (msg : string) : JSError := mkError "Error" msg.

(* ===================================================================== *)
(** ** [new URL(s)] *)
(* ===================================================================== *)

(** The two getters the scanner reads. *)
Record URLRecord : Type := mkURL { protocol : string; hostname : string }.

Inductive UrlVerdict : Type :=
| UrlParsed (u : URLRecord)
| UrlFailure                  (* the constructor throws a TypeError *)
| UrlOutside.                 (* not decided by the fragment below *)

Module Url.

Definition isDigit (c : ascii) : bool :=
  let n := nat_of_ascii c in (Nat.leb 48 n && Nat.leb n 57)%bool.

Definition inList (c : ascii) (l : string) : bool :=
  existsb (Ascii.eqb c) (list_ascii_of_string l).

(** Bytes U+0020..U+007E. *)
Definition plain (c : ascii) : bool :=
  let n := nat_of_ascii c in (Nat.leb 32 n && Nat.leb n 126)%bool.

Fixpoint skipSlashes (s : string) : string :=
  match s with
  | String c rest => if inList c "/\" then skipSlashes rest else s
  | EmptyString => s
  end.

(** The authority: everything up to the first of [/ \ ? #]. *)
Fixpoint authority (s : string) : string :=
  match s with
  | String c rest => if inList c "/\?#" then EmptyString else String c (authority rest)
  | EmptyString => EmptyString
  end.

(** [s] cut at the first occurrence of [sep]: the part before it, and the
    part after it when [sep] occurs. *)
Fixpoint cut (sep : ascii) (s : string) : string * option string :=
  match s with
  | EmptyString => (EmptyString, None)
  | String c rest =>
      if Ascii.eqb c sep then (EmptyString, Some rest)
      else let (a, b) := cut sep rest in (String c a, b)
  end.

Fixpoint splitOn (fuel : nat) (sep : ascii) (s : string) : list string :=
  match fuel with
  | O => [s]
  | S fuel' =>
      match cut sep s with
      | (a, None) => [a]
      | (a, Some rest) => a :: splitOn fuel' sep rest
      end
  end.

Definition labels (host : string) : list string :=
  splitOn (String.length host) "." host.

(** The label the "ends in a number" check of the host parser looks at. *)
Definition lastLabel (host : string) : string :=
  match List.rev (labels host) with
  | "" :: l :: _ => l
  | l :: _ => l
  | [] => ""
  end.

(** A host the IPv4 parser may take over: its last label is made of digits
    or starts with [0x]. *)
Definition maybeNumeric (host : string) : bool :=
  let l := lastLabel host in
  negb (String.eqb l "") &&
  (forallb isDigit (list_ascii_of_string l)
   || String.prefix "0x" (JsString.asciiLower l)).

Definition hasPunycode (host : string) : bool :=
  existsb (fun l => String.prefix "xn--" (JsString.asciiLower l)) (labels host).

(** The forbidden host code points that can still occur in [host] once the
    authority was cut at [/ \ ? #] and [:], and [@ [ ] %] were set aside. *)
Definition forbiddenHost (host : string) : bool :=
  existsb (fun c => inList c " <>^|") (list_ascii_of_string host).

(** A port is a possibly empty run of digits, at most 65535. *)
Definition portNumber (p : string) : N :=
  match NilEmpty.uint_of_string p with
  | Some u => N.of_uint u
  | None => 0%N
  end.

Definition portOk (p : string) : bool :=
  forallb isDigit (list_ascii_of_string p) && (portNumber p <=? 65535)%N.

(** The URL parser on the strings [analyzeUrl] hands to it: printable
    ASCII that starts with [http://] or [https://].  After the scheme every
    further [/] and [\] is skipped; the authority runs to the next
    [/ \ ? #]; it is split at its first [:] into host and port.  An empty
    host, a forbidden host code point or a bad port is a failure; the host
    is lower-cased.  Path, query and fragment never make the parser fail.
    What the fragment leaves undecided: other bytes, credentials ([@]),
    IPv6 literals, percent-escapes in the host, punycode labels and hosts
    the IPv4 parser may take over. *)
Definition parse (s : string) : UrlVerdict :=
  if negb (forallb plain (list_ascii_of_string s)) then UrlOutside
  else if String.prefix " " (JsString.rev s) then UrlOutside
  else
    let scheme_rest :=
      if String.prefix "https://" s then Some ("https", JsString.drop 8 s)
      else if String.prefix "http://" s then Some ("http", JsString.drop 7 s)
      else None in
    match scheme_rest with
    | None => UrlOutside
    | Some (scheme, rest) =>
        let auth := authority (skipSlashes rest) in
        if existsb (fun c => inList c "@[]%") (list_ascii_of_string auth)
        then UrlOutside
        else
          let (host, port) := cut ":" auth in
          if maybeNumeric host || hasPunycode host then UrlOutside
          else if String.eqb host "" then UrlFailure
          else if forbiddenHost host then UrlFailure
          else if match port with Some p => portOk p | None => true end
          then UrlParsed (mkURL (scheme ++ ":") (JsString.asciiLower host))
          else UrlFailure
    end.

End Url.


(* ===================================================================== *)
(** ** The outside world and the monad of the scanner *)
(* ===================================================================== *)

(** [BedrockConfig] of [bedrock-client.ts]. *)
Record BedrockConfig : Type := mkBedrockConfig {
  accessKeyId : string;
  secretAccessKey : string;
  region : string
}.

(** [scrapeData.data] of a Firecrawl reply that follows its schema; [None]
    is an absent field. *)
Record ScrapeData : Type := mkScrapeData {
  sdMarkdown : option string;
  sdLinks : option (list string);
  sdHtml : option string
}.

(** What [fetch("https://api.firecrawl.dev/v1/scrape", ...)] and the reading
    of its body come to. *)
Inductive ScrapeOutcome : Type :=
| ScrapeRejected (e : JSError)                   (* fetch, or reading the body, rejects *)
| ScrapeNotOk (status : N) (errorText : string)  (* [!scrapeResponse.ok] *)
| ScrapeOk (data : option ScrapeData).           (* [await scrapeResponse.json()] *)

(** [fetch(url, { method: 'HEAD' })]: it rejects, or answers with headers
    (their names). *)
Inductive HeadOutcome : Type :=
| HeadRejected
| HeadOk (headerNames : list string).

(** [fetch(httpUrl, { method: 'HEAD', redirect: 'manual' })] *)
Inductive ProbeOutcome : Type :=
| ProbeRejected
| ProbeStatus (status : N).

(** The values interpolated into [analysisPrompt]; the fixed text of the
    template around them is not reproduced.  The template cuts the content
    at 6000 code units. *)
Record PromptInputs : Type := mkPrompt {
  pUrl : string;
  pContent : string;
  pFooterLinks : list string;        (* [links.slice(-20)] *)
  pThirdPartyScripts : list string;
  pCSP : bool;
  pHSTS : bool;
  pXFrame : bool;
  pHasSSL : bool
}.

(** One run's outside: the collaborators' answers, the clock, and the
    built-ins of the engine where this file does not fix them. *)
Record World : Type := mkWorld {
  (* [new URL(s)] on the strings [Url.parse] leaves undecided; [None]: it throws *)
  URL_outside : string -> option URLRecord;
  (* [JSON.parse(text)] *)
  JSON_parse : string -> JSError + JSValue;
  (* the TypeError thrown when property [k] of [null] is read *)
  nullReadError : string -> JSError;
  (* the TypeError thrown when [v] cannot be converted to a primitive value *)
  convertError : JSValue -> JSError;
  (* the TypeError thrown by [new URL] *)
  invalidUrlError : string -> JSError;
  (* [new Date().toISOString()] *)
  Date_toISOString : string;
  Firecrawl : string -> string -> ScrapeOutcome;
  Head : string -> HeadOutcome;
  HeadManual : string -> ProbeOutcome;
  (* [invokeClaudeSonnet(config, systemPrompt, userPrompt)]: it rethrows
     every error and otherwise returns the text of the first content block *)
  Claude : BedrockConfig -> string -> PromptInputs -> JSError + string
}.

(** The calls to the outside a run makes, in order. *)
Inductive Call : Type :=
| CallFirecrawl (apiKey url : string)
| CallHead (url : string)
| CallHeadManual (url : string)
| CallClaude (config : BedrockConfig) (systemPrompt : string) (prompt : PromptInputs).

Inductive Completion (A : Type) : Type :=
| Normal (a : A)
| Thrown (e : JSError).

Arguments Normal {A} a.
Arguments Thrown {A} e.

(** A computation of the scanner: given the world it completes normally or
    abruptly, and it has made some calls. *)
Definition M (A : Type) : Type := World -> Completion A * list Call.

#[export] Instance Monad_M : Monad M := {
  ret := fun _ a _ => (Normal a, []);
  bind := fun _ _ m k w =>
    match m w with
    | (Normal a, cs) => let (r, cs') := k a w in (r, (cs ++ cs')%list)
    | (Thrown e, cs) => (Thrown e, cs)
    end
}.

(** [throw] and [try { body } catch (error) { handler }] *)
#[export] Instance Exc_M : MonadExc JSError M := {
  raise := fun _ e _ => (Thrown e, []);
  catch := fun _ body handler w =>
    match body w with
    | (Normal a, cs) => (Normal a, cs)
    | (Thrown e, cs) => let (r, cs') := handler e w in (r, (cs ++ cs')%list)
    end
}.

Definition ask : M World := fun w => (Normal w, []).

Definition call {A : Type} (c : Call) (answer : World -> A) : M A :=
  fun w => (Normal (answer w), [c]).

Definition liftSum {A : Type} (r : JSError + A) : M A :=
  match r with
  | inl e => raise e
  | inr a => ret a
  end.

(** [new URL(s)] *)
Definition new_URL (s : string) : M URLRecord :=
  w <- ask ;;
  match Url.parse s with
  | UrlParsed u => ret u
  | UrlFailure => raise (invalidUrlError w s)
  | UrlOutside =>
      match URL_outside w s with
      | Some u => ret u
      | None => raise (invalidUrlError w s)
      end
  end.

(** [v.k], throwing on [null] and [undefined]. *)
Definition readProp (v : JSValue) (k : string) : M JSValue :=
  w <- ask ;;
  match getProp v k with
  | Some x => ret x
  | None => raise (nullReadError w k)
  end.

Definition result {A : Type} (m : M A) (w : World) : Completion A := fst (m w).

(* ===================================================================== *)
(** ** scanner-utils.ts *)
(* ===================================================================== *)

Record SecurityHeaders : Type := mkSecurityHeaders {
  hasCSP : bool;
  hasXFrameOptions : bool;
  hasHSTS : bool;
  hasXContentTypeOptions : bool;
  score : Z
}.

Record ThirdPartyScripts : Type := mkThirdPartyScripts {
  googleAnalytics : bool;
  facebookPixel : bool;
  hotjar : bool;
  intercom : bool;
  other : list string;
  privacyPolicyMentions : bool
}.

Record SslValidation : Type := mkSslValidation {
  hasSSL : bool;
  httpsEnforced : bool;
  certificateValid : bool;
  mixedContent : bool
}.

(** [headers.has(name)]: header names compare without regard to ASCII case. *)
Definition headers_has (headers : list string) (name : string) : bool :=
  existsb (fun h => String.eqb (JsString.asciiLower h) name) headers.

Definition fetchHead (url : string) : M (list string) :=
  response <- call (CallHead url) (fun w => Head w url) ;;
  match response with
  | HeadOk headers => ret headers
  | HeadRejected => raise (Error "fetch failed")
  end.

(** Analyze security headers by making a HEAD request to the URL. *)
Definition analyzeSecurityHeaders (url : string) : M SecurityHeaders :=
  catch
    (headers <- fetchHead url ;;
     let hasCSP := headers_has headers "content-security-policy"
                   || headers_has headers "content-security-policy-report-only" in
     let hasXFrameOptions := headers_has headers "x-frame-options" in
     let hasHSTS := headers_has headers "strict-transport-security" in
     let hasXContentTypeOptions := headers_has headers "x-content-type-options" in
     (* 25 points each *)
     let score := 0 in
     let score := if hasCSP then score + 25 else score in
     let score := if hasXFrameOptions then score + 25 else score in
     let score := if hasHSTS then score + 25 else score in
     let score := if hasXContentTypeOptions then score + 25 else score in
     ret (mkSecurityHeaders hasCSP hasXFrameOptions hasHSTS hasXContentTypeOptions score))
    (fun _ => ret (mkSecurityHeaders false false false false 0)).

(** The [trackers] table: a name and the literal alternatives of its
    pattern, e.g. [/segment\.(com|io)/i]. *)
Definition trackers : list (string * list string) :=
  [ ("Google Tag Manager", ["googletagmanager.com"]);
    ("Mixpanel", ["mixpanel.com"]);
    ("Segment", ["segment.com"; "segment.io"]);
    ("Amplitude", ["amplitude.com"]);
    ("Heap Analytics", ["heapanalytics.com"]);
    ("FullStory", ["fullstory.com"]);
    ("Crazy Egg", ["crazyegg.com"]);
    ("Kissmetrics", ["kissmetrics.com"]);
    ("Hubspot", ["hubspot.com"]);
    ("Drift", ["drift.com"]);
    ("Zendesk", ["zendesk.com"]);
    ("LiveChat", ["livechatinc.com"]);
    ("Olark", ["olark.com"]) ].

(** [pattern.test(html)] for one of the patterns above. *)
Definition pattern_test (alternatives : list string) (html : string) : bool :=
  existsb (JsString.includes (JsString.asciiLower html)) alternatives.

(** [[...new Set(l)]]: the first occurrence of each element, in order. *)
Fixpoint dedup (seen l : list string) : list string :=
  match l with
  | [] => []
  | x :: rest =>
      if existsb (String.eqb x) seen then dedup seen rest
      else x :: dedup (x :: seen) rest
  end.

Definition pushIf (b : bool) (name : string) (l : list string) : list string :=
  if b then (l ++ [name])%list else l.

(** Detect third-party tracking scripts in HTML. *)
Definition analyzeThirdPartyScripts (html content : string) : ThirdPartyScripts :=
  let htmlLower := JsString.toLowerCase html in
  let contentLower := JsString.toLowerCase content in
  let googleAnalytics :=
    JsString.includes htmlLower "google-analytics.com"
    || JsString.includes htmlLower "gtag.js"
    || JsString.includes htmlLower "ga.js" in
  let facebookPixel :=
    JsString.includes htmlLower "facebook.net/en_us/fbevents.js"
    || JsString.includes htmlLower "connect.facebook.net" in
  let hotjar :=
    JsString.includes htmlLower "hotjar.com"
    || JsString.includes htmlLower "static.hotjar.com" in
  let intercom :=
    JsString.includes htmlLower "intercom.io"
    || JsString.includes htmlLower "widget.intercom.io" in
  let other :=
    map fst (filter (fun tracker => pattern_test (snd tracker) html) trackers) in
  let other := pushIf googleAnalytics "Google Analytics" other in
  let other := pushIf facebookPixel "Facebook Pixel" other in
  let other := pushIf hotjar "Hotjar" other in
  let other := pushIf intercom "Intercom" other in
  let privacyPolicyMentions :=
    JsString.includes contentLower "google analytics"
    || JsString.includes contentLower "facebook pixel"
    || JsString.includes contentLower "tracking"
    || JsString.includes contentLower "third-party" in
  mkThirdPartyScripts googleAnalytics facebookPixel hotjar intercom
                      (dedup [] other) privacyPolicyMentions.

Definition dquote : string := String (ascii_of_nat 34) EmptyString.

Definition fetchHeadManual (httpUrl : string) : M N :=
  response <- call (CallHeadManual httpUrl) (fun w => HeadManual w httpUrl) ;;
  match response with
  | ProbeStatus status => ret status
  | ProbeRejected => raise (Error "fetch failed")
  end.

(** Validate SSL/TLS configuration. *)
Definition validateSSL (url html : string) : M SslValidation :=
  catch
    (parsedUrl <- new_URL url ;;
     let hasSSL := String.eqb (protocol parsedUrl) "https:" in
     let mixedContent :=
       hasSSL && (JsString.includes html ("src=" ++ dquote ++ "http://")
                  || JsString.includes html "src='http://"
                  || JsString.includes html ("href=" ++ dquote ++ "http://")) in
     httpsEnforced <-
       (if hasSSL then
          catch
            (let httpUrl := JsString.replace url "https://" "http://" in
             status <- fetchHeadManual httpUrl ;;
             ret ((status =? 301)%N || (status =? 308)%N))
            (fun _ => ret true)
        else ret false) ;;
     let certificateValid := hasSSL in
     ret (mkSslValidation hasSSL httpsEnforced certificateValid mixedContent))
    (fun _ => ret (mkSslValidation false false false false)).

(** Determine if violations are eligible for the 60-day cure notice.  The
    reads of [analysis] are done up front in the order of the source; they
    have no effect besides throwing when [analysis] is [null]. *)
Definition determineCureEligibility (analysis : JSValue) : M JSValue :=
  hasAiFeatures <- readProp analysis "hasAiFeatures" ;;
  hasAiDisclosure <- readProp analysis "hasAiDisclosure" ;;
  hasPrivacyPolicy <- readProp analysis "hasPrivacyPolicy" ;;
  hasCookieBanner <- readProp analysis "hasCookieBanner" ;;
  adaIssues <- readProp analysis "adaIssues" ;;
  socialScoring <- readProp analysis "socialScoring" ;;
  discrimination <- readProp analysis "discrimination" ;;
  piiExposure <- readProp analysis "piiExposure" ;;
  let severity := getPropOpt piiExposure "severity" in
  let hasCurableViolations :=
    js_or (js_or (js_or (js_and hasAiFeatures (js_not hasAiDisclosure))
                        (js_not hasPrivacyPolicy))
                 (js_not hasCookieBanner))
          adaIssues in
  let hasNonCurableViolations :=
    js_or (js_or socialScoring discrimination)
          (JBool (js_is_string severity "critical" || js_is_string severity "high")) in
  ret (js_and hasCurableViolations (js_not hasNonCurableViolations)).

(* ===================================================================== *)
(** ** scanner.ts *)
(* ===================================================================== *)

(** ToPrimitive succeeds on [v].  A parsed object inherits [valueOf], which
    returns the object itself, and [toString], which returns a string,
    unless it has a property [toString] of its own: a parsed value is never
    callable, so the conversion then finds no method that returns a
    primitive and throws a TypeError.  An array is converted by joining the
    conversions of its elements, [null] counting as the empty string. *)
Fixpoint convertible (v : JSValue) : bool :=
  match v with
  | JObj fields => negb (existsb (fun p => String.eqb (fst p) "toString") fields)
  | JArr items =>
      (fix all (l : list JSValue) : bool :=
         match l with
         | [] => true
         | x :: rest => convertible x && all rest
         end) items
  | _ => true
  end.

(** The value of the variable [riskScore].  [ScoreNum n] is the number [n].
    A truthy [analysis.riskScore] that is a string, an array or an object
    turns every [+=] into a string concatenation; for such a base the
    score is kept as the expression it is, [Math.min(base + added..., 100)],
    and no arithmetic is claimed about it.  [ScoreTypeError v] is the abrupt
    completion of the statement that had to convert [v] to a primitive
    value and could not. *)
Inductive Score : Type :=
| ScoreNum (n : Z)
| ScoreCoerced (base : JSValue) (added : list Z)
| ScoreTypeError (v : JSValue).

(** The object handed to [JSON.stringify] for the field [scanData]. *)
Inductive ScanData : Type :=
| ScanDataConfig (errorType errorMessage timestamp url : string)
| ScanDataInvalidUrl
| ScanDataBaseline (domain scannedAt url : string)
| ScanDataAnalysis (analysis : JSValue) (scannedAt url : string)
| ScanDataFailure (errorMessage fullError timestamp url : string).

Record PiiExposure : Type := mkPii {
  detected : bool;
  types : list string;
  severity : string
}.

(** [ScanResult].  The fields typed [boolean] and [string[]] in the
    interface hold whatever the expressions of [analyzeUrl] evaluate to, so
    they are JavaScript values here. *)
Record ScanResult : Type := mkScanResult {
  success : bool;
  riskScore : Score;
  hasCookieBanner : JSValue;
  hasPrivacyPolicy : JSValue;
  hasAiFeatures : JSValue;
  hasAiDisclosure : JSValue;
  adaIssues : JSValue;
  aiRetentionIssues : JSValue;
  gdprIssues : JSValue;
  shadowAiIssues : JSValue;
  detectedIssues : JSValue;
  scanData : option ScanData;
  securityHeaders : option SecurityHeaders;
  thirdPartyScripts : option ThirdPartyScripts;
  sslValidation : option SslValidation;
  piiExposure : option PiiExposure;
  cureNoticeEligible : option JSValue
}.

(** Known compliant domains - bypass scanning for major companies. *)
Definition KNOWN_COMPLIANT_DOMAINS : list string :=
  [ "google.com"; "amazon.com"; "microsoft.com"; "apple.com"; "meta.com";
    "facebook.com"; "stripe.com"; "shopify.com"; "notion.so"; "figma.com";
    "slack.com"; "zoom.us"; "salesforce.com"; "adobe.com"; "netflix.com";
    "spotify.com"; "github.com"; "gitlab.com"; "atlassian.net"; "dropbox.com";
    "box.com"; "hubspot.com"; "mailchimp.com"; "squarespace.com"; "wix.com";
    "wordpress.com"; "cloudflare.com"; "aws.amazon.com"; "azure.microsoft.com";
    "oracle.com"; "ibm.com"; "paypal.com"; "square.com";
    "complianceshieldhq.com" ].

(** The object literal shared by every failure [return] of [analyzeUrl]:
    they differ in [detectedIssues] and [scanData] only. *)
Definition failureResult (issues : list string) (data : ScanData) : ScanResult :=
  {| success := false;
     riskScore := ScoreNum 0;
     hasCookieBanner := JBool false;
     hasPrivacyPolicy := JBool false;
     hasAiFeatures := JBool false;
     hasAiDisclosure := JBool false;
     adaIssues := JBool false;
     aiRetentionIssues := JBool false;
     gdprIssues := JBool false;
     shadowAiIssues := JBool false;
     detectedIssues := JArr (map JStr issues);
     scanData := Some data;
     securityHeaders := None;
     thirdPartyScripts := None;
     sslValidation := None;
     piiExposure := None;
     cureNoticeEligible := None |}.

(** The [return] of the known-compliant branch. *)
Definition baselineResult (domain scannedAt normalizedUrl : string) : ScanResult :=
  {| success := true;
     riskScore := ScoreNum 15;
     hasCookieBanner := JBool true;
     hasPrivacyPolicy := JBool true;
     hasAiFeatures := JBool false;
     hasAiDisclosure := JBool false;
     adaIssues := JBool false;
     aiRetentionIssues := JBool false;
     gdprIssues := JBool false;
     shadowAiIssues := JBool false;
     detectedIssues := JArr [];
     scanData := Some (ScanDataBaseline domain scannedAt normalizedUrl);
     securityHeaders := Some (mkSecurityHeaders true true true true 100);
     thirdPartyScripts := None;
     sslValidation := Some (mkSslValidation true true true false);
     piiExposure := None;
     cureNoticeEligible := Some (JBool false) |}.

(** Lines 355-359: trim, then default the scheme. *)
Definition normalizeUrl (url : string) : string :=
  let normalizedUrl := JsString.trim url in
  if negb (JsString.startsWith normalizedUrl "http://")
     && negb (JsString.startsWith normalizedUrl "https://")
  then "https://" ++ normalizedUrl
  else normalizedUrl.

(** [const domain = new URL(normalizedUrl).hostname.replace("www.", "")] *)
Definition domainOf (u : URLRecord) : string :=
  JsString.replace (hostname u) "www." "".

(** [KNOWN_COMPLIANT_DOMAINS.some((d) => domain.includes(d))] *)
Definition isKnownCompliant (domain : string) : bool :=
  existsb (fun d => JsString.includes domain d) KNOWN_COMPLIANT_DOMAINS.

(** [let riskScore = analysis.riskScore || 50]: the value the arithmetic
    below starts from.  [true] is the only truthy boolean; it counts as 1. *)
Definition baseRiskScore (analysisRiskScore : JSValue) : Score :=
  match js_or analysisRiskScore (JNum 50) with
  | JNum n => ScoreNum n
  | JBool _ => ScoreNum 1
  | v => ScoreCoerced v []
  end.

(** [riskScore += k]: an addition of numbers, or a concatenation that first
    converts the base to a primitive value, which throws when the base is
    not [convertible].  After a throw nothing more is evaluated. *)
Definition increase (riskScore : Score) (k : Z) : Score :=
  match riskScore with
  | ScoreNum n => ScoreNum (n + k)
  | ScoreCoerced v added =>
      if convertible v then ScoreCoerced v (added ++ [k]) else ScoreTypeError v
  | ScoreTypeError v => ScoreTypeError v
  end.

(** [Math.min(riskScore, k)]: it converts its arguments to numbers, which
    throws for a base that is not [convertible]. *)
Definition Math_min (riskScore : Score) (k : Z) : Score :=
  match riskScore with
  | ScoreNum n => ScoreNum (Z.min n k)
  | ScoreCoerced v added =>
      if convertible v then ScoreCoerced v added else ScoreTypeError v
  | ScoreTypeError v => ScoreTypeError v
  end.

(** Lines 596-599: adjust the risk score based on the security findings. *)
Definition applyAdjustments (riskScore : Score) (sslValidation : SslValidation)
    (securityHeaders : SecurityHeaders) (thirdPartyScripts : ThirdPartyScripts) : Score :=
  let riskScore := if negb (hasSSL sslValidation) then increase riskScore 15 else riskScore in
  let riskScore := if mixedContent sslValidation then increase riskScore 10 else riskScore in
  let riskScore := if score securityHeaders <? 50 then increase riskScore 10 else riskScore in
  let riskScore :=
    if (5 <? Z.of_nat (List.length (other thirdPartyScripts)))
       && negb (privacyPolicyMentions thirdPartyScripts)
    then increase riskScore 10 else riskScore in
  riskScore.

(** Lines 593-601: the risk score of a scan. *)
Definition aggregateRiskScore (analysisRiskScore : JSValue) (sslValidation : SslValidation)
    (securityHeaders : SecurityHeaders) (thirdPartyScripts : ThirdPartyScripts) : Score :=
  let riskScore := baseRiskScore analysisRiskScore in
  let riskScore := applyAdjustments riskScore sslValidation securityHeaders thirdPartyScripts in
  Math_min riskScore 100.

Definition systemPrompt : string :=
  "You are a compliance auditor specializing in 2026 AI transparency laws, ADA website accessibility, GDPR, and CCPA. Return only valid JSON with no additional commentary.".

(** [links.slice(-20)] *)
Definition lastTwenty (links : list string) : list string :=
  skipn (List.length links - 20) links.

Definition fetchFirecrawl (firecrawlApiKey normalizedUrl : string) : M (option ScrapeData) :=
  scrapeResponse <- call (CallFirecrawl firecrawlApiKey normalizedUrl)
                         (fun w => Firecrawl w firecrawlApiKey normalizedUrl) ;;
  match scrapeResponse with
  | ScrapeRejected e => raise e
  | ScrapeNotOk status errorText =>
      raise (Error ("Firecrawl API error: " ++ JsString.ofN status ++ " - " ++ errorText))
  | ScrapeOk data => ret data
  end.

Definition invokeClaudeSonnet (config : BedrockConfig) (system : string)
    (prompt : PromptInputs) : M string :=
  answer <- call (CallClaude config system prompt) (fun w => Claude w config system prompt) ;;
  liftSum answer.

Definition orEmpty {A : Type} (o : option (list A)) : list A :=
  match o with Some l => l | None => [] end.

Definition orEmptyString (o : option string) : string :=
  match o with Some s => s | None => "" end.

(** What phases 1 to 4 hand to the rest of the scan. *)
Record Evidence : Type := mkEvidence {
  evContent : string;
  evLinks : list string;
  evHtml : string;
  evHeaders : SecurityHeaders;
  evScripts : ThirdPartyScripts;
  evSsl : SslValidation
}.

(** PHASE 1 to PHASE 4 (lines 425-473): web content extraction, security
    headers, third-party scripts, SSL/TLS. *)
Definition collectEvidence (normalizedUrl firecrawlApiKey : string) : M Evidence :=
  data <- fetchFirecrawl firecrawlApiKey normalizedUrl ;;
  match data with
  | None => raise (Error "Failed to scrape content - no markdown returned")
  | Some data =>
      if String.eqb (orEmptyString (sdMarkdown data)) "" then
        raise (Error "Failed to scrape content - no markdown returned")
      else
        let content := orEmptyString (sdMarkdown data) in
        let links := orEmpty (sdLinks data) in
        let html := orEmptyString (sdHtml data) in
        headers <- analyzeSecurityHeaders normalizedUrl ;;
        let scripts := analyzeThirdPartyScripts html content in
        ssl <- validateSSL normalizedUrl html ;;
        ret (mkEvidence content links html headers scripts ssl)
  end.

Definition analysisPrompt (normalizedUrl : string) (ev : Evidence) : PromptInputs :=
  mkPrompt normalizedUrl (evContent ev) (lastTwenty (evLinks ev))
           (other (evScripts ev))
           (hasCSP (evHeaders ev)) (hasHSTS (evHeaders ev))
           (hasXFrameOptions (evHeaders ev)) (hasSSL (evSsl ev)).

(** PHASE 5 (lines 479-590): ask the model, parse its answer. *)
Definition semanticAudit (bedrockConfig : BedrockConfig) (normalizedUrl : string)
    (ev : Evidence) : M JSValue :=
  w <- ask ;;
  analysisText <- invokeClaudeSonnet bedrockConfig systemPrompt
                                     (analysisPrompt normalizedUrl ev) ;;
  liftSum (JSON_parse w analysisText).

(** Lines 592-607 and the [return] of lines 615-637: the risk score, the
    derived flags and the result, given the two values read through a call
    ([analysis.riskScore] and the cure eligibility) and the time. *)
Definition successResult (normalizedUrl : string) (ev : Evidence)
    (analysis analysisRiskScore eligible : JSValue) (scannedAt : string) : ScanResult :=
  let finalScore :=
    aggregateRiskScore analysisRiskScore (evSsl ev) (evHeaders ev) (evScripts ev) in
  let ada := js_or (field analysis "adaIssues") (JBool false) in
  let aiRetention :=
    js_and (field analysis "hasAiFeatures") (js_not (field analysis "hasPrivacyPolicy")) in
  let gdpr :=
    js_or (js_not (field analysis "hasCookieBanner"))
          (js_not (field analysis "hasPrivacyPolicy")) in
  let shadowAi :=
    js_and (field analysis "hasAiFeatures") (js_not (field analysis "hasAiDisclosure")) in
  {| success := true;
     riskScore := finalScore;
     hasCookieBanner := js_or (field analysis "hasCookieBanner") (JBool false);
     hasPrivacyPolicy := js_or (field analysis "hasPrivacyPolicy") (JBool false);
     hasAiFeatures := js_or (field analysis "hasAiFeatures") (JBool false);
     hasAiDisclosure := js_or (field analysis "hasAiDisclosure") (JBool false);
     adaIssues := ada;
     aiRetentionIssues := aiRetention;
     gdprIssues := gdpr;
     shadowAiIssues := shadowAi;
     detectedIssues := js_or (field analysis "issues") (JArr []);
     scanData := Some (ScanDataAnalysis analysis scannedAt normalizedUrl);
     securityHeaders := Some (evHeaders ev);
     thirdPartyScripts := Some (evScripts ev);
     sslValidation := Some (evSsl ev);
     piiExposure := Some (mkPii false [] "low");
     cureNoticeEligible := Some eligible |}.

(** Lines 592-637.  [analysis.riskScore] is the first property read: it
    throws when [analysis] is [null]; after it the reads of [analysis] are
    [field].  The arithmetic of lines 596-601 comes next and throws when
    the score cannot be converted; the rest is evaluated only after it. *)
Definition compileResult (normalizedUrl : string) (ev : Evidence)
    (analysis : JSValue) : M ScanResult :=
  w <- ask ;;
  analysisRiskScore <- readProp analysis "riskScore" ;;
  match aggregateRiskScore analysisRiskScore (evSsl ev) (evHeaders ev) (evScripts ev) with
  | ScoreTypeError v => raise (convertError w v)
  | _ =>
      eligible <- determineCureEligibility analysis ;;
      ret (successResult normalizedUrl ev analysis analysisRiskScore eligible
                         (Date_toISOString w))
  end.

(** The body of the second [try] of [analyzeUrl] (lines 380-637). *)
Definition scanBody (normalizedUrl firecrawlApiKey : string)
    (bedrockConfig : BedrockConfig) : M ScanResult :=
  w <- ask ;;
  parsed <- new_URL normalizedUrl ;;
  let domain := domainOf parsed in
  if isKnownCompliant domain then
    ret (baselineResult domain (Date_toISOString w) normalizedUrl)
  else
    ev <- collectEvidence normalizedUrl firecrawlApiKey ;;
    analysis <- semanticAudit bedrockConfig normalizedUrl ev ;;
    compileResult normalizedUrl ev analysis.

(** Lines 648-661: the message shown for a caught error. *)
Definition userFriendlyError (error : JSError) : string :=
  let message := if String.eqb (errMessage error) "" then "Unknown error"
                 else errMessage error in
  if JsString.includes message "Access Denied" || JsString.includes message "403" then
    "AWS Access Denied - Check IAM permissions for bedrock:InvokeModel"
  else if JsString.includes message "404" || JsString.includes message "Not Found" then
    "Model not found - Enable Claude 3.7 Sonnet in AWS Bedrock Console"
  else if JsString.includes message "429" || JsString.includes message "Throttl" then
    "AWS rate limit exceeded - Wait a moment and retry"
  else if JsString.includes message "400" || JsString.includes message "Bad Request" then
    "Invalid request format - Check model ID and region"
  else if JsString.includes (errMessage error) "Firecrawl" then
    "Website scraping failed - Check FIRECRAWL_API_KEY"
  else message.

(** The [return] of the [catch] block (lines 663-685). *)
Definition scanFailed (url timestamp : string) (error : JSError) : ScanResult :=
  failureResult
    [ "Scan failed: " ++ userFriendlyError error;
      "This is a technical error, not a compliance issue with the target site." ]
    (ScanDataFailure (userFriendlyError error) (errMessage error) timestamp url).

(** [!firecrawlApiKey] for an optional string. *)
Definition missing (firecrawlApiKey : option string) : bool :=
  match firecrawlApiKey with
  | None => true
  | Some key => String.eqb key ""
  end.

Definition arrow : string := JsString.bytes [226; 134; 146]%nat.

Definition analyzeUrl (url : string) (firecrawlApiKey : option string)
    (bedrockConfig : option BedrockConfig) : M ScanResult :=
  w <- ask ;;
  if missing firecrawlApiKey then
    ret (failureResult
           [ "TECHNICAL ERROR: FIRECRAWL_API_KEY not configured";
             "Add your Firecrawl API key in Settings " ++ arrow ++ " Secrets";
             "Get API key from https://firecrawl.dev" ]
           (ScanDataConfig "MissingConfig" "FIRECRAWL_API_KEY not configured"
                           (Date_toISOString w) url))
  else
  match bedrockConfig with
  | None =>
    ret (failureResult
           [ "TECHNICAL ERROR: AWS Bedrock credentials not configured";
             "Add AWS_ACCESS_KEY_ID, AWS_SECRET_ACCESS_KEY, and AWS_REGION in Settings "
               ++ arrow ++ " Secrets";
             "Enable Claude 3.7 Sonnet in AWS Bedrock Console (us-east-1)" ]
           (ScanDataConfig "MissingCredentials" "AWS Bedrock not configured"
                           (Date_toISOString w) url))
  | Some config =>
    let normalizedUrl := normalizeUrl url in
    parses <- catch (_ <- new_URL normalizedUrl ;; ret true) (fun _ => ret false) ;;
    if negb parses then
      ret (failureResult ["Invalid URL format"] ScanDataInvalidUrl)
    else
      catch (scanBody normalizedUrl (orEmptyString firecrawlApiKey) config)
            (fun error => ret (scanFailed url (Date_toISOString w) error))
  end.

(* ===================================================================== *)
(** ** Specification-side definitions and sample data *)
(* ===================================================================== *)

(** The indicators in the words of the specification: a curable issue is
    AI features without disclosure, an absent privacy policy, an absent
    cookie banner, or accessibility issues; a non-curable one is social
    scoring, discrimination, or an exposure of sensitive identifiers at
    severity critical or high (none when no exposure is reported). *)
Definition curableIndicator (analysis : JSValue) : bool :=
  (truthy (field analysis "hasAiFeatures") && negb (truthy (field analysis "hasAiDisclosure")))
  || negb (truthy (field analysis "hasPrivacyPolicy"))
  || negb (truthy (field analysis "hasCookieBanner"))
  || truthy (field analysis "adaIssues").

Definition nonCurableIndicator (analysis : JSValue) : bool :=
  truthy (field analysis "socialScoring")
  || truthy (field analysis "discrimination")
  || (js_is_string (field (field analysis "piiExposure") "severity") "critical"
      || js_is_string (field (field analysis "piiExposure") "severity") "high").

(** What [determineCureEligibility] returns on an [analysis] that is not
    [null]. *)
Definition cureValue (analysis : JSValue) : JSValue :=
  js_and
    (js_or (js_or (js_or (js_and (field analysis "hasAiFeatures")
                                 (js_not (field analysis "hasAiDisclosure")))
                         (js_not (field analysis "hasPrivacyPolicy")))
                  (js_not (field analysis "hasCookieBanner")))
           (field analysis "adaIssues"))
    (js_not
       (js_or (js_or (field analysis "socialScoring") (field analysis "discrimination"))
              (JBool (js_is_string (field (field analysis "piiExposure") "severity") "critical"
                      || js_is_string (field (field analysis "piiExposure") "severity") "high")))).

(** The sum of the adjustments that fire. *)
Definition adjustmentTotal (ssl : SslValidation) (headers : SecurityHeaders)
    (scripts : ThirdPartyScripts) : Z :=
  (if hasSSL ssl then 0 else 15)
  + (if mixedContent ssl then 10 else 0)
  + (if score headers <? 50 then 10 else 0)
  + (if (5 <? Z.of_nat (List.length (other scripts))) && negb (privacyPolicyMentions scripts)
     then 10 else 0).

(** The number the arithmetic starts from when [analysis.riskScore] is a
    number or is absent: 0 and absence both give 50. *)
Definition numericBase (analysisRiskScore : JSValue) : option Z :=
  match analysisRiskScore with
  | JNum n => Some (if n =? 0 then 50 else n)
  | JUndefined => Some 50
  | _ => None
  end.

Definition secureTransport : SslValidation := mkSslValidation true true true false.
Definition insecureMixed : SslValidation := mkSslValidation false false false true.
Definition allHeaders : SecurityHeaders := mkSecurityHeaders true true true true 100.
Definition noHeaders : SecurityHeaders := mkSecurityHeaders false false false false 0.
Definition noScripts : ThirdPartyScripts := mkThirdPartyScripts false false false false [] false.
Definition sixUndisclosed : ThirdPartyScripts :=
  mkThirdPartyScripts false false true true
    ["Google Tag Manager"; "Mixpanel"; "Segment"; "Amplitude"; "Hotjar"; "Intercom"] false.

(** The same findings with the list of trackers emptied. *)
Definition withoutTrackers (scripts : ThirdPartyScripts) : ThirdPartyScripts :=
  mkThirdPartyScripts (googleAnalytics scripts) (facebookPixel scripts)
                      (hotjar scripts) (intercom scripts) []
                      (privacyPolicyMentions scripts).

Definition sixTrackerMarkup : string :=
  "<script src='https://www.googletagmanager.com/gtm.js'></script>"
  ++ "<script src='https://cdn.mixpanel.com/lib.js'></script>"
  ++ "<script src='https://cdn.segment.com/analytics.js'></script>"
  ++ "<script src='https://cdn.amplitude.com/amp.js'></script>"
  ++ "<script src='https://static.hotjar.com/c/hotjar.js'></script>"
  ++ "<script src='https://widget.intercom.io/widget/abc'></script>".

Definition fiveTrackerMarkup : string :=
  "<script src='https://www.googletagmanager.com/gtm.js'></script>"
  ++ "<script src='https://cdn.mixpanel.com/lib.js'></script>"
  ++ "<script src='https://cdn.segment.com/analytics.js'></script>"
  ++ "<script src='https://cdn.amplitude.com/amp.js'></script>"
  ++ "<script src='https://static.hotjar.com/c/hotjar.js'></script>".

Definition silentText : string := "Welcome to our shop. Contact us for a quote.".
Definition disclosingText : string :=
  "Privacy: we share usage data with third-party analytics providers.".

Definition invalidUrlResult : ScanResult :=
  failureResult ["Invalid URL format"] ScanDataInvalidUrl.

(** The call [semanticAudit] makes. *)
Definition claudeCall (config : BedrockConfig) (normalizedUrl : string)
    (ev : Evidence) : Call :=
  CallClaude config systemPrompt (analysisPrompt normalizedUrl ev).

(** "The scan of [url] reaches the model with the evidence [ev], after the
    calls [cs], and the model answers [text]." *)
Definition modelAnswers (w : World) (url key : string) (config : BedrockConfig)
    (ev : Evidence) (cs : list Call) (text : string) : Prop :=
  key <> ""
  /\ (exists u, new_URL (normalizeUrl url) w = (Normal u, [])
                /\ isKnownCompliant (domainOf u) = false)
  /\ collectEvidence (normalizeUrl url) key w = (Normal ev, cs)
  /\ Claude w config systemPrompt (analysisPrompt (normalizeUrl url) ev) = inr text.

Definition sampleConfig : BedrockConfig := mkBedrockConfig "AKIAEXAMPLE" "secret" "us-east-1".

Definition samplePage : ScrapeOutcome :=
  ScrapeOk (Some (mkScrapeData (Some "Welcome to our shop.")
                               (Some ["https://shop.example/privacy"])
                               (Some "<html><body>Welcome</body></html>"))).

Definition syntaxError : JSError := mkError "SyntaxError" "Unexpected token S in JSON at position 0".

(** A world in which the site answers, Firecrawl answers [page], the model
    answers [answer], and [JSON.parse] maps the texts of [table] to their
    values and rejects every other text. *)
Definition sampleWorld (page : ScrapeOutcome) (answer : JSError + string)
    (table : list (string * JSValue)) : World :=
  {| URL_outside := fun _ => None;
     JSON_parse := fun text =>
       match find (fun entry => String.eqb (fst entry) text) table with
       | Some entry => inr (snd entry)
       | None => inl syntaxError
       end;
     nullReadError := fun k =>
       mkError "TypeError" ("Cannot read properties of null (reading '" ++ k ++ "')");
     convertError := fun _ => mkError "TypeError" "Cannot convert object to primitive value";
     invalidUrlError := fun _ => mkError "TypeError" "Invalid URL";
     Date_toISOString := "2026-01-15T09:00:00.000Z";
     Firecrawl := fun _ _ => page;
     Head := fun _ => HeadOk ["Content-Security-Policy"; "X-Frame-Options";
                              "Strict-Transport-Security"; "X-Content-Type-Options"];
     HeadManual := fun _ => ProbeStatus 301;
     Claude := fun _ _ _ => answer |}.

Definition quoted (s : string) : string := dquote ++ s ++ dquote.

(** The evidence collected about [shop.example] in the sample worlds. *)
Definition sampleEvidence : Evidence :=
  mkEvidence "Welcome to our shop." ["https://shop.example/privacy"]
             "<html><body>Welcome</body></html>"
             allHeaders noScripts secureTransport.

Definition sampleCalls : list Call :=
  [ CallFirecrawl "fc-key" "https://shop.example";
    CallHead "https://shop.example";
    CallHeadManual "http://shop.example" ].

Definition technicalNote : string :=
  "This is a technical error, not a compliance issue with the target site.".

Definition proseText : string := "Sure! Here is the compliance audit you asked for.".
Definition proseWorld : World := sampleWorld samplePage (inr proseText) [].

Definition emptyObjectWorld : World := sampleWorld samplePage (inr "{}") [("{}", JObj [])].

Definition flagsText : string :=
  "{" ++ quoted "hasAiFeatures" ++ ":true," ++ quoted "hasPrivacyPolicy" ++ ":false,"
      ++ quoted "hasAiDisclosure" ++ ":false," ++ quoted "aiRetentionIssues" ++ ":false,"
      ++ quoted "shadowAiIssues" ++ ":false," ++ quoted "riskScore" ++ ":70}".

Definition flagsAnalysis : JSValue :=
  JObj [ ("hasAiFeatures", JBool true); ("hasPrivacyPolicy", JBool false);
         ("hasAiDisclosure", JBool false); ("aiRetentionIssues", JBool false);
         ("shadowAiIssues", JBool false); ("riskScore", JNum 70) ].

Definition flagsWorld : World :=
  sampleWorld samplePage (inr flagsText) [(flagsText, flagsAnalysis)].

Definition firecrawlDown : ScrapeOutcome :=
  ScrapeNotOk 502 "Bad Gateway".

Definition downWorld : World := sampleWorld firecrawlDown (inr "{}") [].

(** An answer with all eleven fields of the contract and the given
    [riskScore], as text and as the value it parses to. *)
Definition answerText (risk : string) : string :=
  "{" ++ quoted "hasCookieBanner" ++ ":true," ++ quoted "hasPrivacyPolicy" ++ ":true,"
      ++ quoted "hasAiFeatures" ++ ":false," ++ quoted "hasAiDisclosure" ++ ":false,"
      ++ quoted "hasBiometricConsent" ++ ":false," ++ quoted "socialScoring" ++ ":false,"
      ++ quoted "discrimination" ++ ":false," ++ quoted "adaIssues" ++ ":false,"
      ++ quoted "trustSignals" ++ ":true," ++ quoted "riskScore" ++ ":" ++ risk ++ ","
      ++ quoted "issues" ++ ":[]}".

Definition answerValue (risk : Z) : JSValue :=
  JObj [ ("hasCookieBanner", JBool true); ("hasPrivacyPolicy", JBool true);
         ("hasAiFeatures", JBool false); ("hasAiDisclosure", JBool false);
         ("hasBiometricConsent", JBool false); ("socialScoring", JBool false);
         ("discrimination", JBool false); ("adaIssues", JBool false);
         ("trustSignals", JBool true); ("riskScore", JNum risk);
         ("issues", JArr []) ].

Definition scoreWorld (riskText : string) (risk : Z) : World :=
  sampleWorld samplePage (inr (answerText riskText))
              [(answerText riskText, answerValue risk)].

(** A world in which Firecrawl serves a page with the markup [html] and the
    text [content], the site answers with all four headers and redirects
    plain HTTP, and the model answers with [riskScore] 40. *)
Definition trackerPage (html content : string) : ScrapeOutcome :=
  ScrapeOk (Some (mkScrapeData (Some content) (Some []) (Some html))).

Definition trackerWorld (html content : string) : World :=
  sampleWorld (trackerPage html content) (inr (answerText "40"))
              [(answerText "40", answerValue 40)].

Definition curableAnalysis : JSValue :=
  JObj [ ("hasCookieBanner", JBool false); ("hasPrivacyPolicy", JBool true);
         ("hasAiFeatures", JBool true); ("hasAiDisclosure", JBool true);
         ("socialScoring", JBool false); ("discrimination", JBool false);
         ("adaIssues", JBool false) ].

Definition privacyText : string :=
  "{" ++ quoted "hasCookieBanner" ++ ":false," ++ quoted "hasPrivacyPolicy" ++ ":true,"
      ++ quoted "adaIssues" ++ ":true}".

Definition privacyAnalysis : JSValue :=
  JObj [ ("hasCookieBanner", JBool false); ("hasPrivacyPolicy", JBool true);
         ("adaIssues", JBool true) ].

Definition privacyWorld : World :=
  sampleWorld samplePage (inr privacyText) [(privacyText, privacyAnalysis)].

(* ===================================================================== *)
(** ** [fetch] responses and conversions to string *)
(* ===================================================================== *)

(** What the callers read of a response: its status and its body. *)
Record Response : Type := mkResponse { respStatus : N; respBody : string }.

(** [response.ok]: the status is in the range 200-299. *)
Definition ok (response : Response) : bool :=
  ((200 <=? respStatus response) && (respStatus response <=? 299))%N.

Inductive FetchOutcome : Type :=
| FetchRejected (e : JSError)
| FetchResponse (response : Response).

(** [await response.json()] *)
Definition json (response : Response) : M JSValue :=
  w <- ask ;;
  liftSum (JSON_parse w (respBody response)).

(** [String(n)] for an integer. *)
Definition Number_toString (n : Z) : string :=
  if n <? 0 then "-" ++ JsString.ofN (Z.to_N (- n)) else JsString.ofN (Z.to_N n).

Section Conversions.

(** ToString of an array or an object goes through their [toString]
    properties and may throw; it is left to the engine. *)
Variable ToString_outside : JSValue -> JSError + string.

(** A value inside a template literal. *)
Definition templateValue (v : JSValue) : M string :=
  match v with
  | JUndefined => ret "undefined"
  | JNull => ret "null"
  | JBool true => ret "true"
  | JBool false => ret "false"
  | JNum n => ret (Number_toString n)
  | JStr s => ret s
  | JArr _ | JObj _ => liftSum (ToString_outside v)
  end.

End Conversions.

(* ===================================================================== *)
(** ** bedrock-client.ts *)
(* ===================================================================== *)

Module Bedrock.

Definition modelId : string := "us.anthropic.claude-3-7-sonnet-20250219-v1:0".

Definition endpoint (config : BedrockConfig) : string :=
  "https://bedrock-runtime." ++ region config ++ ".amazonaws.com/model/" ++ modelId
  ++ "/converse".

Section Client.

(** The signed request [aws.fetch(endpoint, ...)]: the credentials, the
    endpoint and the two prompts of the request body are what varies. *)
Variable aws_fetch : BedrockConfig -> string -> string -> string -> FetchOutcome.
Variable ToString_outside : JSValue -> JSError + string.
(** [v > 0] for a string, an array or an object. *)
Variable gt0_outside : JSValue -> JSError + bool.

(** [`${errorDetails.message || errorText}`] *)
Definition detail (errorDetails : JSValue) (errorText : string) : M string :=
  message <- readProp errorDetails "message" ;;
  templateValue ToString_outside (js_or message (JStr errorText)).

(** [v > 0] *)
Definition gt0 (v : JSValue) : M bool :=
  match v with
  | JNum n => ret (0 <? n)
  | JBool b => ret b
  | JUndefined | JNull => ret false
  | JStr _ | JArr _ | JObj _ => liftSum (gt0_outside v)
  end.

(** [content.length > 0] *)
Definition lengthPositive (content : JSValue) : M bool :=
  w <- ask ;;
  match content with
  | JArr items => ret (negb (Nat.eqb (List.length items) 0))
  | JStr s => ret (negb (String.eqb s ""))
  | JObj fields => gt0 (lookup fields "length")
  | JBool _ | JNum _ => ret false
  | JUndefined | JNull => raise (nullReadError w "length")
  end.

(** [content[0]].  Indexing a string gives a string of one code unit; the
    only thing read of it is its property [text], which no string has. *)
Definition firstBlock (content : JSValue) : JSValue :=
  match content with
  | JArr items => nth 0 items JUndefined
  | JObj fields => lookup fields "0"
  | JStr s => JStr (String.substring 0 1 s)
  | _ => JUndefined
  end.

Definition noText : JSError := Error "No text content in Bedrock Converse response".

Definition invokeClaudeSonnet (config : BedrockConfig)
    (systemPrompt userPrompt : string) : M JSValue :=
  catch
    (w <- ask ;;
     match aws_fetch config (endpoint config) systemPrompt userPrompt with
     | FetchRejected e => raise e
     | FetchResponse response =>
         if negb (ok response) then
           let errorText := respBody response in
           errorDetails <- catch (liftSum (JSON_parse w errorText))
                                 (fun _ => ret (JObj [("message", JStr errorText)])) ;;
           (* Handle specific AWS error types *)
           if (respStatus response =? 403)%N then
             d <- detail errorDetails errorText ;;
             raise (Error ("AWS Access Denied (403): Check IAM permissions for bedrock:InvokeModel. Error: "
                           ++ d))
           else if (respStatus response =? 404)%N then
             d <- detail errorDetails errorText ;;
             raise (Error ("Model Not Found (404): Claude 3.7 Sonnet may not be enabled in "
                           ++ region config
                           ++ ". Enable it in AWS Bedrock Console. Error: " ++ d))
           else if (respStatus response =? 429)%N then
             d <- detail errorDetails errorText ;;
             raise (Error ("Rate Limited (429): Too many requests. Wait and retry. Error: " ++ d))
           else if (respStatus response =? 400)%N then
             d <- detail errorDetails errorText ;;
             raise (Error ("Bad Request (400): Invalid model ID or request format. Error: " ++ d))
           else
             d <- detail errorDetails errorText ;;
             raise (Error ("Bedrock API error (" ++ JsString.ofN (respStatus response) ++ "): "
                           ++ d))
         else
           responseBody <- json response ;;
           (* Extract text from Converse API response *)
           output <- readProp responseBody "output" ;;
           let message := field output "message" in
           let content := field message "content" in
           hasContent <- (if truthy output && truthy message && truthy content
                          then lengthPositive content else ret false) ;;
           if hasContent then
             let contentBlock := firstBlock content in
             text <- readProp contentBlock "text" ;;
             if truthy text then ret text else raise noText
           else raise noText
     end)
    (fun error => raise error).

End Client.

End Bedrock.

(* ===================================================================== *)
(** ** lambda-invoke.ts *)
(* ===================================================================== *)

Module Lambda.

Record LambdaInvokeOptions : Type := mkOptions {
  functionArn : string;
  region : string;
  accessKeyId : string;
  secretAccessKey : string;
  payload : JSValue
}.

(** [functionArn.split(":").pop() || functionArn] *)
Definition functionName (functionArn : string) : string :=
  let popped := List.last (Url.splitOn (String.length functionArn) ":" functionArn) "" in
  if String.eqb popped "" then functionArn else popped.

Definition lambdaUrl (region functionName : string) : string :=
  "https://lambda." ++ region ++ ".amazonaws.com/2015-03-31/functions/" ++ functionName
  ++ "/invocations".

Section Invoke.

(** The signed request [aws.fetch(lambdaUrl, ...)]. *)
Variable aws_fetch : LambdaInvokeOptions -> string -> FetchOutcome.

Definition invokeLambda (options : LambdaInvokeOptions) : M JSValue :=
  let functionName := functionName (functionArn options) in
  let lambdaUrl := lambdaUrl (region options) functionName in
  match aws_fetch options lambdaUrl with
  | FetchRejected e => raise e
  | FetchResponse response =>
      if negb (ok response) then
        raise (Error ("Lambda invocation failed: " ++ JsString.ofN (respStatus response)))
      else
        json response
  end.

End Invoke.

End Lambda.

(* ===================================================================== *)
(** ** The worker: [POST /api/scan] *)
(* ===================================================================== *)

Module Worker.

(** The bindings of [c.env] the handler reads; [None] is [undefined]. *)
Record Env : Type := mkEnv {
  LAMBDA_SCANNER_ARN : option string;
  AWS_ACCESS_KEY_ID : option string;
  AWS_SECRET_ACCESS_KEY : option string;
  AWS_REGION : option string;
  FIRECRAWL_API_KEY : option string
}.

(** Truthiness of a binding. *)
Definition present (binding : option string) : bool := negb (missing binding).

Definition orElse (binding : option string) (default : string) : string :=
  match binding with
  | Some s => if String.eqb s "" then default else s
  | None => default
  end.

(** What [c.json] is given: a JSON value, or the result of [analyzeUrl]. *)
Inductive Body : Type :=
| BodyValue (v : JSValue)
| BodyResult (r : ScanResult).

Record Reply : Type := mkReply { replyStatus : N; replyBody : Body }.

(** [c.json(v)] and [c.json(v, status)] *)
Definition c_json (body : Body) (status : N) : Reply := mkReply status body.

(** The object of the inner [catch]. *)
Definition lambdaFailure (message : string) : JSValue :=
  JObj [ ("success", JBool false);
         ("error", JStr ("Lambda scan failed: " ++ message));
         ("riskScore", JNum 0);
         ("hasCookieBanner", JBool false);
         ("hasPrivacyPolicy", JBool false);
         ("hasAiFeatures", JBool false);
         ("adaIssues", JBool true);
         ("aiRetentionIssues", JBool true);
         ("gdprIssues", JBool true);
         ("shadowAiIssues", JBool true);
         ("detectedIssues", JArr [JStr "Scan temporarily unavailable - please try again"]) ].

(** The object of the outer [catch]. *)
Definition scanUnavailable : JSValue :=
  JObj [ ("error", JStr "Failed to scan URL");
         ("success", JBool false);
         ("riskScore", JNum 64);
         ("hasCookieBanner", JBool false);
         ("hasPrivacyPolicy", JBool false);
         ("hasAiFeatures", JBool false);
         ("adaIssues", JBool true);
         ("aiRetentionIssues", JBool true);
         ("gdprIssues", JBool true);
         ("shadowAiIssues", JBool true);
         ("detectedIssues", JArr [JStr "Scan temporarily unavailable - please try again"]) ].

(** The reply of the outer [catch]. *)
Definition unavailable (error : JSError) : Reply :=
  let statusCode :=
    if JsString.includes (errMessage error) "429"
       || JsString.includes (errMessage error) "rate limit"
    then 429%N else 500%N in
  c_json (BodyValue scanUnavailable) statusCode.

Definition urlRequired : Reply :=
  c_json (BodyValue (JObj [("error", JStr "URL is required")])) 400.

Definition invalidUrlFormat : Reply :=
  c_json (BodyValue (JObj [("error", JStr "Invalid URL format")])) 400.

(** [url.startsWith('http') ? url : `https://${url}`] *)
Definition withScheme (url : string) : string :=
  if JsString.startsWith url "http" then url else "https://" ++ url.

Section Scan.

Variable aws_fetch : Lambda.LambdaInvokeOptions -> string -> FetchOutcome.
Variable ToString_outside : JSValue -> JSError + string.

(** The Lambda branch, with its own [try] and [catch]. *)
Definition lambdaScan (env : Env) (url : string) : M Reply :=
  catch
    (result <- Lambda.invokeLambda aws_fetch
                 (Lambda.mkOptions (orElse (LAMBDA_SCANNER_ARN env) "")
                                   (orElse (AWS_REGION env) "us-east-1")
                                   (orElse (AWS_ACCESS_KEY_ID env) "")
                                   (orElse (AWS_SECRET_ACCESS_KEY env) "")
                                   (JObj [ ("url", JStr (withScheme url));
                                           ("userId", JStr "anonymous");
                                           ("isScheduledScan", JBool false) ])) ;;
     (* the log line reads [result.riskScore] into a template literal *)
     logged <- readProp result "riskScore" ;;
     _ <- templateValue ToString_outside logged ;;
     ret (c_json (BodyValue result) 200))
    (fun lambdaError =>
       ret (c_json (BodyValue (lambdaFailure (errMessage lambdaError))) 500)).

(** The local fallback. *)
Definition localScan (env : Env) (url : string) : M Reply :=
  let bedrockConfig :=
    if present (AWS_ACCESS_KEY_ID env) && present (AWS_SECRET_ACCESS_KEY env)
       && present (AWS_REGION env)
    then Some (mkBedrockConfig (orElse (AWS_ACCESS_KEY_ID env) "")
                               (orElse (AWS_SECRET_ACCESS_KEY env) "")
                               (orElse (AWS_REGION env) ""))
    else None in
  result <- analyzeUrl url (FIRECRAWL_API_KEY env) bedrockConfig ;;
  ret (c_json (BodyResult result) 200).

(** [app.post("/api/scan", ...)], from the text of the request body to the
    reply.  The [url] of the body is any JSON value: calling [startsWith]
    on one that is not a string throws inside the inner [try]. *)
Definition scan (env : Env) (requestBody : string) : M Reply :=
  catch
    (w <- ask ;;
     body <- liftSum (JSON_parse w requestBody) ;;
     url <- readProp body "url" ;;
     if negb (truthy url) then
       ret urlRequired
     else
       (* Validate URL format *)
       valid <- catch
                  (match url with
                   | JStr s => _ <- new_URL (withScheme s) ;; ret true
                   | _ => raise (mkError "TypeError" "url.startsWith is not a function")
                   end)
                  (fun _ => ret false) ;;
       match valid, url with
       | true, JStr s =>
           if present (LAMBDA_SCANNER_ARN env) && present (AWS_ACCESS_KEY_ID env)
              && present (AWS_SECRET_ACCESS_KEY env)
           then lambdaScan env s
           else localScan env s
       | _, _ => ret invalidUrlFormat
       end)
    (fun error => ret (unavailable error)).

End Scan.

End Worker.

(* ===================================================================== *)
(** ** stripe-api.ts: [verifyWebhookSignature] *)
(* ===================================================================== *)

Module Stripe.

(** [s.split(sep)] for a separator of one character. *)
Definition split (sep : ascii) (s : string) : list string :=
  Url.splitOn (String.length s) sep s.

(** [parts[1]] *)
Definition second (parts : list string) : option string := nth_error parts 1.

(** [n.toString(16)] for [n] below 16. *)
Definition hexDigit (n : N) : ascii :=
  match n with
  | 0 => "0" | 1 => "1" | 2 => "2" | 3 => "3" | 4 => "4" | 5 => "5" | 6 => "6" | 7 => "7"
  | 8 => "8" | 9 => "9" | 10 => "a" | 11 => "b" | 12 => "c" | 13 => "d" | 14 => "e"
  | _ => "f"
  end%N%char.

(** [b.toString(16).padStart(2, '0')] for a byte. *)
Definition hexByte (b : ascii) : string :=
  let n := N_of_ascii b in
  String (hexDigit (n / 16)) (String (hexDigit (n mod 16)) EmptyString).

(** [signatureArray.map(...).join('')] *)
Fixpoint hex (signatureArray : string) : string :=
  match signatureArray with
  | EmptyString => EmptyString
  | String b rest => hexByte b ++ hex rest
  end.

Section Verify.

(** [crypto.subtle.importKey] followed by [crypto.subtle.sign]: the digest
    bytes for a key and a message, or the rejection. *)
Variable HMAC_SHA256 : string -> string -> JSError + string.

Definition verifyWebhookSignature (payload signature secret : string) : JSError + bool :=
  (* Parse the signature header *)
  let elements := split "," signature in
  let timestamp :=
    match find (fun e => JsString.startsWith e "t=") elements with
    | Some e => second (split "=" e)
    | None => None
    end in
  let signatures := filter (fun e => JsString.startsWith e "v1=") elements in
  match timestamp with
  | None => inr false
  | Some timestamp =>
      if String.eqb timestamp "" || Nat.eqb (List.length signatures) 0 then inr false
      else
        (* Construct the signed payload *)
        let signedPayload := timestamp ++ "." ++ payload in
        match HMAC_SHA256 secret signedPayload with
        | inl e => inl e
        | inr signatureBuffer =>
            let expectedSignature := hex signatureBuffer in
            (* Compare with provided signatures *)
            inr (existsb
                   (fun sig =>
                      match second (split "=" sig) with
                      | Some providedSignature =>
                          String.eqb providedSignature expectedSignature
                      | None => false
                      end)
                   signatures)
        end
  end.

End Verify.

End Stripe.

(* ===================================================================== *)
(** ** The worker: the scan pre-save of [POST /api/checkout] *)
(* ===================================================================== *)

Module Checkout.




Section PreSave.

Variable JSON_stringify : JSValue -> string.


End PreSave.

End Checkout.

(* ===================================================================== *)
(** ** Further specification-side definitions *)
(* ===================================================================== *)

(** "The scan of [url] gets as far as the content fetch": both credentials
    are configured, the normalized URL parses to [u], and its domain is not
    matched by the list. *)
Definition reachesFetch (w : World) (url key : string) (u : URLRecord) : Prop :=
  key <> ""
  /\ new_URL (normalizeUrl url) w = (Normal u, [])
  /\ isKnownCompliant (domainOf u) = false.

(** The markers the [catch] block of [analyzeUrl] looks for, in the order of
    its tests. *)
Definition awsMarkers : list string :=
  [ "Access Denied"; "403"; "404"; "Not Found"; "429"; "Throttl"; "400"; "Bad Request" ].

Definition mentionsNone (message : string) (markers : list string) : bool :=
  forallb (fun m => negb (JsString.includes message m)) markers.

(** The names [analyzeThirdPartyScripts] can report: the thirteen of the
    pattern table, then the four major trackers. *)
Definition trackerNames : list string :=
  (map fst trackers ++ ["Google Analytics"; "Facebook Pixel"; "Hotjar"; "Intercom"])%list.

Definition isFirecrawlCall (c : Call) : bool :=
  match c with CallFirecrawl _ _ => true | _ => false end.

Definition isClaudeCall (c : Call) : bool :=
  match c with CallClaude _ _ _ => true | _ => false end.

(** A world like [sampleWorld] whose HTTP probe answers [probe]. *)
Definition probeWorld (probe : ProbeOutcome) : World :=
  {| URL_outside := fun _ => None;
     JSON_parse := fun _ => inl syntaxError;
     nullReadError := fun k => mkError "TypeError" k;
     convertError := fun _ => mkError "TypeError" "Cannot convert object to primitive value";
     invalidUrlError := fun _ => mkError "TypeError" "Invalid URL";
     Date_toISOString := "2026-01-15T09:00:00.000Z";
     Firecrawl := fun _ _ => samplePage;
     Head := fun _ => HeadRejected;
     HeadManual := fun _ => probe;
     Claude := fun _ _ _ => inr "{}" |}.



Definition emptyPage : ScrapeOutcome :=
  ScrapeOk (Some (mkScrapeData (Some "") None (Some "<html></html>"))).

Definition emptyPageWorld : World := sampleWorld emptyPage (inr "{}") [].

(** What [`${errorDetails.message || errorText}`] evaluates to for the
    usual error bodies: a body that is not JSON, or a JSON object whose
    [message] is a non-empty string or is absent. *)
Definition detailIs (w : World) (errorText d : string) : Prop :=
  ((exists e, JSON_parse w errorText = inl e) /\ d = errorText)
  \/ (exists fields,
        JSON_parse w errorText = inr (JObj fields)
        /\ ((lookup fields "message" = JStr d /\ d <> "")
            \/ (truthy (lookup fields "message") = false /\ d = errorText))).

(** [output.message.content] of a Converse response body. *)
Definition converseContent (responseBody : JSValue) : JSValue :=
  field (field (field responseBody "output") "message") "content".

(** Engines for the conversions the model leaves open. *)
Definition plainToString : JSValue -> JSError + string := fun _ => inr "[object Object]".
Definition plainGt0 : JSValue -> JSError + bool := fun _ => inr false.

(** Bedrock answers [response] to every request. *)
Definition bedrockAnswers (response : Response)
    : BedrockConfig -> string -> string -> string -> FetchOutcome :=
  fun _ _ _ _ => FetchResponse response.

Definition accessDeniedBody : string :=
  "{" ++ quoted "message" ++ ":" ++ quoted "User is not authorized" ++ "}".

Definition accessDenied : Response := mkResponse 403 accessDeniedBody.

Definition converseBody : string :=
  "{" ++ quoted "output" ++ ":{" ++ quoted "message" ++ ":{" ++ quoted "content" ++ ":[{"
  ++ quoted "text" ++ ":" ++ quoted "{}" ++ "}]}}}".

Definition converseValue : JSValue :=
  JObj [("output", JObj [("message", JObj [("content", JArr [JObj [("text", JStr "{}")]])])])].

Definition converseOk : Response := mkResponse 200 converseBody.

(** A world whose [JSON.parse] knows the two bodies above, and whose model
    oracle fails with [e]. *)
Definition bedrockWorld (e : JSError) : World :=
  sampleWorld samplePage (inl e)
    [ (accessDeniedBody, JObj [("message", JStr "User is not authorized")]);
      (converseBody, converseValue) ].


(** The model oracle of a scan that runs against the client of
    bedrock-client.ts: what the client throws is thrown, and what it
    returns is the text handed to [JSON.parse], which converts it to a
    string. *)
Definition clientAnswer
    (aws_fetch : BedrockConfig -> string -> string -> string -> FetchOutcome)
    (ToString_outside : JSValue -> JSError + string)
    (gt0_outside : JSValue -> JSError + bool)
    (w : World) (config : BedrockConfig) (system userPrompt : string)
    : JSError + string :=
  match fst (Bedrock.invokeClaudeSonnet aws_fetch ToString_outside gt0_outside
               config system userPrompt w) with
  | Thrown e => inl e
  | Normal text =>
      match fst (templateValue ToString_outside text w) with
      | Normal s => inr s
      | Thrown e => inl e
      end
  end.

(** The world [w] with the client in the place of its model oracle; [render]
    is the template literal of lines 479-583, which turns the inputs of the
    prompt into the user prompt. *)
Definition clientWorld
    (aws_fetch : BedrockConfig -> string -> string -> string -> FetchOutcome)
    (ToString_outside : JSValue -> JSError + string)
    (gt0_outside : JSValue -> JSError + bool)
    (render : PromptInputs -> string) (w : World) : World :=
  {| URL_outside := URL_outside w;
     JSON_parse := JSON_parse w;
     nullReadError := nullReadError w;
     convertError := convertError w;
     invalidUrlError := invalidUrlError w;
     Date_toISOString := Date_toISOString w;
     Firecrawl := Firecrawl w;
     Head := Head w;
     HeadManual := HeadManual w;
     Claude := fun config system prompt =>
       clientAnswer aws_fetch ToString_outside gt0_outside w config system (render prompt) |}.

(** A rendering that keeps the opening of the template and the URL. *)
Definition promptOpening (p : PromptInputs) : string :=
  "Perform a comprehensive audit of this website: URL: " ++ pUrl p.

(** A 403 whose body is the JSON text [null], and a world that parses it. *)
Definition nullBody : Response := mkResponse 403 "null".

Definition nullBodyWorld : World :=
  sampleWorld samplePage (inl syntaxError) [("null", JNull)].

(** Lambda mode is selected. *)
Definition lambdaConfigured (env : Worker.Env) : bool :=
  Worker.present (Worker.LAMBDA_SCANNER_ARN env)
  && Worker.present (Worker.AWS_ACCESS_KEY_ID env)
  && Worker.present (Worker.AWS_SECRET_ACCESS_KEY env).

(** The options the handler gives to [invokeLambda]. *)
Definition scanOptions (env : Worker.Env) (url : string) : Lambda.LambdaInvokeOptions :=
  Lambda.mkOptions (Worker.orElse (Worker.LAMBDA_SCANNER_ARN env) "")
                   (Worker.orElse (Worker.AWS_REGION env) "us-east-1")
                   (Worker.orElse (Worker.AWS_ACCESS_KEY_ID env) "")
                   (Worker.orElse (Worker.AWS_SECRET_ACCESS_KEY env) "")
                   (JObj [ ("url", JStr (Worker.withScheme url));
                           ("userId", JStr "anonymous");
                           ("isScheduledScan", JBool false) ]).

(** The Bedrock configuration the local branch builds. *)
Definition localConfig (env : Worker.Env) : option BedrockConfig :=
  if Worker.present (Worker.AWS_ACCESS_KEY_ID env)
     && Worker.present (Worker.AWS_SECRET_ACCESS_KEY env)
     && Worker.present (Worker.AWS_REGION env)
  then Some (mkBedrockConfig (Worker.orElse (Worker.AWS_ACCESS_KEY_ID env) "")
                             (Worker.orElse (Worker.AWS_SECRET_ACCESS_KEY env) "")
                             (Worker.orElse (Worker.AWS_REGION env) ""))
  else None.

(** A value that a template literal prints without calling into it. *)
Definition primitive (v : JSValue) : bool :=
  match v with
  | JArr _ | JObj _ => false
  | _ => true
  end.

Definition localEnv : Worker.Env :=
  Worker.mkEnv None (Some "AKIAEXAMPLE") (Some "secret") (Some "us-east-1") (Some "fc-key").

Definition lambdaEnv : Worker.Env :=
  Worker.mkEnv (Some "arn:aws:lambda:us-east-1:123456789012:function:scanner")
               (Some "AKIAEXAMPLE") (Some "secret") None (Some "fc-key").

Definition scanRequest (url : string) : string :=
  "{" ++ quoted "url" ++ ":" ++ quoted url ++ "}".

(** Firecrawl answers [page]; [JSON.parse] knows the request for [url]. *)
Definition requestWorld (url : string) (page : ScrapeOutcome) : World :=
  sampleWorld page (inr "{}") [(scanRequest url, JObj [("url", JStr url)])].

Definition lambdaDown : Lambda.LambdaInvokeOptions -> string -> FetchOutcome :=
  fun _ _ => FetchResponse (mkResponse 503 "Service Unavailable").

Definition noLambda : Lambda.LambdaInvokeOptions -> string -> FetchOutcome :=
  fun _ _ => FetchRejected (Error "not configured").

(** The character [c] does not occur in [s]. *)
Fixpoint noChar (c : ascii) (s : string) : bool :=
  match s with
  | EmptyString => true
  | String d rest => negb (Ascii.eqb d c) && noChar c rest
  end.

(** The header Stripe sends for a timestamp and a signature. *)
Definition stripeHeader (timestamp signature : string) : string :=
  "t=" ++ timestamp ++ ",v1=" ++ signature.

(** An engine for the witness: the digest is two fixed bytes. *)
Definition fixedDigest : string -> string -> JSError + string :=
  fun _ _ => inr (String (ascii_of_nat 171) (String (ascii_of_nat 5) EmptyString)).


(** ASCII letters in upper case, every other byte unchanged. *)
Definition upperAscii (c : ascii) : ascii :=
  let n := nat_of_ascii c in
  if (Nat.leb 97 n && Nat.leb n 122)%bool then ascii_of_nat (n - 32) else c.

(** [f] applied to every byte. *)
Fixpoint mapBytes (f : ascii -> ascii) (s : string) : string :=
  match s with
  | EmptyString => EmptyString
  | String c rest => String (f c) (mapBytes f rest)
  end.

(** [f] only changes the case of ASCII letters. *)
Definition caseChange (f : ascii -> ascii) : Prop :=
  forall c, JsString.lowerAscii (f c) = JsString.lowerAscii c.

(* ===================================================================== *)
(** ** Strings and URLs on concrete inputs *)
(* ===================================================================== *)

Example includes_ex :
  JsString.includes "fakegoogle.com" "google.com" = true
  /\ JsString.includes "ht!tp" "http" = false
  /\ JsString.replace "www.example.com" "www." "" = "example.com"
  /\ JsString.trim "  example.com  " = "example.com"
  /\ JsString.ofN 403 = "403"
  /\ JsString.ofN 0 = "0".
Proof. repeat split; reflexivity. Qed.

Example url_parse_ex :
  Url.parse "https://google.com" = UrlParsed (mkURL "https:" "google.com")
  /\ Url.parse "https://google.com/anything" = UrlParsed (mkURL "https:" "google.com")
  /\ Url.parse "https://WWW.Example.com:8080/a?b#c" = UrlParsed (mkURL "https:" "www.example.com")
  /\ Url.parse "http://example.com" = UrlParsed (mkURL "http:" "example.com")
  /\ Url.parse "https://ht!tp://bad" = UrlParsed (mkURL "https:" "ht!tp")
  /\ Url.parse "https://" = UrlFailure
  /\ Url.parse "https://bad url" = UrlFailure
  /\ Url.parse "https://a:b" = UrlFailure
  /\ Url.parse "https://a:65536" = UrlFailure
  /\ Url.parse "https://1.2.3.4" = UrlOutside
  /\ Url.parse "https://user@host" = UrlOutside
  /\ Url.parse "ftp://host" = UrlOutside.
Proof. repeat split; reflexivity. Qed.

(* ===================================================================== *)
(** ** Reasoning about computations *)
(* ===================================================================== *)

Lemma bind_Normal {A B : Type} (m : M A) (k : A -> M B) (w : World) a cs :
  m w = (Normal a, cs) ->
  bind m k w = (fst (k a w), (cs ++ snd (k a w))%list).
Proof.
  intros H. cbn. rewrite H. destruct (k a w); reflexivity.
Qed.

Lemma bind_Thrown {A B : Type} (m : M A) (k : A -> M B) (w : World) e cs :
  m w = (Thrown e, cs) -> bind m k w = (Thrown e, cs).
Proof.
  intros H. cbn. rewrite H. reflexivity.
Qed.

Lemma bind_pure {A B : Type} (m : M A) (k : A -> M B) (w : World) a :
  m w = (Normal a, []) -> bind m k w = k a w.
Proof.
  intros H. rewrite (bind_Normal m k w a [] H). destruct (k a w); reflexivity.
Qed.

Lemma catch_Normal {A : Type} (m : M A) (h : JSError -> M A) (w : World) a cs :
  m w = (Normal a, cs) -> catch m h w = (Normal a, cs).
Proof.
  intros H. cbn. rewrite H. reflexivity.
Qed.

Lemma catch_Thrown {A : Type} (m : M A) (h : JSError -> M A) (w : World) e cs :
  m w = (Thrown e, cs) ->
  catch m h w = (fst (h e w), (cs ++ snd (h e w))%list).
Proof.
  intros H. cbn. rewrite H. destruct (h e w); reflexivity.
Qed.

Lemma readProp_field (v : JSValue) (k : string) (w : World) :
  nullish v = false -> readProp v k w = (Normal (field v k), []).
Proof.
  destruct v; intros H; try discriminate H; reflexivity.
Qed.

Lemma readProp_nullish (v : JSValue) (k : string) (w : World) :
  nullish v = true -> readProp v k w = (Thrown (nullReadError w k), []).
Proof.
  destruct v; intros H; try discriminate H; reflexivity.
Qed.

(* ===================================================================== *)
(** ** Truthiness of [||], [&&] and [!] *)
(* ===================================================================== *)

Lemma truthy_js_or a b : truthy (js_or a b) = truthy a || truthy b.
Proof. unfold js_or. destruct (truthy a) eqn:E; [exact E | reflexivity]. Qed.

Lemma truthy_js_and a b : truthy (js_and a b) = truthy a && truthy b.
Proof. unfold js_and. destruct (truthy a) eqn:E; [reflexivity | exact E]. Qed.

Lemma truthy_js_not a : truthy (js_not a) = negb (truthy a).
Proof. reflexivity. Qed.

Lemma js_or_falsy a b : truthy a = false -> js_or a b = b.
Proof. unfold js_or. intros ->. reflexivity. Qed.

Lemma falsy_not_true v : truthy v = false -> v <> JBool true.
Proof. intros H E. subst v. discriminate H. Qed.

(** [a && !b] is the boolean [true] exactly when [a] is truthy and [b] is
    not; in every other case it is falsy. *)
Lemma js_and_not_true a b :
  js_and a (js_not b) = JBool true <-> truthy a = true /\ truthy b = false.
Proof.
  unfold js_and, js_not. destruct (truthy a) eqn:Ea.
  - destruct (truthy b); cbn; split; intros H.
    + discriminate H.
    + destruct H as [_ H]. discriminate H.
    + split; reflexivity.
    + reflexivity.
  - split; intros H.
    + exfalso. exact (falsy_not_true a Ea H).
    + destruct H as [H _]. discriminate H.
Qed.

Lemma js_and_not_bool (f : bool) b :
  js_and (JBool f) (js_not b) = JBool (f && negb (truthy b)).
Proof. destruct f; reflexivity. Qed.

(* ===================================================================== *)
(** ** Cure eligibility *)
(* ===================================================================== *)

Lemma determineCureEligibility_returns (analysis : JSValue) (w : World) :
  nullish analysis = false ->
  determineCureEligibility analysis w = (Normal (cureValue analysis), []).
Proof.
  destruct analysis; intros H; try discriminate H; reflexivity.
Qed.

Lemma determineCureEligibility_throws (analysis : JSValue) (w : World) :
  nullish analysis = true ->
  determineCureEligibility analysis w = (Thrown (nullReadError w "hasAiFeatures"), []).
Proof.
  destruct analysis; intros H; try discriminate H; reflexivity.
Qed.

Lemma truthy_curable analysis :
  truthy (js_or (js_or (js_or (js_and (field analysis "hasAiFeatures")
                                      (js_not (field analysis "hasAiDisclosure")))
                              (js_not (field analysis "hasPrivacyPolicy")))
                       (js_not (field analysis "hasCookieBanner")))
                (field analysis "adaIssues"))
  = curableIndicator analysis.
Proof.
  rewrite !truthy_js_or, truthy_js_and, !truthy_js_not. reflexivity.
Qed.

Lemma truthy_nonCurable analysis :
  truthy (js_or (js_or (field analysis "socialScoring") (field analysis "discrimination"))
                (JBool (js_is_string (field (field analysis "piiExposure") "severity") "critical"
                        || js_is_string (field (field analysis "piiExposure") "severity") "high")))
  = nonCurableIndicator analysis.
Proof.
  rewrite !truthy_js_or. reflexivity.
Qed.

(** C4.  On every analysis object [determineCureEligibility] returns, and it
    returns [true] exactly when a curable indicator holds and no
    non-curable one does; whatever else it returns is falsy, and it is the
    boolean [false] when [adaIssues] is a boolean.  So of the four
    combinations of (curable, nonCurable) only (true, false) is eligible. *)
Theorem cure_eligibility_iff (w : World) (analysis : JSValue) :
  nullish analysis = false ->
  exists v,
    determineCureEligibility analysis w = (Normal v, [])
    /\ (v = JBool true <->
        curableIndicator analysis = true /\ nonCurableIndicator analysis = false)
    /\ truthy v = curableIndicator analysis && negb (nonCurableIndicator analysis)
    /\ (forall b, field analysis "adaIssues" = JBool b ->
        v = JBool (curableIndicator analysis && negb (nonCurableIndicator analysis))).
Proof.
  intros Hn. exists (cureValue analysis).
  split; [apply determineCureEligibility_returns; exact Hn|].
  unfold cureValue. split; [|split].
  - rewrite js_and_not_true, truthy_curable, truthy_nonCurable. reflexivity.
  - rewrite truthy_js_and, truthy_js_not, truthy_curable, truthy_nonCurable.
    reflexivity.
  - intros b Hb.
    pose proof (truthy_curable analysis) as Hc.
    pose proof (truthy_nonCurable analysis) as Hnc.
    revert Hc Hnc.
    set (C := js_or _ (field analysis "adaIssues")).
    set (N := js_or _ (JBool _)).
    intros Hc Hnc. unfold js_and at 1.
    destruct (truthy C) eqn:EC.
    + rewrite <- Hc, <- Hnc. reflexivity.
    + (* every disjunct is falsy, so [C] is its last operand [adaIssues] *)
      rewrite <- Hc. cbn. subst C.
      rewrite truthy_js_or in EC. apply orb_false_iff in EC. destruct EC as [E1 E2].
      rewrite (js_or_falsy _ _ E1). rewrite Hb in E2 |- *. cbn in E2. rewrite E2.
      reflexivity.
Qed.

(* ===================================================================== *)
(** ** The risk score *)
(* ===================================================================== *)

Lemma adjustmentTotal_bounds ssl headers scripts :
  0 <= adjustmentTotal ssl headers scripts <= 45.
Proof.
  unfold adjustmentTotal.
  destruct (hasSSL ssl), (mixedContent ssl), (score headers <? 50),
    ((5 <? Z.of_nat (List.length (other scripts))) && negb (privacyPolicyMentions scripts));
    lia.
Qed.

Lemma applyAdjustments_num n ssl headers scripts :
  applyAdjustments (ScoreNum n) ssl headers scripts
  = ScoreNum (n + adjustmentTotal ssl headers scripts).
Proof.
  unfold applyAdjustments, adjustmentTotal.
  destruct (hasSSL ssl), (mixedContent ssl), (score headers <? 50),
    ((5 <? Z.of_nat (List.length (other scripts))) && negb (privacyPolicyMentions scripts));
    cbn [negb increase]; f_equal; lia.
Qed.

Lemma aggregateRiskScore_num v b ssl headers scripts :
  numericBase v = Some b ->
  aggregateRiskScore v ssl headers scripts
  = ScoreNum (Z.min (b + adjustmentTotal ssl headers scripts) 100).
Proof.
  intros H. unfold aggregateRiskScore.
  assert (baseRiskScore v = ScoreNum b) as ->.
  { destruct v; try discriminate H; cbn in H; injection H as <-.
    - reflexivity.
    - unfold baseRiskScore, js_or. cbn. destruct (n =? 0); reflexivity. }
  rewrite applyAdjustments_num. reflexivity.
Qed.

(** The final score never exceeds 100, and it is at least 0 whenever the
    model's number is not negative. *)
Lemma aggregateRiskScore_range v b ssl headers scripts :
  numericBase v = Some b ->
  exists r, aggregateRiskScore v ssl headers scripts = ScoreNum r
            /\ r <= 100 /\ (0 <= b -> 0 <= r).
Proof.
  intros H. rewrite (aggregateRiskScore_num _ _ _ _ _ H).
  pose proof (adjustmentTotal_bounds ssl headers scripts).
  eexists. split; [reflexivity|]. lia.
Qed.

(** The arithmetic throws exactly on a score that cannot be converted. *)
Lemma aggregateRiskScore_throws v ssl headers scripts :
  convertible v = false ->
  aggregateRiskScore v ssl headers scripts = ScoreTypeError v.
Proof.
  intros H. unfold aggregateRiskScore.
  assert (baseRiskScore v = ScoreCoerced v []) as ->.
  { destruct v; try discriminate H; reflexivity. }
  unfold applyAdjustments.
  destruct (negb (hasSSL ssl)), (mixedContent ssl), (score headers <? 50),
    ((5 <? Z.of_nat (List.length (other scripts))) && negb (privacyPolicyMentions scripts));
    cbn [increase Math_min]; rewrite ?H; cbn [increase Math_min]; rewrite ?H; reflexivity.
Qed.

Lemma aggregateRiskScore_converts v ssl headers scripts x :
  convertible v = true ->
  aggregateRiskScore v ssl headers scripts <> ScoreTypeError x.
Proof.
  intros H. unfold aggregateRiskScore.
  assert (baseRiskScore v = ScoreCoerced v []
          \/ exists n, baseRiskScore v = ScoreNum n) as [-> | [n ->]].
  { unfold baseRiskScore, js_or. destruct (truthy v); [|right; eexists; reflexivity].
    destruct v; try (left; reflexivity); right; eexists; reflexivity. }
  - unfold applyAdjustments.
    destruct (negb (hasSSL ssl)), (mixedContent ssl), (score headers <? 50),
      ((5 <? Z.of_nat (List.length (other scripts))) && negb (privacyPolicyMentions scripts));
      cbn [increase Math_min]; rewrite ?H; cbn [increase Math_min]; rewrite ?H;
      cbn [increase Math_min]; rewrite ?H; cbn [increase Math_min]; rewrite ?H;
      cbn [increase Math_min]; rewrite ?H; discriminate.
  - rewrite applyAdjustments_num. discriminate.
Qed.

(* ===================================================================== *)
(** ** Third-party scripts *)
(* ===================================================================== *)

Lemma existsb_eqb_In (x : string) (l : list string) :
  existsb (String.eqb x) l = true <-> In x l.
Proof.
  rewrite existsb_exists. split.
  - intros [y [Hy E]]. apply String.eqb_eq in E. subst y. exact Hy.
  - intros H. exists x. split; [exact H | apply String.eqb_refl].
Qed.

Lemma dedup_spec (l seen : list string) :
  NoDup (dedup seen l) /\ (forall x, In x (dedup seen l) -> ~ In x seen).
Proof.
  revert seen. induction l as [|a l IH]; intros seen; cbn.
  - split; [constructor | intros x []].
  - destruct (existsb (String.eqb a) seen) eqn:E.
    + apply IH.
    + destruct (IH (a :: seen)) as [Hnd Hout]. split.
      * constructor; [|exact Hnd].
        intros Hin. apply (Hout a Hin). left. reflexivity.
      * intros x [<- | Hin].
        -- intros Hs. apply existsb_eqb_In in Hs. rewrite Hs in E. discriminate E.
        -- intros Hs. apply (Hout x Hin). right. exact Hs.
Qed.

(** The detected trackers are pairwise distinct. *)
Lemma analyzeThirdPartyScripts_distinct (html content : string) :
  NoDup (other (analyzeThirdPartyScripts html content)).
Proof. unfold analyzeThirdPartyScripts. cbn [other]. apply dedup_spec. Qed.

Example six_trackers_detected :
  analyzeThirdPartyScripts sixTrackerMarkup silentText
  = mkThirdPartyScripts false false true true
      ["Google Tag Manager"; "Mixpanel"; "Segment"; "Amplitude"; "Hotjar"; "Intercom"]
      false.
Proof. vm_compute. reflexivity. Qed.

(* ===================================================================== *)
(** ** Runs of [analyzeUrl] *)
(* ===================================================================== *)

Lemma new_URL_makes_no_call (s : string) (w : World) : snd (new_URL s w) = [].
Proof.
  unfold new_URL. cbn. destruct (Url.parse s); cbn; try reflexivity.
  destruct (URL_outside w s); reflexivity.
Qed.

Lemma missing_false (key : string) : key <> "" -> missing (Some key) = false.
Proof.
  intros H. cbn. destruct (String.eqb_spec key ""); [contradiction | reflexivity].
Qed.

(** With both credentials configured [analyzeUrl] is the URL check followed
    by the guarded scan. *)
Lemma analyzeUrl_configured (url key : string) (config : BedrockConfig) (w : World) :
  key <> "" ->
  analyzeUrl url (Some key) (Some config) w
  = match new_URL (normalizeUrl url) w with
    | (Normal _, _) =>
        match scanBody (normalizeUrl url) key config w with
        | (Normal r, cs) => (Normal r, cs)
        | (Thrown e, cs) => (Normal (scanFailed url (Date_toISOString w) e), cs)
        end
    | (Thrown _, _) => (Normal invalidUrlResult, [])
    end.
Proof.
  intros Hk. unfold analyzeUrl. cbn -[normalizeUrl new_URL scanBody missing].
  rewrite (missing_false key Hk).
  pose proof (new_URL_makes_no_call (normalizeUrl url) w) as Hc.
  destruct (new_URL (normalizeUrl url) w) as [[u|e] cs]; cbn in Hc; subst cs;
    cbn -[normalizeUrl scanBody].
  - destruct (scanBody (normalizeUrl url) key config w) as [[r|e] cs];
      cbn; rewrite ?app_nil_r; reflexivity.
  - reflexivity.
Qed.

(** Lines 299-324: without a Firecrawl key the scan is the configuration
    failure, whatever the URL and the other credentials. *)
Lemma analyzeUrl_without_key (url : string) (key : option string)
    (config : option BedrockConfig) (w : World) :
  missing key = true ->
  analyzeUrl url key config w
  = (Normal (failureResult
               [ "TECHNICAL ERROR: FIRECRAWL_API_KEY not configured";
                 "Add your Firecrawl API key in Settings " ++ arrow ++ " Secrets";
                 "Get API key from https://firecrawl.dev" ]
               (ScanDataConfig "MissingConfig" "FIRECRAWL_API_KEY not configured"
                               (Date_toISOString w) url)), []).
Proof.
  intros Hm. unfold analyzeUrl. cbn -[normalizeUrl new_URL scanBody missing].
  rewrite Hm. reflexivity.
Qed.

(** Lines 327-353: with a key but without the Bedrock credentials. *)
Lemma analyzeUrl_without_bedrock (url key : string) (w : World) :
  key <> "" ->
  analyzeUrl url (Some key) None w
  = (Normal (failureResult
               [ "TECHNICAL ERROR: AWS Bedrock credentials not configured";
                 "Add AWS_ACCESS_KEY_ID, AWS_SECRET_ACCESS_KEY, and AWS_REGION in Settings "
                   ++ arrow ++ " Secrets";
                 "Enable Claude 3.7 Sonnet in AWS Bedrock Console (us-east-1)" ]
               (ScanDataConfig "MissingCredentials" "AWS Bedrock not configured"
                               (Date_toISOString w) url)), []).
Proof.
  intros Hk. unfold analyzeUrl. cbn -[normalizeUrl new_URL scanBody missing].
  rewrite (missing_false key Hk). reflexivity.
Qed.

Lemma compileResult_run (normalizedUrl : string) (ev : Evidence)
    (analysis : JSValue) (w : World) :
  nullish analysis = false ->
  compileResult normalizedUrl ev analysis w
  = if convertible (field analysis "riskScore")
    then (Normal (successResult normalizedUrl ev analysis (field analysis "riskScore")
                                (cureValue analysis) (Date_toISOString w)), [])
    else (Thrown (convertError w (field analysis "riskScore")), []).
Proof.
  intros Hn. unfold compileResult.
  rewrite (bind_pure ask _ w w eq_refl).
  rewrite (bind_pure _ _ w _ (readProp_field analysis "riskScore" w Hn)).
  destruct (convertible (field analysis "riskScore")) eqn:Hc.
  - assert (bind (determineCureEligibility analysis)
                 (fun eligible =>
                    ret (successResult normalizedUrl ev analysis (field analysis "riskScore")
                                       eligible (Date_toISOString w))) w
            = (Normal (successResult normalizedUrl ev analysis (field analysis "riskScore")
                                     (cureValue analysis) (Date_toISOString w)), [])) as Hrest
        by (rewrite (bind_pure _ _ w _ (determineCureEligibility_returns analysis w Hn));
            reflexivity).
    destruct (aggregateRiskScore _ _ _ _) eqn:Ha; try exact Hrest.
    destruct (aggregateRiskScore_converts _ _ _ _ _ Hc Ha).
  - rewrite (aggregateRiskScore_throws _ _ _ _ Hc). reflexivity.
Qed.

Lemma compileResult_returns (normalizedUrl : string) (ev : Evidence)
    (analysis : JSValue) (w : World) :
  nullish analysis = false ->
  convertible (field analysis "riskScore") = true ->
  compileResult normalizedUrl ev analysis w
  = (Normal (successResult normalizedUrl ev analysis (field analysis "riskScore")
                           (cureValue analysis) (Date_toISOString w)), []).
Proof.
  intros Hn Hc. rewrite (compileResult_run _ _ _ _ Hn), Hc. reflexivity.
Qed.

Lemma compileResult_throws (normalizedUrl : string) (ev : Evidence)
    (analysis : JSValue) (w : World) :
  nullish analysis = true ->
  compileResult normalizedUrl ev analysis w
  = (Thrown (nullReadError w "riskScore"), []).
Proof.
  destruct analysis; intros H; try discriminate H; reflexivity.
Qed.

Lemma semanticAudit_run (config : BedrockConfig) (normalizedUrl : string)
    (ev : Evidence) (w : World) :
  semanticAudit config normalizedUrl ev w
  = (match Claude w config systemPrompt (analysisPrompt normalizedUrl ev) with
     | inl e => Thrown e
     | inr text => match JSON_parse w text with
                   | inl e => Thrown e
                   | inr analysis => Normal analysis
                   end
     end, [claudeCall config normalizedUrl ev]).
Proof.
  unfold semanticAudit, invokeClaudeSonnet, claudeCall. cbn.
  destruct (Claude w config systemPrompt (analysisPrompt normalizedUrl ev)) as [e|text];
    cbn; [reflexivity|].
  destruct (JSON_parse w text); reflexivity.
Qed.

Lemma scanBody_run (normalizedUrl key : string) (config : BedrockConfig)
    (w : World) (u : URLRecord) :
  new_URL normalizedUrl w = (Normal u, []) ->
  scanBody normalizedUrl key config w
  = if isKnownCompliant (domainOf u) then
      (Normal (baselineResult (domainOf u) (Date_toISOString w) normalizedUrl), [])
    else
      match collectEvidence normalizedUrl key w with
      | (Thrown e, cs) => (Thrown e, cs)
      | (Normal ev, cs) =>
          match fst (semanticAudit config normalizedUrl ev w) with
          | Thrown e => (Thrown e, (cs ++ [claudeCall config normalizedUrl ev])%list)
          | Normal analysis =>
              (fst (compileResult normalizedUrl ev analysis w),
               (cs ++ [claudeCall config normalizedUrl ev])%list)
          end
      end.
Proof.
  intros Hu. unfold scanBody.
  cbn -[new_URL isKnownCompliant domainOf collectEvidence semanticAudit compileResult].
  rewrite Hu.
  cbn -[isKnownCompliant domainOf collectEvidence semanticAudit compileResult].
  destruct (isKnownCompliant (domainOf u)); [reflexivity|].
  cbn -[collectEvidence semanticAudit compileResult].
  destruct (collectEvidence normalizedUrl key w) as [[ev|e] cs]; [|reflexivity].
  rewrite semanticAudit_run.
  destruct (Claude w config systemPrompt (analysisPrompt normalizedUrl ev)) as [e|text];
    cbn -[compileResult]; [reflexivity|].
  destruct (JSON_parse w text) as [e|analysis]; cbn -[compileResult]; [reflexivity|].
  destruct (nullish analysis) eqn:Hn.
  - rewrite (compileResult_throws _ _ _ _ Hn). reflexivity.
  - rewrite (compileResult_run _ _ _ _ Hn).
    destruct (convertible (field analysis "riskScore")); rewrite ?app_nil_r; reflexivity.
Qed.

(** What [analyzeUrl] makes of the model's answer. *)
Lemma analyzeUrl_after_answer w url key config ev cs text :
  modelAnswers w url key config ev cs text ->
  analyzeUrl url (Some key) (Some config) w
  = (Normal
       match JSON_parse w text with
       | inl e => scanFailed url (Date_toISOString w) e
       | inr analysis =>
           if nullish analysis
           then scanFailed url (Date_toISOString w) (nullReadError w "riskScore")
           else if convertible (field analysis "riskScore")
           then successResult (normalizeUrl url) ev analysis (field analysis "riskScore")
                              (cureValue analysis) (Date_toISOString w)
           else scanFailed url (Date_toISOString w)
                           (convertError w (field analysis "riskScore"))
       end,
     (cs ++ [claudeCall config (normalizeUrl url) ev])%list).
Proof.
  intros (Hk & (u & Hu & Hknown) & Hev & Hc).
  rewrite (analyzeUrl_configured _ _ _ _ Hk), Hu.
  rewrite (scanBody_run _ _ _ _ _ Hu), Hknown, Hev, semanticAudit_run, Hc.
  cbn [fst].
  destruct (JSON_parse w text) as [e|analysis]; [reflexivity|].
  destruct (nullish analysis) eqn:Hn.
  - rewrite (compileResult_throws _ _ _ _ Hn). reflexivity.
  - rewrite (compileResult_run _ _ _ _ Hn).
    destruct (convertible (field analysis "riskScore")); reflexivity.
Qed.

Lemma analyzeSecurityHeaders_run (url : string) (w : World) :
  exists headers, analyzeSecurityHeaders url w = (Normal headers, [CallHead url]).
Proof.
  unfold analyzeSecurityHeaders, fetchHead. cbn.
  destruct (Head w url); cbn; eexists; reflexivity.
Qed.

Lemma validateSSL_run (url html : string) (w : World) :
  exists ssl cs, validateSSL url html w = (Normal ssl, cs).
Proof.
  unfold validateSSL, fetchHeadManual.
  cbn -[new_URL JsString.includes JsString.replace String.eqb].
  pose proof (new_URL_makes_no_call url w) as Hc.
  destruct (new_URL url w) as [[u|e] cs0]; cbn in Hc; subst cs0;
    cbn -[JsString.includes JsString.replace String.eqb]; [|eauto].
  destruct (String.eqb (protocol u) "https:");
    cbn -[JsString.includes JsString.replace]; [|eauto].
  destruct (HeadManual w (JsString.replace url "https://" "http://"));
    cbn -[JsString.includes JsString.replace]; eauto.
Qed.

(** Phases 1 to 4 fail exactly when the content fetch does. *)
Lemma collectEvidence_run (normalizedUrl key : string) (w : World) :
  match Firecrawl w key normalizedUrl with
  | ScrapeRejected e =>
      collectEvidence normalizedUrl key w = (Thrown e, [CallFirecrawl key normalizedUrl])
  | ScrapeNotOk status errorText =>
      collectEvidence normalizedUrl key w
      = (Thrown (Error ("Firecrawl API error: " ++ JsString.ofN status ++ " - " ++ errorText)),
         [CallFirecrawl key normalizedUrl])
  | ScrapeOk data =>
      match data with
      | Some (mkScrapeData (Some (String c rest)) links html) =>
          exists headers ssl cs,
            collectEvidence normalizedUrl key w
            = (Normal (mkEvidence (String c rest) (orEmpty links) (orEmptyString html)
                                  headers
                                  (analyzeThirdPartyScripts (orEmptyString html) (String c rest))
                                  ssl),
               CallFirecrawl key normalizedUrl :: cs)
      | _ =>
          collectEvidence normalizedUrl key w
          = (Thrown (Error "Failed to scrape content - no markdown returned"),
             [CallFirecrawl key normalizedUrl])
      end
  end.
Proof.
  unfold collectEvidence, fetchFirecrawl.
  cbn -[analyzeSecurityHeaders validateSSL analyzeThirdPartyScripts JsString.ofN].
  destruct (Firecrawl w key normalizedUrl) as [e|status errorText|[[[[|c rest]|] links html]|]];
    cbn -[analyzeSecurityHeaders validateSSL analyzeThirdPartyScripts JsString.ofN];
    try reflexivity.
  destruct (analyzeSecurityHeaders_run normalizedUrl w) as [headers ->].
  destruct (validateSSL_run normalizedUrl (orEmptyString html) w) as (ssl & cs & ->).
  cbn -[analyzeThirdPartyScripts].
  exists headers, ssl, (CallHead normalizedUrl :: cs). rewrite app_nil_r. reflexivity.
Qed.

Lemma scanBody_unparsed (normalizedUrl key : string) (config : BedrockConfig)
    (w : World) e cs :
  new_URL normalizedUrl w = (Thrown e, cs) ->
  scanBody normalizedUrl key config w = (Thrown e, cs).
Proof.
  intros Hu. unfold scanBody. cbn -[new_URL]. rewrite Hu. reflexivity.
Qed.

(** A scan that completes normally reports success. *)
Lemma scanBody_success (normalizedUrl key : string) (config : BedrockConfig)
    (w : World) r cs :
  scanBody normalizedUrl key config w = (Normal r, cs) -> success r = true.
Proof.
  pose proof (new_URL_makes_no_call normalizedUrl w) as Hc.
  destruct (new_URL normalizedUrl w) as [[u|e] cs0] eqn:Hu; cbn in Hc; subst cs0.
  - rewrite (scanBody_run _ _ _ _ _ Hu).
    destruct (isKnownCompliant (domainOf u)).
    { intros H. injection H as <- _. reflexivity. }
    destruct (collectEvidence normalizedUrl key w) as [[ev|e] cs1]; [|discriminate].
    destruct (fst (semanticAudit config normalizedUrl ev w)) as [analysis|e]; [|discriminate].
    destruct (nullish analysis) eqn:Hn.
    + rewrite (compileResult_throws _ _ _ _ Hn). discriminate.
    + rewrite (compileResult_run _ _ _ _ Hn).
      destruct (convertible (field analysis "riskScore")); [|discriminate].
      intros H. injection H as <- _. reflexivity.
  - rewrite (scanBody_unparsed _ _ _ _ _ _ Hu). discriminate.
Qed.

(** [analyzeUrl] never throws; a result with [success = false] is one of
    the failure literals, in which the risk score is 0 and every issue flag
    is [false]. *)
Lemma analyzeUrl_returns (url : string) (key : option string)
    (config : option BedrockConfig) (w : World) :
  exists r cs,
    analyzeUrl url key config w = (Normal r, cs)
    /\ (success r = false -> exists issues data, r = failureResult issues data).
Proof.
  destruct (missing key) eqn:Hm.
  { unfold analyzeUrl. cbn -[missing]. rewrite Hm. eexists _, _. split; [reflexivity|eauto]. }
  destruct key as [key|]; [|discriminate Hm].
  assert (key <> "") as Hk.
  { intros ->. discriminate Hm. }
  destruct config as [config|].
  2:{ unfold analyzeUrl. cbn -[missing]. rewrite Hm. eexists _, _. split; [reflexivity|eauto]. }
  rewrite (analyzeUrl_configured _ _ _ _ Hk).
  destruct (new_URL (normalizeUrl url) w) as [[u|e] cs0].
  - destruct (scanBody (normalizeUrl url) key config w) as [[r|e] cs] eqn:Hs.
    + exists r, cs. split; [reflexivity|].
      intros Hf. rewrite (scanBody_success _ _ _ _ _ _ Hs) in Hf. discriminate Hf.
    + eexists _, _. split; [reflexivity|]. unfold scanFailed. eauto.
  - eexists _, _. split; [reflexivity|]. unfold invalidUrlResult. eauto.
Qed.

(** In the sample worlds the scan of [shop.example] reaches the model. *)
Lemma sample_modelAnswers (text : string) (table : list (string * JSValue)) :
  modelAnswers (sampleWorld samplePage (inr text) table) "shop.example" "fc-key"
               sampleConfig sampleEvidence sampleCalls text.
Proof.
  unfold modelAnswers. split; [discriminate|]. split; [|split].
  - exists (mkURL "https:" "shop.example"). split; reflexivity.
  - vm_compute. reflexivity.
  - reflexivity.
Qed.

(** Runs the scan of [shop.example] in a sample world up to the answer. *)
Ltac run_sample :=
  rewrite (analyzeUrl_after_answer _ _ _ _ _ _ _ (sample_modelAnswers _ _)).

(* ===================================================================== *)
(** ** The model's answer *)
(* ===================================================================== *)

(** C3 (as amended).  Once the scan has reached the model and the model has
    answered [text]: if [JSON.parse] rejects [text], the scan returns the
    technical-failure result ([success = false], the issue list names the
    failure as technical, no finding is attached).  If [text] parses to a
    value other than [null] whose [riskScore] can be converted to a
    primitive value, the scan succeeds whatever fields are missing: a
    missing boolean is reported as [false], a missing [riskScore] is
    replaced by 50 and a missing [issues] by the empty list.  If the
    [riskScore] of the answer cannot be converted (an object with a key
    [toString], as in [{"riskScore":{"toString":0}}]), the arithmetic on
    the score throws and the scan returns the technical failure of that
    [TypeError]; and if [text] parses to [null], reading its [riskScore]
    throws and the scan returns the technical failure of that one. *)
Theorem model_answer_handling (w : World) (url key : string) (config : BedrockConfig)
    (ev : Evidence) (cs : list Call) (text : string) :
  modelAnswers w url key config ev cs text ->
  exists r,
    analyzeUrl url (Some key) (Some config) w
    = (Normal r, (cs ++ [claudeCall config (normalizeUrl url) ev])%list)
    /\ (forall e, JSON_parse w text = inl e ->
          r = scanFailed url (Date_toISOString w) e
          /\ success r = false
          /\ detectedIssues r
             = JArr [JStr ("Scan failed: " ++ userFriendlyError e); JStr technicalNote]
          /\ securityHeaders r = None /\ thirdPartyScripts r = None
          /\ sslValidation r = None /\ cureNoticeEligible r = None)
    /\ (forall analysis, JSON_parse w text = inr analysis -> nullish analysis = false ->
          convertible (field analysis "riskScore") = true ->
          success r = true
          /\ (field analysis "hasCookieBanner" = JUndefined -> hasCookieBanner r = JBool false)
          /\ (field analysis "hasPrivacyPolicy" = JUndefined -> hasPrivacyPolicy r = JBool false)
          /\ (field analysis "hasAiFeatures" = JUndefined -> hasAiFeatures r = JBool false)
          /\ (field analysis "hasAiDisclosure" = JUndefined -> hasAiDisclosure r = JBool false)
          /\ (field analysis "adaIssues" = JUndefined -> adaIssues r = JBool false)
          /\ (field analysis "riskScore" = JUndefined ->
              riskScore r = aggregateRiskScore (JNum 50) (evSsl ev) (evHeaders ev) (evScripts ev))
          /\ (field analysis "issues" = JUndefined -> detectedIssues r = JArr []))
    /\ (forall analysis, JSON_parse w text = inr analysis -> nullish analysis = false ->
          convertible (field analysis "riskScore") = false ->
          r = scanFailed url (Date_toISOString w) (convertError w (field analysis "riskScore"))
          /\ success r = false
          /\ detectedIssues r
             = JArr [JStr ("Scan failed: "
                           ++ userFriendlyError (convertError w (field analysis "riskScore")));
                     JStr technicalNote])
    /\ (JSON_parse w text = inr JNull ->
          r = scanFailed url (Date_toISOString w) (nullReadError w "riskScore")
          /\ success r = false).
Proof.
  intros H. rewrite (analyzeUrl_after_answer _ _ _ _ _ _ _ H).
  eexists. split; [reflexivity|]. split; [|split; [|split]].
  4:{ intros Ha. rewrite Ha. split; reflexivity. }
  - intros e He. rewrite He. repeat split.
  - intros analysis Ha Hn Hc. rewrite Ha, Hn, Hc. cbn.
    repeat split; intros ->; reflexivity.
  - intros analysis Ha Hn Hc. rewrite Ha, Hn, Hc. repeat split.
Qed.

(** C3, witness: the model answers with prose; the scan reaches the model
    and returns the technical failure. *)
Lemma model_answer_handling_witness :
  exists r cs,
    analyzeUrl "shop.example" (Some "fc-key") (Some sampleConfig) proseWorld = (Normal r, cs)
    /\ success r = false
    /\ detectedIssues r
       = JArr [JStr "Scan failed: Unexpected token S in JSON at position 0";
               JStr technicalNote].
Proof.
  destruct (model_answer_handling proseWorld "shop.example" "fc-key" sampleConfig
              sampleEvidence sampleCalls proseText (sample_modelAnswers proseText []))
    as (r & Hrun & Hfail & _).
  exists r. eexists. split; [exact Hrun|].
  destruct (Hfail syntaxError eq_refl) as (_ & Hs & Hi & _).
  split; [exact Hs | exact Hi].
Defined.

(** C3, counterexample.  The answer [{}] parses to an
    object that has none of the required fields, and the scan is no
    failure: it succeeds with the score 50 and the flags defaulted. *)
Lemma missing_fields_are_defaulted :
  JSON_parse emptyObjectWorld "{}" = inr (JObj [])
  /\ exists r cs,
       analyzeUrl "shop.example" (Some "fc-key") (Some sampleConfig) emptyObjectWorld
       = (Normal r, cs)
       /\ success r = true
       /\ riskScore r = ScoreNum 50
       /\ hasCookieBanner r = JBool false
       /\ hasPrivacyPolicy r = JBool false
       /\ adaIssues r = JBool false
       /\ detectedIssues r = JArr [].
Proof.
  split; [reflexivity|]. unfold emptyObjectWorld. run_sample.
  eexists _, _. split; [reflexivity|]. cbn. repeat split.
Qed.

(* ===================================================================== *)
(** ** Derived flags *)
(* ===================================================================== *)

(** C5.  When the model's answer carries booleans for [hasAiFeatures],
    [hasPrivacyPolicy] and [hasAiDisclosure], and its [riskScore] can be
    converted to a primitive value (so that the arithmetic on the score,
    which comes before the flags, does not throw), the result has
    [aiRetentionIssues = hasAiFeatures && !hasPrivacyPolicy] and
    [shadowAiIssues = hasAiFeatures && !hasAiDisclosure], whatever else the
    answer contains (a field named [aiRetentionIssues] or [shadowAiIssues]
    included). *)
Theorem derived_flags (w : World) (url key : string) (config : BedrockConfig)
    (ev : Evidence) (cs : list Call) (text : string) (analysis : JSValue)
    (aiFeatures privacyPolicy aiDisclosure : bool) :
  modelAnswers w url key config ev cs text ->
  JSON_parse w text = inr analysis ->
  field analysis "hasAiFeatures" = JBool aiFeatures ->
  field analysis "hasPrivacyPolicy" = JBool privacyPolicy ->
  field analysis "hasAiDisclosure" = JBool aiDisclosure ->
  convertible (field analysis "riskScore") = true ->
  exists r,
    analyzeUrl url (Some key) (Some config) w
    = (Normal r, (cs ++ [claudeCall config (normalizeUrl url) ev])%list)
    /\ success r = true
    /\ aiRetentionIssues r = JBool (aiFeatures && negb privacyPolicy)
    /\ shadowAiIssues r = JBool (aiFeatures && negb aiDisclosure).
Proof.
  intros H Ha Hf Hp Hd Hc.
  assert (nullish analysis = false) as Hn.
  { destruct analysis; try reflexivity; discriminate Hf. }
  rewrite (analyzeUrl_after_answer _ _ _ _ _ _ _ H), Ha, Hn, Hc.
  eexists. split; [reflexivity|]. cbn.
  rewrite Hf, Hp, Hd, !js_and_not_bool. cbn. repeat split.
Qed.

(** C5, witness: the answer says [aiRetentionIssues: false] itself, and the
    result has both derived flags [true]. *)
Lemma derived_flags_witness :
  exists r cs,
    analyzeUrl "shop.example" (Some "fc-key") (Some sampleConfig) flagsWorld = (Normal r, cs)
    /\ aiRetentionIssues r = JBool true
    /\ shadowAiIssues r = JBool true.
Proof.
  destruct (derived_flags flagsWorld "shop.example" "fc-key" sampleConfig
              sampleEvidence sampleCalls flagsText flagsAnalysis true false false
              (sample_modelAnswers flagsText _) eq_refl eq_refl eq_refl eq_refl eq_refl)
    as (r & Hrun & _ & Hr & Hs).
  exists r. eexists. split; [exact Hrun|]. split; [exact Hr | exact Hs].
Defined.

(* ===================================================================== *)
(** ** The third-party adjustment *)
(* ===================================================================== *)

(** The trackers of the evidence are those of the page Firecrawl served. *)
Lemma modelAnswers_scripts w url key config ev cs text content links html :
  modelAnswers w url key config ev cs text ->
  Firecrawl w key (normalizeUrl url)
  = ScrapeOk (Some (mkScrapeData (Some content) links html)) ->
  evScripts ev = analyzeThirdPartyScripts (orEmptyString html) content.
Proof.
  intros (_ & _ & Hev & _) HF.
  pose proof (collectEvidence_run (normalizeUrl url) key w) as Hrun.
  rewrite HF in Hrun. destruct content as [|c rest].
  - rewrite Hrun in Hev. discriminate Hev.
  - destruct Hrun as (headers & ssl & cs' & Hrun). rewrite Hrun in Hev.
    injection Hev as <- _. reflexivity.
Qed.

(** The total of the adjustments, with the third-party one set apart. *)
Lemma adjustmentTotal_split ssl headers scripts :
  adjustmentTotal ssl headers scripts
  = adjustmentTotal ssl headers (withoutTrackers scripts)
    + (if (5 <? Z.of_nat (List.length (other scripts)))
          && negb (privacyPolicyMentions scripts)
       then 10 else 0).
Proof.
  unfold adjustmentTotal, withoutTrackers.
  cbn [other privacyPolicyMentions List.length Z.of_nat Z.ltb Z.compare andb]. lia.
Qed.

(** The scan of [shop.example] in a [trackerWorld] ends with the score [n]. *)
Ltac run_tracker W :=
  let r := fresh "r" in
  let cs := fresh "cs" in
  let Hrun := fresh "Hrun" in
  destruct (analyzeUrl_returns "shop.example" (Some "fc-key") (Some sampleConfig) W)
    as (r & cs & Hrun & _);
  exists r, cs; split; [exact Hrun|];
  vm_compute in Hrun; injection Hrun as <- _; split; reflexivity.

(** C10.  Against the same evidence without trackers, the running total is
    10 higher exactly when more than 5 distinct trackers were detected and
    the disclosure flag is false, and it is unchanged otherwise.  Six
    trackers without disclosure text: +10; the same six with disclosure
    text: nothing; five trackers: nothing, with or without disclosure
    text.  The same holds of [analyzeUrl] end to end: in a scan that
    reaches the model and gets a numeric [riskScore] (or none), the
    trackers counted are those of the page Firecrawl served, and the
    returned score is the base plus the other adjustments plus 10 exactly
    when more than 5 trackers were detected and the page text has no
    disclosure wording, capped at 100.  With base 40 on a secure site with
    all headers the scan returns 50 for six trackers without disclosure
    text and 40 for the same six with it and for five trackers with or
    without it. *)
Theorem third_party_adjustment_iff :
  (forall n ssl headers scripts,
      (applyAdjustments (ScoreNum n) ssl headers scripts
       = increase (applyAdjustments (ScoreNum n) ssl headers (withoutTrackers scripts)) 10
       <-> (5 < List.length (other scripts))%nat /\ privacyPolicyMentions scripts = false)
      /\ (~ ((5 < List.length (other scripts))%nat /\ privacyPolicyMentions scripts = false)
          -> applyAdjustments (ScoreNum n) ssl headers scripts
             = applyAdjustments (ScoreNum n) ssl headers (withoutTrackers scripts)))
  /\ (forall html content, NoDup (other (analyzeThirdPartyScripts html content)))
  /\ (let six := analyzeThirdPartyScripts sixTrackerMarkup silentText in
      List.length (other six) = 6%nat /\ privacyPolicyMentions six = false
      /\ aggregateRiskScore (JNum 40) secureTransport allHeaders six = ScoreNum 50)
  /\ (let six := analyzeThirdPartyScripts sixTrackerMarkup disclosingText in
      List.length (other six) = 6%nat /\ privacyPolicyMentions six = true
      /\ aggregateRiskScore (JNum 40) secureTransport allHeaders six = ScoreNum 40)
  /\ (let five := analyzeThirdPartyScripts fiveTrackerMarkup silentText in
      List.length (other five) = 5%nat /\ privacyPolicyMentions five = false
      /\ aggregateRiskScore (JNum 40) secureTransport allHeaders five = ScoreNum 40)
  /\ (let five := analyzeThirdPartyScripts fiveTrackerMarkup disclosingText in
      List.length (other five) = 5%nat /\ privacyPolicyMentions five = true
      /\ aggregateRiskScore (JNum 40) secureTransport allHeaders five = ScoreNum 40)
  /\ (forall w url key config ev cs text analysis base content links html,
        modelAnswers w url key config ev cs text ->
        Firecrawl w key (normalizeUrl url)
        = ScrapeOk (Some (mkScrapeData (Some content) links html)) ->
        JSON_parse w text = inr analysis ->
        nullish analysis = false ->
        numericBase (field analysis "riskScore") = Some base ->
        let scripts := analyzeThirdPartyScripts (orEmptyString html) content in
        exists r,
          analyzeUrl url (Some key) (Some config) w
          = (Normal r, (cs ++ [claudeCall config (normalizeUrl url) ev])%list)
          /\ thirdPartyScripts r = Some scripts
          /\ riskScore r
             = ScoreNum
                 (Z.min (base
                         + adjustmentTotal (evSsl ev) (evHeaders ev) (withoutTrackers scripts)
                         + (if (5 <? Z.of_nat (List.length (other scripts)))
                               && negb (privacyPolicyMentions scripts)
                            then 10 else 0))
                        100))
  /\ (exists r cs,
        analyzeUrl "shop.example" (Some "fc-key") (Some sampleConfig)
                   (trackerWorld sixTrackerMarkup silentText) = (Normal r, cs)
        /\ success r = true /\ riskScore r = ScoreNum 50)
  /\ (exists r cs,
        analyzeUrl "shop.example" (Some "fc-key") (Some sampleConfig)
                   (trackerWorld sixTrackerMarkup disclosingText) = (Normal r, cs)
        /\ success r = true /\ riskScore r = ScoreNum 40)
  /\ (exists r cs,
        analyzeUrl "shop.example" (Some "fc-key") (Some sampleConfig)
                   (trackerWorld fiveTrackerMarkup silentText) = (Normal r, cs)
        /\ success r = true /\ riskScore r = ScoreNum 40)
  /\ (exists r cs,
        analyzeUrl "shop.example" (Some "fc-key") (Some sampleConfig)
                   (trackerWorld fiveTrackerMarkup disclosingText) = (Normal r, cs)
        /\ success r = true /\ riskScore r = ScoreNum 40).
Proof.
  split; [|split; [exact analyzeThirdPartyScripts_distinct|]].
  - intros n ssl headers scripts.
    rewrite !applyAdjustments_num. unfold adjustmentTotal, withoutTrackers.
    cbn [other privacyPolicyMentions List.length increase andb].
    assert ((5 <? Z.of_nat (List.length (other scripts))) = true
            <-> (5 < List.length (other scripts))%nat) as Hlen.
    { rewrite Z.ltb_lt. lia. }
    destruct (5 <? Z.of_nat (List.length (other scripts))) eqn:E5;
      destruct (privacyPolicyMentions scripts) eqn:Em; cbn [andb negb Z.of_nat Z.ltb Z.compare].
    all: split; [split|].
    all: try (intros H; first [ injection H as H; lia | destruct H as [H1 H2]; first [discriminate H2 | apply Hlen in H1; discriminate H1] ]).
    all: try (intros _; f_equal; lia).
    all: try (intros H; exfalso; apply H; split; [apply Hlen; reflexivity | reflexivity]).
    all: try (intros _; split; [apply Hlen; reflexivity | reflexivity]).
  - do 4 (split; [repeat split; vm_compute; reflexivity|]).
    split; [|split; [|split; [|split]]].
    + intros w url key config ev cs text analysis base content links html
             H HF Ha Hn Hb scripts.
      assert (convertible (field analysis "riskScore") = true) as Hc.
      { destruct (field analysis "riskScore"); try discriminate Hb; reflexivity. }
      pose proof (modelAnswers_scripts _ _ _ _ _ _ _ _ _ _ H HF) as Hs.
      fold scripts in Hs. clearbody scripts.
      rewrite (analyzeUrl_after_answer _ _ _ _ _ _ _ H), Ha, Hn, Hc.
      eexists. split; [reflexivity|].
      unfold successResult. cbn [thirdPartyScripts riskScore].
      rewrite (aggregateRiskScore_num _ _ _ _ _ Hb), Hs, adjustmentTotal_split.
      split; [reflexivity|]. f_equal. f_equal. lia.
    + run_tracker (trackerWorld sixTrackerMarkup silentText).
    + run_tracker (trackerWorld sixTrackerMarkup disclosingText).
    + run_tracker (trackerWorld fiveTrackerMarkup silentText).
    + run_tracker (trackerWorld fiveTrackerMarkup disclosingText).
Qed.


(* ===================================================================== *)
(** ** Fatal paths *)
(* ===================================================================== *)

(** Whatever [scanBody] throws ends in the [catch] block. *)
Lemma analyzeUrl_catches (url key : string) (config : BedrockConfig) (w : World)
    (u : URLRecord) (e : JSError) (cs : list Call) :
  key <> "" ->
  new_URL (normalizeUrl url) w = (Normal u, []) ->
  scanBody (normalizeUrl url) key config w = (Thrown e, cs) ->
  analyzeUrl url (Some key) (Some config) w
  = (Normal (scanFailed url (Date_toISOString w) e), cs).
Proof.
  intros Hk Hu Hs. rewrite (analyzeUrl_configured _ _ _ _ Hk), Hu, Hs. reflexivity.
Qed.

(** The three fatal paths: the content fetch fails, the model call fails, the
    model's answer does not parse.  Each returns the failure literal of the
    [catch] block for the error that was thrown. *)
Lemma fatal_paths (url key : string) (config : BedrockConfig) (w : World) (u : URLRecord) :
  key <> "" ->
  new_URL (normalizeUrl url) w = (Normal u, []) ->
  isKnownCompliant (domainOf u) = false ->
  (forall e cs, collectEvidence (normalizeUrl url) key w = (Thrown e, cs) ->
     analyzeUrl url (Some key) (Some config) w
     = (Normal (scanFailed url (Date_toISOString w) e), cs))
  /\ (forall ev cs e,
        collectEvidence (normalizeUrl url) key w = (Normal ev, cs) ->
        Claude w config systemPrompt (analysisPrompt (normalizeUrl url) ev) = inl e ->
        analyzeUrl url (Some key) (Some config) w
        = (Normal (scanFailed url (Date_toISOString w) e),
           (cs ++ [claudeCall config (normalizeUrl url) ev])%list))
  /\ (forall ev cs text e,
        collectEvidence (normalizeUrl url) key w = (Normal ev, cs) ->
        Claude w config systemPrompt (analysisPrompt (normalizeUrl url) ev) = inr text ->
        JSON_parse w text = inl e ->
        analyzeUrl url (Some key) (Some config) w
        = (Normal (scanFailed url (Date_toISOString w) e),
           (cs ++ [claudeCall config (normalizeUrl url) ev])%list)).
Proof.
  intros Hk Hu Hknown. repeat split.
  - intros e cs Hev. apply (analyzeUrl_catches _ _ _ _ u); [exact Hk | exact Hu |].
    rewrite (scanBody_run _ _ _ _ _ Hu), Hknown, Hev. reflexivity.
  - intros ev cs e Hev Hc. apply (analyzeUrl_catches _ _ _ _ u); [exact Hk | exact Hu |].
    rewrite (scanBody_run _ _ _ _ _ Hu), Hknown, Hev, semanticAudit_run, Hc. reflexivity.
  - intros ev cs text e Hev Hc Hp.
    apply (analyzeUrl_catches _ _ _ _ u); [exact Hk | exact Hu |].
    rewrite (scanBody_run _ _ _ _ _ Hu), Hknown, Hev, semanticAudit_run, Hc, Hp.
    reflexivity.
Qed.

(** C6.  [analyzeUrl] always returns a result and never throws.  In every
    result with [success = false] the risk score is 0 and the four issue
    flags are [false], not [true]; so it is when the content fetch fails. *)
Theorem failed_scan_flags_are_false (url : string) (key : option string)
    (config : option BedrockConfig) (w : World) :
  (exists r cs,
      analyzeUrl url key config w = (Normal r, cs)
      /\ (success r = false ->
          riskScore r = ScoreNum 0
          /\ adaIssues r = JBool false /\ aiRetentionIssues r = JBool false
          /\ gdprIssues r = JBool false /\ shadowAiIssues r = JBool false))
  /\ (let r := scanFailed "shop.example" "2026-01-15T09:00:00.000Z"
                 (Error "Firecrawl API error: 502 - Bad Gateway") in
      analyzeUrl "shop.example" (Some "fc-key") (Some sampleConfig) downWorld
      = (Normal r, [CallFirecrawl "fc-key" "https://shop.example"])
      /\ success r = false
      /\ adaIssues r = JBool false /\ aiRetentionIssues r = JBool false
      /\ gdprIssues r = JBool false /\ shadowAiIssues r = JBool false
      /\ detectedIssues r
         = JArr [JStr "Scan failed: Website scraping failed - Check FIRECRAWL_API_KEY";
                 JStr technicalNote]).
Proof.
  split.
  - destruct (analyzeUrl_returns url key config w) as (r & cs & Hrun & Hshape).
    exists r, cs. split; [exact Hrun|].
    intros Hf. destruct (Hshape Hf) as (issues & data & ->). repeat split.
  - vm_compute. repeat split.
Qed.

(* ===================================================================== *)
(** ** The known-compliant short circuit *)
(* ===================================================================== *)

Lemma analyzeUrl_known (url key : string) (config : BedrockConfig) (w : World)
    (u : URLRecord) :
  key <> "" ->
  new_URL (normalizeUrl url) w = (Normal u, []) ->
  isKnownCompliant (domainOf u) = true ->
  analyzeUrl url (Some key) (Some config) w
  = (Normal (baselineResult (domainOf u) (Date_toISOString w) (normalizeUrl url)), []).
Proof.
  intros Hk Hu Hknown.
  rewrite (analyzeUrl_configured _ _ _ _ Hk), Hu, (scanBody_run _ _ _ _ _ Hu), Hknown.
  reflexivity.
Qed.

(** C7 (as amended).  With both credentials configured, [google.com] and
    [https://google.com/anything] return the baseline result: score 15,
    all four headers present with header score 100, SSL valid, HTTPS
    enforced, no mixed content, no issue, not cure-eligible; and no call to
    Firecrawl, to the site or to the model is made.  The credentials are
    checked before the list of known domains: without a Firecrawl key
    (absent or empty) the same inputs return the configuration failure for
    [FIRECRAWL_API_KEY], and with a key but without the Bedrock
    credentials the one for AWS Bedrock; both have [success = false], score
    0 and no finding attached, and make no call either. *)
Theorem known_domain_short_circuit (w : World) (key : string) (config : BedrockConfig) :
  key <> "" ->
  forall url, url = "google.com" \/ url = "https://google.com/anything" ->
  (exists r,
     analyzeUrl url (Some key) (Some config) w = (Normal r, [])
     /\ success r = true
     /\ riskScore r = ScoreNum 15
     /\ securityHeaders r = Some (mkSecurityHeaders true true true true 100)
     /\ sslValidation r = Some (mkSslValidation true true true false)
     /\ detectedIssues r = JArr []
     /\ cureNoticeEligible r = Some (JBool false))
  /\ (forall (noKey : option string) (anyConfig : option BedrockConfig),
        missing noKey = true ->
        exists r rest,
          analyzeUrl url noKey anyConfig w = (Normal r, [])
          /\ success r = false
          /\ riskScore r = ScoreNum 0
          /\ detectedIssues r
             = JArr (JStr "TECHNICAL ERROR: FIRECRAWL_API_KEY not configured" :: rest)
          /\ securityHeaders r = None
          /\ sslValidation r = None
          /\ cureNoticeEligible r = None)
  /\ (exists r rest,
        analyzeUrl url (Some key) None w = (Normal r, [])
        /\ success r = false
        /\ riskScore r = ScoreNum 0
        /\ detectedIssues r
           = JArr (JStr "TECHNICAL ERROR: AWS Bedrock credentials not configured" :: rest)
        /\ securityHeaders r = None
        /\ sslValidation r = None
        /\ cureNoticeEligible r = None).
Proof.
  intros Hk url Hurl. split; [|split].
  - destruct Hurl as [-> | ->];
      (rewrite (analyzeUrl_known _ _ _ _ (mkURL "https:" "google.com") Hk);
         [| reflexivity | reflexivity]);
      eexists; repeat split.
  - intros noKey anyConfig Hm. rewrite (analyzeUrl_without_key _ _ _ _ Hm).
    eexists. eexists. repeat split.
  - rewrite (analyzeUrl_without_bedrock _ _ _ Hk).
    eexists. eexists. repeat split.
Qed.

(** C7, witness. *)
Lemma known_domain_short_circuit_witness :
  exists r,
    analyzeUrl "https://google.com/anything" (Some "fc-key") (Some sampleConfig) downWorld
    = (Normal r, [])
    /\ riskScore r = ScoreNum 15.
Proof.
  assert ("fc-key" <> "") as Hk by discriminate.
  destruct (known_domain_short_circuit downWorld "fc-key" sampleConfig Hk
              "https://google.com/anything" (or_intror eq_refl))
    as ((r & Hrun & _ & Hscore & _) & _).
  exists r. split; [exact Hrun | exact Hscore].
Defined.

(** C7, counterexample.  No Firecrawl key is configured: the scan of
    [google.com] is not the baseline result but the configuration failure,
    with [success = false] and score 0. *)
Lemma google_without_a_key :
  exists r,
    analyzeUrl "google.com" None (Some sampleConfig) downWorld = (Normal r, [])
    /\ success r = false
    /\ riskScore r = ScoreNum 0
    /\ detectedIssues r
       = JArr [JStr "TECHNICAL ERROR: FIRECRAWL_API_KEY not configured";
               JStr ("Add your Firecrawl API key in Settings " ++ arrow ++ " Secrets");
               JStr "Get API key from https://firecrawl.dev"]
    /\ r <> baselineResult "google.com" (Date_toISOString downWorld) "https://google.com".
Proof.
  eexists. split; [reflexivity|]. repeat split. discriminate.
Qed.

(** C8.  [fakegoogle.com] is not on the list, yet its scan is the baseline
    result without a single call: the test is [domain.includes(d)], and
    [fakegoogle.com] contains [google.com]. *)
Theorem substring_match_short_circuits (w : World) :
  existsb (String.eqb "fakegoogle.com") KNOWN_COMPLIANT_DOMAINS = false
  /\ isKnownCompliant "fakegoogle.com" = true
  /\ analyzeUrl "fakegoogle.com" (Some "fc-key") (Some sampleConfig) w
     = (Normal (baselineResult "fakegoogle.com" (Date_toISOString w)
                               "https://fakegoogle.com"), []).
Proof.
  split; [reflexivity|]. split; [reflexivity|].
  assert ("fc-key" <> "") as Hk by discriminate.
  rewrite (analyzeUrl_known _ _ _ _ (mkURL "https:" "fakegoogle.com") Hk);
    reflexivity.
Qed.

(* ===================================================================== *)
(** ** URL normalization *)
(* ===================================================================== *)

(** A scan whose URL parses and whose domain is not matched by the list
    goes on to Firecrawl. *)
Lemma analyzeUrl_fetches (url key : string) (config : BedrockConfig) (w : World)
    (u : URLRecord) :
  key <> "" ->
  new_URL (normalizeUrl url) w = (Normal u, []) ->
  isKnownCompliant (domainOf u) = false ->
  exists r cs,
    analyzeUrl url (Some key) (Some config) w
    = (Normal r, CallFirecrawl key (normalizeUrl url) :: cs).
Proof.
  intros Hk Hu Hkn.
  rewrite (analyzeUrl_configured _ _ _ _ Hk), Hu, (scanBody_run _ _ _ _ _ Hu), Hkn.
  assert (exists c cs0, collectEvidence (normalizeUrl url) key w
                        = (c, CallFirecrawl key (normalizeUrl url) :: cs0))
    as (c & cs0 & Hc).
  { pose proof (collectEvidence_run (normalizeUrl url) key w) as H.
    destruct (Firecrawl w key (normalizeUrl url))
      as [e|status errorText|[[[[|c rest]|] links html]|]];
      try (rewrite H; eexists _, _; reflexivity).
    destruct H as (headers & ssl & cs' & ->). eexists _, _. reflexivity. }
  rewrite Hc. destruct c as [ev|e]; [|eexists _, _; reflexivity].
  destruct (fst (semanticAudit config (normalizeUrl url) ev w)) as [analysis|e];
    [destruct (fst (compileResult (normalizeUrl url) ev analysis w))|];
    eexists _, _; reflexivity.
Qed.

(** C9 (as amended).  [example.com] is normalized to [https://example.com]:
    an input that, once trimmed, starts with neither [http://] nor
    [https://] gets [https://] in front.
    With both credentials configured, an input whose normalized form the
    URL parser rejects is answered with the input-error result
    ([success = false], issue "Invalid URL format") and no call is made.
    The credentials are checked first: without a Firecrawl key, or with a
    key but without the Bedrock credentials, the same input is answered
    with the configuration failure, not with the input-error result.
    [ht!tp://bad] is not rejected: it is normalized to
    [https://ht!tp://bad], which parses, and with both credentials
    configured the scan goes on to Firecrawl in every world. *)
Theorem url_normalization (w : World) (url key : string) (config : BedrockConfig)
    (e : JSError) :
  key <> "" ->
  result (new_URL (normalizeUrl url)) w = Thrown e ->
  normalizeUrl "example.com" = "https://example.com"
  /\ (forall s, JsString.startsWith (JsString.trim s) "http://" = false ->
                JsString.startsWith (JsString.trim s) "https://" = false ->
                normalizeUrl s = "https://" ++ JsString.trim s)
  /\ analyzeUrl url (Some key) (Some config) w = (Normal invalidUrlResult, [])
  /\ success invalidUrlResult = false
  /\ detectedIssues invalidUrlResult = JArr [JStr "Invalid URL format"]
  /\ (forall (noKey : option string) (anyConfig : option BedrockConfig),
        missing noKey = true ->
        exists r rest,
          analyzeUrl url noKey anyConfig w = (Normal r, [])
          /\ success r = false
          /\ detectedIssues r
             = JArr (JStr "TECHNICAL ERROR: FIRECRAWL_API_KEY not configured" :: rest)
          /\ r <> invalidUrlResult)
  /\ (exists r rest,
        analyzeUrl url (Some key) None w = (Normal r, [])
        /\ success r = false
        /\ detectedIssues r
           = JArr (JStr "TECHNICAL ERROR: AWS Bedrock credentials not configured" :: rest)
        /\ r <> invalidUrlResult)
  /\ normalizeUrl "ht!tp://bad" = "https://ht!tp://bad"
  /\ Url.parse "https://ht!tp://bad" = UrlParsed (mkURL "https:" "ht!tp")
  /\ (exists r cs,
        analyzeUrl "ht!tp://bad" (Some key) (Some config) w
        = (Normal r, CallFirecrawl key "https://ht!tp://bad" :: cs)).
Proof.
  intros Hk Hp. split; [reflexivity|].
  split; [|split; [|split; [reflexivity|split; [reflexivity|split; [|split;
    [|split; [reflexivity|split; [reflexivity|]]]]]]]].
  5:{ exact (analyzeUrl_fetches "ht!tp://bad" key config w (mkURL "https:" "ht!tp")
               Hk eq_refl eq_refl). }
  - intros s H1 H2. unfold normalizeUrl. rewrite H1, H2. reflexivity.
  - rewrite (analyzeUrl_configured _ _ _ _ Hk).
    unfold result in Hp.
    destruct (new_URL (normalizeUrl url) w) as [[u|e'] cs]; [discriminate Hp | reflexivity].
  - intros noKey anyConfig Hm. rewrite (analyzeUrl_without_key _ _ _ _ Hm).
    eexists. eexists. repeat split. discriminate.
  - rewrite (analyzeUrl_without_bedrock _ _ _ Hk).
    eexists. eexists. repeat split. discriminate.
Qed.

(** C9, witness: [bad url] has a space in its host. *)
Lemma url_normalization_witness :
  normalizeUrl "bad url" = "https://bad url"
  /\ Url.parse "https://bad url" = UrlFailure
  /\ analyzeUrl "bad url" (Some "fc-key") (Some sampleConfig) downWorld
     = (Normal invalidUrlResult, []).
Proof.
  split; [reflexivity|]. split; [reflexivity|].
  assert ("fc-key" <> "") as Hk by discriminate.
  exact (proj1 (proj2 (proj2 (url_normalization downWorld "bad url" "fc-key" sampleConfig
                                (invalidUrlError downWorld "https://bad url")
                                Hk eq_refl)))).
Defined.

(** C9, counterexample.  [ht!tp://bad] is normalized
    to [https://ht!tp://bad], which parses (host [ht!tp], empty port, path
    [//bad]); the input is not rejected and the scan goes on to Firecrawl. *)
Lemma odd_scheme_is_not_rejected :
  normalizeUrl "ht!tp://bad" = "https://ht!tp://bad"
  /\ Url.parse "https://ht!tp://bad" = UrlParsed (mkURL "https:" "ht!tp")
  /\ analyzeUrl "ht!tp://bad" (Some "fc-key") (Some sampleConfig) downWorld
     = (Normal (scanFailed "ht!tp://bad" "2026-01-15T09:00:00.000Z"
                  (Error "Firecrawl API error: 502 - Bad Gateway")),
        [CallFirecrawl "fc-key" "https://ht!tp://bad"])
  /\ analyzeUrl "ht!tp://bad" (Some "fc-key") (Some sampleConfig) downWorld
     <> (Normal invalidUrlResult, []).
Proof.
  split; [reflexivity|]. split; [reflexivity|]. split; [vm_compute; reflexivity|].
  vm_compute. discriminate.
Qed.

(* ===================================================================== *)
(** ** End-to-end runs and further properties *)
(* ===================================================================== *)

(** C1.  End to end: the model answers a complete object with
    [riskScore: -20] for a site served over HTTPS with all four headers and
    no tracker; the scan succeeds with the risk score -20. *)
Theorem negative_score_end_to_end :
  exists r cs,
    analyzeUrl "shop.example" (Some "fc-key") (Some sampleConfig) (scoreWorld "-20" (-20))
    = (Normal r, cs)
    /\ success r = true
    /\ riskScore r = ScoreNum (-20)
    /\ aggregateRiskScore (JNum (-20)) secureTransport allHeaders noScripts = ScoreNum (-20)
    /\ ~ (0 <= -20 <= 100).
Proof.
  unfold scoreWorld. run_sample.
  eexists _, _. split; [reflexivity|]. cbn. repeat split. lia.
Qed.

(** C2.  End to end: the model answers [riskScore: 0] and no adjustment
    fires; the scan reports 50.  At the aggregation step a base of 100 with
    all four adjustments firing gives 100. *)
Theorem zero_score_end_to_end :
  (exists r cs,
      analyzeUrl "shop.example" (Some "fc-key") (Some sampleConfig) (scoreWorld "0" 0)
      = (Normal r, cs)
      /\ success r = true
      /\ riskScore r = ScoreNum 50)
  /\ aggregateRiskScore (JNum 0) secureTransport allHeaders noScripts = ScoreNum 50
  /\ aggregateRiskScore (JNum 100) insecureMixed noHeaders sixUndisclosed = ScoreNum 100.
Proof.
  split; [|split; reflexivity].
  unfold scoreWorld. run_sample.
  eexists _, _. split; [reflexivity|]. cbn. repeat split.
Qed.

(** C4, witness: a missing cookie banner and nothing non-curable. *)
Lemma cure_eligibility_iff_witness :
  curableIndicator curableAnalysis = true
  /\ nonCurableIndicator curableAnalysis = false
  /\ determineCureEligibility curableAnalysis downWorld = (Normal (JBool true), []).
Proof.
  split; [reflexivity|]. split; [reflexivity|].
  destruct (cure_eligibility_iff downWorld curableAnalysis eq_refl) as (v & Hrun & Hiff & _).
  rewrite Hrun. f_equal. f_equal. apply Hiff. split; reflexivity.
Defined.

(** [headers.has(name)] holds exactly when the response has a header whose
    name is [name] up to ASCII case. *)
Lemma headers_has_spec (names : list string) (name : string) :
  headers_has names name = true
  <-> exists h, In h names /\ JsString.asciiLower h = name.
Proof.
  unfold headers_has. rewrite existsb_exists.
  split; intros (h & Hin & Hh); exists h; (split; [exact Hin|]);
    apply String.eqb_eq; exact Hh.
Qed.

(** X1.  [analyzeSecurityHeaders] makes one HEAD request and always returns.
    Each flag reads its own header of the response, by name and without
    regard to case: [hasCSP] holds exactly when the response has a header
    [content-security-policy] or [content-security-policy-report-only],
    [hasXFrameOptions] exactly when it has [x-frame-options], [hasHSTS]
    exactly when it has [strict-transport-security] and
    [hasXContentTypeOptions] exactly when it has [x-content-type-options].
    The header score is 25 for each of the four flags set: none gives 0,
    two give 50, four give 100; a failed HEAD request gives all flags false
    and the score 0. *)
Theorem header_score (url : string) (w : World) :
  exists h,
    analyzeSecurityHeaders url w = (Normal h, [CallHead url])
    /\ score h = 25 * ((if hasCSP h then 1 else 0) + (if hasXFrameOptions h then 1 else 0)
                       + (if hasHSTS h then 1 else 0)
                       + (if hasXContentTypeOptions h then 1 else 0))
    /\ (Head w url = HeadRejected -> h = mkSecurityHeaders false false false false 0)
    /\ (Head w url = HeadOk [] -> score h = 0)
    /\ (Head w url = HeadOk ["X-Frame-Options"; "Strict-Transport-Security"] -> score h = 50)
    /\ (Head w url = HeadOk ["Content-Security-Policy-Report-Only"; "x-frame-options";
                             "strict-transport-security"; "x-content-type-options"]
        -> score h = 100)
    /\ (forall names, Head w url = HeadOk names ->
          (hasCSP h = true
           <-> exists name, In name names
                 /\ (JsString.asciiLower name = "content-security-policy"
                     \/ JsString.asciiLower name = "content-security-policy-report-only"))
          /\ (hasXFrameOptions h = true
              <-> exists name, In name names
                    /\ JsString.asciiLower name = "x-frame-options")
          /\ (hasHSTS h = true
              <-> exists name, In name names
                    /\ JsString.asciiLower name = "strict-transport-security")
          /\ (hasXContentTypeOptions h = true
              <-> exists name, In name names
                    /\ JsString.asciiLower name = "x-content-type-options")).
Proof.
  unfold analyzeSecurityHeaders, fetchHead. cbn -[headers_has].
  destruct (Head w url) as [|names]; cbn -[headers_has].
  - eexists. split; [reflexivity|]. repeat split; try reflexivity; discriminate.
  - eexists. split; [reflexivity|]. cbn -[headers_has]. split.
    + destruct (headers_has names "content-security-policy"
                || headers_has names "content-security-policy-report-only"),
        (headers_has names "x-frame-options"),
        (headers_has names "strict-transport-security"),
        (headers_has names "x-content-type-options"); reflexivity.
    + split; [|split; [|split; [|split]]];
        try (intros H; try discriminate H; injection H as ->; reflexivity).
      intros names' H. injection H as <-.
      split; [|split; [|split]]; try apply headers_has_spec.
      rewrite Bool.orb_true_iff, !headers_has_spec. split.
      * intros [(h & Hin & Hh) | (h & Hin & Hh)]; exists h; auto.
      * intros (h & Hin & [Hh | Hh]); [left | right]; exists h; auto.
Qed.


(** X3.  For a numeric answer the final score never exceeds 100, and it is
    at least 0 whenever the answer is not negative. *)
Theorem risk_score_range (n : Z) (ssl : SslValidation) (headers : SecurityHeaders)
    (scripts : ThirdPartyScripts) :
  exists r,
    aggregateRiskScore (JNum n) ssl headers scripts = ScoreNum r
    /\ r <= 100
    /\ (0 <= n -> 0 <= r <= 100).
Proof.
  destruct (aggregateRiskScore_range (JNum n) (if n =? 0 then 50 else n) ssl headers scripts
              eq_refl) as (r & Hr & Hle & Hge).
  exists r. split; [exact Hr|]. split; [exact Hle|].
  intros Hn. split; [|exact Hle]. apply Hge. destruct (n =? 0); lia.
Qed.

(** X4.  [analyzeUrl] never throws: for every input and every world it
    returns a result. *)
Theorem analyzeUrl_never_throws (url : string) (key : option string)
    (config : option BedrockConfig) (w : World) :
  exists r, result (analyzeUrl url key config) w = Normal r.
Proof.
  destruct (analyzeUrl_returns url key config w) as (r & cs & Hrun & _).
  exists r. unfold result. rewrite Hrun. reflexivity.
Qed.

(** X5.  When the model's answer carries booleans for [hasCookieBanner],
    [hasPrivacyPolicy] and [adaIssues], and its [riskScore] can be
    converted to a primitive value (so that the arithmetic on the score,
    which comes before the flags, does not throw), the result has
    [gdprIssues = !hasCookieBanner || !hasPrivacyPolicy] and [adaIssues] as
    the model gave it. *)
Theorem privacy_and_accessibility_flags (w : World) (url key : string)
    (config : BedrockConfig) (ev : Evidence) (cs : list Call) (text : string)
    (analysis : JSValue) (cookieBanner privacyPolicy ada : bool) :
  modelAnswers w url key config ev cs text ->
  JSON_parse w text = inr analysis ->
  field analysis "hasCookieBanner" = JBool cookieBanner ->
  field analysis "hasPrivacyPolicy" = JBool privacyPolicy ->
  field analysis "adaIssues" = JBool ada ->
  convertible (field analysis "riskScore") = true ->
  exists r,
    analyzeUrl url (Some key) (Some config) w
    = (Normal r, (cs ++ [claudeCall config (normalizeUrl url) ev])%list)
    /\ gdprIssues r = JBool (negb cookieBanner || negb privacyPolicy)
    /\ adaIssues r = JBool ada.
Proof.
  intros H Ha Hc Hp Hada Hconv.
  assert (nullish analysis = false) as Hn.
  { destruct analysis; try reflexivity; discriminate Hc. }
  rewrite (analyzeUrl_after_answer _ _ _ _ _ _ _ H), Ha, Hn, Hconv.
  eexists. split; [reflexivity|]. cbn.
  rewrite Hc, Hp, Hada. destruct cookieBanner, privacyPolicy, ada; repeat split.
Qed.

(** X5, witness. *)
Lemma privacy_and_accessibility_flags_witness :
  exists r cs,
    analyzeUrl "shop.example" (Some "fc-key") (Some sampleConfig) privacyWorld = (Normal r, cs)
    /\ gdprIssues r = JBool true
    /\ adaIssues r = JBool true.
Proof.
  destruct (privacy_and_accessibility_flags privacyWorld "shop.example" "fc-key" sampleConfig
              sampleEvidence sampleCalls privacyText privacyAnalysis false true true
              (sample_modelAnswers privacyText _) eq_refl eq_refl eq_refl eq_refl eq_refl)
    as (r & Hrun & Hg & Hada).
  exists r. eexists. split; [exact Hrun|]. split; [exact Hg | exact Hada].
Defined.

(** X6.  Every domain of the list, given as the input, is answered with the
    baseline result and no call is made. *)
Theorem listed_domains_short_circuit (w : World) :
  Forall (fun d =>
            analyzeUrl d (Some "fc-key") (Some sampleConfig) w
            = (Normal (baselineResult d (Date_toISOString w) ("https://" ++ d)), []))
         KNOWN_COMPLIANT_DOMAINS.
Proof.
  assert ("fc-key" <> "") as Hk by discriminate.
  unfold KNOWN_COMPLIANT_DOMAINS.
  repeat (constructor;
          [ match goal with
            | |- analyzeUrl ?d _ _ _ = _ =>
                rewrite (analyzeUrl_known d "fc-key" sampleConfig w (mkURL "https:" d) Hk);
                reflexivity
            end | ]).
  constructor.
Qed.

(* ===================================================================== *)
(** ** Searching in concatenations *)
(* ===================================================================== *)

Lemma prefix_app (p s t : string) :
  String.prefix p s = true -> String.prefix p (s ++ t) = true.
Proof.
  revert s. induction p as [|c p IH]; intros s H;
    [destruct s; destruct t; reflexivity|].
  destruct s as [|d s]; [discriminate H|]. cbn in *.
  destruct (Ascii.ascii_dec c d); [apply IH; exact H | discriminate H].
Qed.

Lemma includes_cons (c : ascii) (s x : string) :
  JsString.includes (String c s) x
  = String.prefix x (String c s) || JsString.includes s x.
Proof. reflexivity. Qed.

Lemma includes_app_l (s t x : string) :
  JsString.includes s x = true -> JsString.includes (s ++ t) x = true.
Proof.
  induction s as [|c s IH]; intros H.
  - cbn in H. rewrite orb_false_r in H. destruct x; [|discriminate H].
    destruct t; reflexivity.
  - rewrite includes_cons in H. apply orb_true_iff in H.
    change (String c s ++ t) with (String c (s ++ t)). rewrite includes_cons.
    destruct H as [H|H].
    + change (String c (s ++ t)) with (String c s ++ t).
      rewrite (prefix_app x (String c s) t H). reflexivity.
    + rewrite (IH H). apply orb_true_r.
Qed.


Lemma includes_prefix (s x : string) :
  String.prefix x s = true -> JsString.includes s x = true.
Proof.
  intros H. destruct s; [unfold JsString.includes | rewrite includes_cons];
    rewrite H; reflexivity.
Qed.

Lemma prefix_includes_suffix (a b s : string) :
  String.prefix (a ++ b) s = true -> JsString.includes s b = true.
Proof.
  revert s. induction a as [|c a IH]; intros s H.
  - apply includes_prefix. exact H.
  - destruct s as [|d s]; [discriminate H|]. cbn in H.
    destruct (Ascii.ascii_dec c d); [|discriminate H].
    rewrite includes_cons, (IH s H). apply orb_true_r.
Qed.

Lemma includes_suffix (a b s : string) :
  JsString.includes s (a ++ b) = true -> JsString.includes s b = true.
Proof.
  induction s as [|c s IH]; intros H.
  - unfold JsString.includes in H. rewrite orb_false_r in H.
    apply (prefix_includes_suffix a b). exact H.
  - rewrite includes_cons in H. apply orb_true_iff in H. destruct H as [H|H].
    + apply (prefix_includes_suffix a b). exact H.
    + rewrite includes_cons, (IH H). apply orb_true_r.
Qed.

Lemma replace_prefix (s pat rep : string) :
  String.prefix pat s = true ->
  JsString.replace s pat rep = rep ++ JsString.drop (String.length pat) s.
Proof.
  intros H. destruct s; cbn [JsString.replace]; rewrite H; reflexivity.
Qed.

Lemma replace_absent (s pat rep : string) :
  JsString.includes s pat = false -> JsString.replace s pat rep = s.
Proof.
  induction s as [|c s IH]; intros H.
  - unfold JsString.includes in H. rewrite orb_false_r in H.
    cbn [JsString.replace]. rewrite H. reflexivity.
  - rewrite includes_cons in H. apply orb_false_iff in H. destruct H as [H1 H2].
    cbn [JsString.replace]. rewrite H1, (IH H2). reflexivity.
Qed.

(* ===================================================================== *)
(** ** The calls of a scan *)
(* ===================================================================== *)

(** [validateSSL] in closed form. *)
Lemma validateSSL_eq (url html : string) (w : World) :
  validateSSL url html w
  = match fst (new_URL url w) with
    | Thrown _ => (Normal (mkSslValidation false false false false), [])
    | Normal u =>
        if String.eqb (protocol u) "https:" then
          (Normal (mkSslValidation true
                     match HeadManual w (JsString.replace url "https://" "http://") with
                     | ProbeRejected => true
                     | ProbeStatus status => (status =? 301)%N || (status =? 308)%N
                     end
                     true
                     (JsString.includes html ("src=" ++ dquote ++ "http://")
                      || JsString.includes html "src='http://"
                      || JsString.includes html ("href=" ++ dquote ++ "http://"))),
           [CallHeadManual (JsString.replace url "https://" "http://")])
        else (Normal (mkSslValidation false false false false), [])
    end.
Proof.
  unfold validateSSL, fetchHeadManual.
  cbn -[new_URL JsString.includes JsString.replace String.eqb].
  pose proof (new_URL_makes_no_call url w) as Hc.
  destruct (new_URL url w) as [[u|e] cs0]; cbn in Hc; subst cs0;
    cbn -[JsString.includes JsString.replace String.eqb]; [|reflexivity].
  destruct (String.eqb (protocol u) "https:");
    cbn -[JsString.includes JsString.replace]; [|reflexivity].
  destruct (HeadManual w (JsString.replace url "https://" "http://"));
    cbn -[JsString.includes JsString.replace]; reflexivity.
Qed.

(** The calls of [collectEvidence]: Firecrawl first; when it gave content,
    the HEAD request and at most one HTTP probe. *)
Lemma collectEvidence_calls (normalizedUrl key : string) (w : World) :
  (forall e cs, collectEvidence normalizedUrl key w = (Thrown e, cs) ->
     cs = [CallFirecrawl key normalizedUrl])
  /\ (forall ev cs, collectEvidence normalizedUrl key w = (Normal ev, cs) ->
        cs = [CallFirecrawl key normalizedUrl; CallHead normalizedUrl]
        \/ cs = [CallFirecrawl key normalizedUrl; CallHead normalizedUrl;
                 CallHeadManual (JsString.replace normalizedUrl "https://" "http://")]).
Proof.
  unfold collectEvidence, fetchFirecrawl.
  cbn -[analyzeSecurityHeaders validateSSL analyzeThirdPartyScripts JsString.ofN].
  destruct (Firecrawl w key normalizedUrl) as [e|status errorText|[[[[|c rest]|] links html]|]];
    cbn -[analyzeSecurityHeaders validateSSL analyzeThirdPartyScripts JsString.ofN];
    try (split; intros ? ? [= ? ?]; subst; reflexivity).
  destruct (analyzeSecurityHeaders_run normalizedUrl w) as [headers ->].
  rewrite validateSSL_eq.
  destruct (fst (new_URL normalizedUrl w)) as [u|e];
    [destruct (String.eqb (protocol u) "https:")|];
    cbn -[analyzeThirdPartyScripts JsString.includes JsString.replace];
    (split; [intros ? ? [=] | intros ? ? [= ? ?]; subst; auto]).
Qed.

(** X7.  The calls of a scan, for every input and every world.  [analyzeUrl]
    makes no call at all, or the Firecrawl request alone, or the Firecrawl
    request, the HEAD request, at most one HTTP probe and then the model:
    one content fetch and one model invocation at most, the model is asked
    only after the page has been fetched and inspected, and it is the last
    call of the scan. *)
Theorem analyzeUrl_call_trace (url : string) (key : option string)
    (config : option BedrockConfig) (w : World) :
  let n := normalizeUrl url in
  let cs := snd (analyzeUrl url key config w) in
  cs = []
  \/ exists k c,
       key = Some k /\ config = Some c
       /\ (cs = [CallFirecrawl k n]
           \/ exists ev,
                cs = [CallFirecrawl k n; CallHead n; claudeCall c n ev]
                \/ cs = [CallFirecrawl k n; CallHead n;
                         CallHeadManual (JsString.replace n "https://" "http://");
                         claudeCall c n ev]).
Proof.
  intros n cs. subst cs n.
  destruct key as [k|]; [|left; reflexivity].
  destruct (String.eqb k "") eqn:Ek.
  { left. unfold analyzeUrl. cbn. rewrite Ek. reflexivity. }
  destruct config as [c|].
  2:{ left. unfold analyzeUrl. cbn. rewrite Ek. reflexivity. }
  assert (k <> "") as Hk by (intros ->; discriminate Ek).
  rewrite (analyzeUrl_configured url k c w Hk).
  pose proof (new_URL_makes_no_call (normalizeUrl url) w) as Hc.
  destruct (new_URL (normalizeUrl url) w) as [[u|e] cs0] eqn:En; cbn in Hc; subst cs0;
    [|left; reflexivity].
  rewrite (scanBody_run _ k c w u En).
  destruct (isKnownCompliant (domainOf u)); [left; reflexivity|].
  destruct (collectEvidence_calls (normalizeUrl url) k w) as [Ht Hn].
  right. exists k, c. split; [reflexivity|]. split; [reflexivity|].
  destruct (collectEvidence (normalizeUrl url) k w) as [[ev|e] cs0].
  - right. exists ev.
    destruct (Hn ev cs0 eq_refl) as [-> | ->];
      (destruct (fst (semanticAudit c (normalizeUrl url) ev w)) as [a|e];
       [destruct (fst (compileResult (normalizeUrl url) ev a w))|]);
      cbn [snd app]; auto.
  - left. rewrite (Ht e cs0 eq_refl). reflexivity.
Qed.

(* ===================================================================== *)
(** ** How a failed content fetch is reported *)
(* ===================================================================== *)

Lemma analyzeUrl_fetch_failed (w : World) (url key : string) (config : BedrockConfig)
    (u : URLRecord) (e : JSError) :
  reachesFetch w url key u ->
  collectEvidence (normalizeUrl url) key w
  = (Thrown e, [CallFirecrawl key (normalizeUrl url)]) ->
  analyzeUrl url (Some key) (Some config) w
  = (Normal (scanFailed url (Date_toISOString w) e), [CallFirecrawl key (normalizeUrl url)]).
Proof.
  intros (Hk & Hu & Hd) He.
  destruct (fatal_paths url key config w u Hk Hu Hd) as [H _].
  exact (H e _ He).
Qed.

Lemma userFriendlyError_message (message : string) :
  message <> "" ->
  userFriendlyError (Error message)
  = if JsString.includes message "Access Denied" || JsString.includes message "403" then
      "AWS Access Denied - Check IAM permissions for bedrock:InvokeModel"
    else if JsString.includes message "404" || JsString.includes message "Not Found" then
      "Model not found - Enable Claude 3.7 Sonnet in AWS Bedrock Console"
    else if JsString.includes message "429" || JsString.includes message "Throttl" then
      "AWS rate limit exceeded - Wait a moment and retry"
    else if JsString.includes message "400" || JsString.includes message "Bad Request" then
      "Invalid request format - Check model ID and region"
    else if JsString.includes message "Firecrawl" then
      "Website scraping failed - Check FIRECRAWL_API_KEY"
    else message.
Proof.
  intros Hm. unfold userFriendlyError. cbn [errMessage Error].
  destruct (String.eqb message "") eqn:E; [apply String.eqb_eq in E; contradiction|].
  reflexivity.
Qed.

Ltac split_markers H :=
  unfold mentionsNone, awsMarkers in H; cbn [forallb] in H;
  repeat (apply andb_true_iff in H; destruct H as [?H H]);
  repeat match goal with
         | H : negb _ = true |- _ => apply negb_true_iff in H
         end.




(** X9.  A Firecrawl response that is OK but carries no data, no markdown or
    an empty markdown ends the scan after that one call: no request is made
    to the site, the model is not asked, and the message
    ["Failed to scrape content - no markdown returned"] reaches the user
    unchanged. *)
Theorem empty_page_is_a_failure (w : World) (url key : string)
    (config : BedrockConfig) (u : URLRecord) (data : option ScrapeData) :
  reachesFetch w url key u ->
  Firecrawl w key (normalizeUrl url) = ScrapeOk data ->
  match data with
  | None => True
  | Some d => sdMarkdown d = None \/ sdMarkdown d = Some ""
  end ->
  exists r,
    analyzeUrl url (Some key) (Some config) w
    = (Normal r, [CallFirecrawl key (normalizeUrl url)])
    /\ success r = false
    /\ detectedIssues r
       = JArr [JStr "Scan failed: Failed to scrape content - no markdown returned";
               JStr technicalNote].
Proof.
  intros Hr Hf Hd.
  exists (scanFailed url (Date_toISOString w)
                     (Error "Failed to scrape content - no markdown returned")).
  split; [|split; reflexivity].
  apply (analyzeUrl_fetch_failed w url key config u _ Hr).
  pose proof (collectEvidence_run (normalizeUrl url) key w) as H.
  rewrite Hf in H.
  destruct data as [[[[|c rest]|] links html]|]; try exact H.
  destruct Hd as [Hd|Hd]; discriminate Hd.
Qed.

(** X9, witness: Firecrawl answers a page whose markdown is empty. *)
Lemma empty_page_is_a_failure_witness :
  exists r,
    analyzeUrl "shop.example" (Some "fc-key") (Some sampleConfig) emptyPageWorld
    = (Normal r, [CallFirecrawl "fc-key" "https://shop.example"])
    /\ success r = false.
Proof.
  assert (reachesFetch emptyPageWorld "shop.example" "fc-key" (mkURL "https:" "shop.example"))
    as Hr.
  { split; [discriminate|]. split; reflexivity. }
  destruct (empty_page_is_a_failure emptyPageWorld "shop.example" "fc-key" sampleConfig _ _
              Hr eq_refl (or_intror eq_refl)) as (r & Hrun & Hs & _).
  exists r. split; [exact Hrun | exact Hs].
Defined.

(* ===================================================================== *)
(** ** The HTTPS enforcement probe *)
(* ===================================================================== *)

(** X10.  For a URL whose protocol is [https:], [validateSSL] makes exactly
    one HEAD request, to the URL with its first ["https://"] replaced by
    ["http://"], and reports HTTPS as enforced exactly when that request
    fails or answers 301 or 308; a 302 or 307 redirect does not count.  The
    probe address is the plain-HTTP address when the URL starts with
    ["https://"], and the URL itself when it contains no ["https://"]. *)
Theorem https_enforcement_probe (url html : string) (w : World) (u : URLRecord) :
  new_URL url w = (Normal u, []) ->
  protocol u = "https:" ->
  let httpUrl := JsString.replace url "https://" "http://" in
  exists ssl,
    validateSSL url html w = (Normal ssl, [CallHeadManual httpUrl])
    /\ hasSSL ssl = true
    /\ (httpsEnforced ssl = true
        <-> HeadManual w httpUrl = ProbeRejected
            \/ HeadManual w httpUrl = ProbeStatus 301
            \/ HeadManual w httpUrl = ProbeStatus 308)
    /\ (forall status, HeadManual w httpUrl = ProbeStatus status ->
        status = 302%N \/ status = 307%N -> httpsEnforced ssl = false)
    /\ (JsString.startsWith url "https://" = true ->
        httpUrl = "http://" ++ JsString.drop 8 url)
    /\ (JsString.includes url "https://" = false -> httpUrl = url).
Proof.
  intros Hu Hp httpUrl. rewrite validateSSL_eq, Hu. cbn [fst]. rewrite Hp.
  cbn [String.eqb Ascii.eqb Bool.eqb]. fold httpUrl.
  eexists. split; [reflexivity|]. cbn [hasSSL httpsEnforced].
  split; [reflexivity|]. split; [|split; [|split]].
  - destruct (HeadManual w httpUrl) as [|status]; [split; auto|].
    rewrite orb_true_iff, !N.eqb_eq. split.
    + intros [-> | ->]; auto.
    + intros [H | [[= ->] | [= ->]]]; [discriminate H | auto | auto].
  - intros status -> [-> | ->]; reflexivity.
  - intros H. apply (replace_prefix url "https://" "http://"). exact H.
  - intros H. apply replace_absent. exact H.
Qed.

(** X10, witness: the plain-HTTP address answers 302. *)
Lemma https_enforcement_probe_witness :
  exists ssl,
    validateSSL "https://shop.example" "<html></html>" (probeWorld (ProbeStatus 302))
    = (Normal ssl, [CallHeadManual "http://shop.example"])
    /\ httpsEnforced ssl = false.
Proof.
  destruct (https_enforcement_probe "https://shop.example" "<html></html>"
              (probeWorld (ProbeStatus 302)) (mkURL "https:" "shop.example")
              eq_refl eq_refl) as (ssl & Hrun & _ & _ & H302 & _).
  exists ssl. split; [exact Hrun|].
  apply (H302 302%N eq_refl). left. reflexivity.
Defined.

(* ===================================================================== *)
(** ** The list of detected trackers *)
(* ===================================================================== *)

Lemma dedup_NoDup (l seen : list string) :
  NoDup l -> (forall x, In x l -> ~ In x seen) -> dedup seen l = l.
Proof.
  revert seen. induction l as [|x l IH]; intros seen Hn Hs; [reflexivity|].
  cbn [dedup]. inversion Hn as [|? ? Hx Hl]; subst.
  destruct (existsb (String.eqb x) seen) eqn:E.
  - apply existsb_exists in E. destruct E as (y & Hy & Exy).
    apply String.eqb_eq in Exy. subst y. destruct (Hs x); [left; reflexivity | exact Hy].
  - f_equal. apply IH; [exact Hl|].
    intros y Hy [<- | Hin]; [contradiction|].
    apply (Hs y); [right; exact Hy | exact Hin].
Qed.

Lemma filter_names_NoDup {B : Type} (f : string * B -> bool) (l : list (string * B)) :
  NoDup (map fst l) -> NoDup (map fst (filter f l)).
Proof.
  induction l as [|a l IH]; intros H; [constructor|].
  cbn in *. inversion H as [|? ? Hx Hl]; subst.
  destruct (f a); [|apply IH; exact Hl].
  cbn. constructor; [|apply IH; exact Hl].
  intros Hin. apply Hx. apply in_map_iff in Hin. destruct Hin as (b & Hb & Hin).
  apply filter_In in Hin. apply in_map_iff. exists b. tauto.
Qed.

Lemma filter_names_incl {B : Type} (f : string * B -> bool) (l : list (string * B)) x :
  In x (map fst (filter f l)) -> In x (map fst l).
Proof.
  intros Hin. apply in_map_iff in Hin. destruct Hin as (b & Hb & Hin).
  apply filter_In in Hin. apply in_map_iff. exists b. tauto.
Qed.

Lemma trackers_names_NoDup : NoDup (map fst trackers).
Proof.
  cbn.
  repeat (constructor;
          [cbn; intros H; repeat (destruct H as [H|H]; [discriminate H|]); exact H|]).
  constructor.
Qed.

(** The list before [[...new Set(other)]]. *)
Lemma other_before_dedup (html content : string) :
  let t := analyzeThirdPartyScripts html content in
  let table := map fst (filter (fun tracker => pattern_test (snd tracker) html) trackers) in
  let raw := (table
              ++ (if googleAnalytics t then ["Google Analytics"] else [])
              ++ (if facebookPixel t then ["Facebook Pixel"] else [])
              ++ (if hotjar t then ["Hotjar"] else [])
              ++ (if intercom t then ["Intercom"] else []))%list in
  NoDup raw /\ other t = dedup [] raw.
Proof.
  intros t table raw. split.
  - subst raw.
    assert (NoDup table) as Hn by (apply filter_names_NoDup, trackers_names_NoDup).
    assert (forall x, In x table -> In x (map fst trackers)) as Hi
        by (intros x; apply filter_names_incl).
    assert (forall x, In x ["Google Analytics"; "Facebook Pixel"; "Hotjar"; "Intercom"] ->
                      ~ In x table) as Hd.
    { intros x Hx Hin. apply Hi in Hin. cbn in Hx, Hin.
      repeat destruct Hx as [Hx|Hx]; try contradiction; subst x;
        repeat destruct Hin as [Hin|Hin]; try discriminate Hin; contradiction. }
    clearbody table.
    assert (forall majors, NoDup majors ->
              (forall x, In x majors ->
                 In x ["Google Analytics"; "Facebook Pixel"; "Hotjar"; "Intercom"]) ->
              NoDup (table ++ majors)) as Happ.
    { intros majors Hm Hsub. induction table as [|a table IH]; [exact Hm|].
      inversion Hn as [|? ? Ha Hl]; subst. cbn. constructor.
      - intros Hin. apply in_app_or in Hin. destruct Hin as [Hin|Hin]; [contradiction|].
        apply (Hd a (Hsub a Hin)). left. reflexivity.
      - apply IH; [exact Hl | | ].
        + intros x Hx. apply Hi. right. exact Hx.
        + intros x Hx Hin. apply (Hd x Hx). right. exact Hin. }
    apply Happ.
    + destruct (googleAnalytics t), (facebookPixel t), (hotjar t), (intercom t); cbn;
        repeat (constructor;
                [cbn; intros H; repeat (destruct H as [H|H]; [discriminate H|]); exact H|]);
        constructor.
    + intros x. destruct (googleAnalytics t), (facebookPixel t), (hotjar t), (intercom t);
        cbn; tauto.
  - subst raw table t. unfold analyzeThirdPartyScripts.
    cbn [other googleAnalytics facebookPixel hotjar intercom]. unfold pushIf.
    f_equal.
    repeat match goal with
           | |- context [if ?b then _ else _] => destruct b
           end; cbn [app]; rewrite <- ?app_assoc, ?app_nil_r; reflexivity.
Qed.

Lemma names_functional {B : Type} (l : list (string * B)) n (a a' : B) :
  NoDup (map fst l) -> In (n, a) l -> In (n, a') l -> a = a'.
Proof.
  induction l as [|[m b] l IH]; intros Hn H H'; [destruct H|].
  cbn in Hn. inversion Hn as [|? ? Hx Hl]; subst.
  assert (forall c, In (m, c) l -> False) as Hm.
  { intros c Hc. apply Hx. apply in_map_iff. exists (m, c). split; [reflexivity | exact Hc]. }
  destruct H as [H|H]; destruct H' as [H'|H'].
  - congruence.
  - inversion H; subst. destruct (Hm _ H').
  - inversion H'; subst. destruct (Hm _ H).
  - exact (IH Hl H H').
Qed.

(** X11.  What [analyzeThirdPartyScripts] reports in [other]: each of the
    four major flags is set exactly when its name is in the list; a tracker
    of the pattern table is in the list exactly when its pattern matches;
    nothing else is ever in the list, so it has at most 17 entries; the
    list built by the pushes has no duplicates, so the conversion through
    [Set] removes nothing and the order is the table's order followed by
    the major trackers; and the second needle of the Hotjar and Intercom
    tests never changes their outcome. *)
Theorem tracker_list_invariants (html content : string) :
  let t := analyzeThirdPartyScripts html content in
  (googleAnalytics t = true <-> In "Google Analytics" (other t))
  /\ (facebookPixel t = true <-> In "Facebook Pixel" (other t))
  /\ (hotjar t = true <-> In "Hotjar" (other t))
  /\ (intercom t = true <-> In "Intercom" (other t))
  /\ (forall name alternatives, In (name, alternatives) trackers ->
        (In name (other t) <-> pattern_test alternatives html = true))
  /\ (forall name, In name (other t) -> In name trackerNames)
  /\ (List.length (other t) <= 17)%nat
  /\ other t
     = (map fst (filter (fun tracker => pattern_test (snd tracker) html) trackers)
        ++ (if googleAnalytics t then ["Google Analytics"] else [])
        ++ (if facebookPixel t then ["Facebook Pixel"] else [])
        ++ (if hotjar t then ["Hotjar"] else [])
        ++ (if intercom t then ["Intercom"] else []))%list
  /\ hotjar t = JsString.includes (JsString.toLowerCase html) "hotjar.com"
  /\ intercom t = JsString.includes (JsString.toLowerCase html) "intercom.io".
Proof.
  intros t.
  destruct (other_before_dedup html content) as [Hn Ho]. fold t in Hn, Ho.
  rewrite dedup_NoDup in Ho by (exact Hn || (intros x _ H; exact H)).
  assert (hotjar t = JsString.includes (JsString.toLowerCase html) "hotjar.com") as Hhot.
  { subst t. unfold analyzeThirdPartyScripts. cbn [hotjar].
    destruct (JsString.includes (JsString.toLowerCase html) "static.hotjar.com") eqn:E;
      [|apply orb_false_r].
    rewrite (includes_suffix "static." "hotjar.com" _ E). reflexivity. }
  assert (intercom t = JsString.includes (JsString.toLowerCase html) "intercom.io") as Hic.
  { subst t. unfold analyzeThirdPartyScripts. cbn [intercom].
    destruct (JsString.includes (JsString.toLowerCase html) "widget.intercom.io") eqn:E;
      [|apply orb_false_r].
    rewrite (includes_suffix "widget." "intercom.io" _ E). reflexivity. }
  set (table := map fst (filter (fun tracker => pattern_test (snd tracker) html) trackers))
    in *.
  assert (forall x, In x table -> In x (map fst trackers)) as Hi
      by (intros x; apply filter_names_incl).
  assert (forall name alternatives, In (name, alternatives) trackers ->
            (In name table <-> pattern_test alternatives html = true)) as Htab.
  { intros name alternatives Ht. subst table. split.
    - intros H. apply in_map_iff in H. destruct H as ([n a] & Hname & H).
      change (n = name) in Hname. subst n. apply filter_In in H. destruct H as [H Hp].
      change (pattern_test a html = true) in Hp.
      rewrite (names_functional trackers name alternatives a trackers_names_NoDup Ht H).
      exact Hp.
    - intros Hp. apply in_map_iff. exists (name, alternatives).
      split; [reflexivity|]. apply filter_In. split; [exact Ht | exact Hp]. }
  clearbody table t.
  assert (forall x, In x ["Google Analytics"; "Facebook Pixel"; "Hotjar"; "Intercom"] ->
                    ~ In x table) as Hd.
  { intros x Hx Hin. apply Hi in Hin. cbn in Hx, Hin.
    repeat destruct Hx as [Hx|Hx]; try contradiction; subst x;
      repeat destruct Hin as [Hin|Hin]; try discriminate Hin; contradiction. }
  assert (forall name, In name (other t) <->
            In name table
            \/ (googleAnalytics t = true /\ name = "Google Analytics")
            \/ (facebookPixel t = true /\ name = "Facebook Pixel")
            \/ (hotjar t = true /\ name = "Hotjar")
            \/ (intercom t = true /\ name = "Intercom")) as Hin.
  { intros name. rewrite Ho, !in_app_iff.
    destruct (googleAnalytics t), (facebookPixel t), (hotjar t), (intercom t);
      cbn [In]; intuition (try discriminate; auto). }
  assert (forall name b, In name ["Google Analytics"; "Facebook Pixel"; "Hotjar"; "Intercom"] ->
            (In name table \/ b) <-> b) as Hdrop.
  { intros name b Hm. split; [intros [H|H]; [destruct (Hd name Hm H) | exact H] | auto]. }
  assert (forall name, In name (other t) -> In name trackerNames) as Hsub.
  { intros name H. apply Hin in H. unfold trackerNames. apply in_app_iff.
    destruct H as [H | H]; [left; apply Hi; exact H | right; cbn [In]; intuition auto]. }
  split; [|split; [|split; [|split; [|split; [|split; [|split; [|split; [|split]]]]]]]].
  - rewrite Hin, Hdrop by (cbn [In]; auto). intuition (try discriminate; auto).
  - rewrite Hin, Hdrop by (cbn [In]; auto). intuition (try discriminate; auto).
  - rewrite Hin, Hdrop by (cbn [In]; auto). intuition (try discriminate; auto).
  - rewrite Hin, Hdrop by (cbn [In]; auto). intuition (try discriminate; auto).
  - intros name alternatives Ht. rewrite Hin. split.
    + intros [H | H]; [apply (Htab name alternatives Ht); exact H|].
      exfalso.
      assert (In name (map fst trackers)) as Hm
          by (apply in_map_iff; exists (name, alternatives); auto).
      cbn in Hm.
      destruct H as [[_ ->] | [[_ ->] | [[_ ->] | [_ ->]]]];
        repeat (destruct Hm as [Hm|Hm]; [discriminate Hm|]); exact Hm.
    + intros Hp. left. apply (Htab name alternatives Ht). exact Hp.
  - exact Hsub.
  - change 17%nat with (List.length trackerNames).
    apply NoDup_incl_length; [rewrite Ho; exact Hn | exact Hsub].
  - exact Ho.
  - exact Hhot.
  - exact Hic.
Qed.

(* ===================================================================== *)
(** ** The Bedrock client *)
(* ===================================================================== *)

Lemma catch_rethrow {A : Type} (m : M A) (w : World) :
  catch m (fun error => raise error) w = m w.
Proof.
  cbn. destruct (m w) as [[a|e] cs]; [reflexivity|]. rewrite app_nil_r. reflexivity.
Qed.

Lemma errorDetails_run (w : World) (errorText : string) :
  catch (liftSum (JSON_parse w errorText))
        (fun _ => ret (JObj [("message", JStr errorText)])) w
  = (Normal match JSON_parse w errorText with
            | inl _ => JObj [("message", JStr errorText)]
            | inr v => v
            end, []).
Proof. cbn. destruct (JSON_parse w errorText); reflexivity. Qed.

Section BedrockFacts.

Variable aws_fetch : BedrockConfig -> string -> string -> string -> FetchOutcome.
Variable ToString_outside : JSValue -> JSError + string.
Variable gt0_outside : JSValue -> JSError + bool.

(** The error branch of the client in closed form. *)
Lemma invokeClaudeSonnet_not_ok (config : BedrockConfig) (systemPrompt userPrompt : string)
    (w : World) (response : Response) :
  aws_fetch config (Bedrock.endpoint config) systemPrompt userPrompt = FetchResponse response ->
  ok response = false ->
  Bedrock.invokeClaudeSonnet aws_fetch ToString_outside gt0_outside
    config systemPrompt userPrompt w
  = match Bedrock.detail ToString_outside
            match JSON_parse w (respBody response) with
            | inl _ => JObj [("message", JStr (respBody response))]
            | inr v => v
            end (respBody response) w with
    | (Thrown e, cs) => (Thrown e, cs)
    | (Normal d, cs) =>
        (Thrown (Error
           (if (respStatus response =? 403)%N then
              "AWS Access Denied (403): Check IAM permissions for bedrock:InvokeModel. Error: "
              ++ d
            else if (respStatus response =? 404)%N then
              "Model Not Found (404): Claude 3.7 Sonnet may not be enabled in "
              ++ region config ++ ". Enable it in AWS Bedrock Console. Error: " ++ d
            else if (respStatus response =? 429)%N then
              "Rate Limited (429): Too many requests. Wait and retry. Error: " ++ d
            else if (respStatus response =? 400)%N then
              "Bad Request (400): Invalid model ID or request format. Error: " ++ d
            else "Bedrock API error (" ++ JsString.ofN (respStatus response) ++ "): " ++ d)),
         cs)
    end.
Proof.
  intros Hf Hok. unfold Bedrock.invokeClaudeSonnet. rewrite catch_rethrow.
  rewrite (bind_pure ask _ w w eq_refl). rewrite Hf, Hok. cbn [negb].
  rewrite (bind_pure _ _ w _ (errorDetails_run w (respBody response))).
  set (ed := match JSON_parse w (respBody response) with
             | inl _ => JObj [("message", JStr (respBody response))]
             | inr v => v
             end).
  destruct (respStatus response =? 403)%N;
    [|destruct (respStatus response =? 404)%N;
      [|destruct (respStatus response =? 429)%N;
        [|destruct (respStatus response =? 400)%N]]];
    cbn -[Bedrock.detail JsString.ofN];
    destruct (Bedrock.detail ToString_outside ed (respBody response) w) as [[d|e] cs];
    rewrite ?app_nil_r; reflexivity.
Qed.

Lemma detail_run (w : World) (errorText d : string) :
  detailIs w errorText d ->
  Bedrock.detail ToString_outside
    match JSON_parse w errorText with
    | inl _ => JObj [("message", JStr errorText)]
    | inr v => v
    end errorText w
  = (Normal d, []).
Proof.
  intros [[[e He] ->] | (fields & Hp & [[Hm Hd] | [Hm ->]])].
  - rewrite He. unfold Bedrock.detail, readProp. cbn.
    unfold js_or. destruct (truthy (JStr errorText)); reflexivity.
  - rewrite Hp. unfold Bedrock.detail, readProp. cbn -[lookup]. rewrite Hm.
    unfold js_or. cbn. destruct (String.eqb d "") eqn:E; [|reflexivity].
    apply String.eqb_eq in E. contradiction.
  - rewrite Hp. unfold Bedrock.detail, readProp. cbn -[lookup].
    unfold js_or. rewrite Hm. reflexivity.
Qed.


Lemma bedrock_not_ok_throws (config : BedrockConfig) (systemPrompt userPrompt : string)
    (w : World) (response : Response) :
  aws_fetch config (Bedrock.endpoint config) systemPrompt userPrompt = FetchResponse response ->
  ok response = false ->
  exists e,
    Bedrock.invokeClaudeSonnet aws_fetch ToString_outside gt0_outside
      config systemPrompt userPrompt w = (Thrown e, []).
Proof.
  intros Hf Hok.
  rewrite (invokeClaudeSonnet_not_ok config systemPrompt userPrompt w response Hf Hok).
  assert (snd (Bedrock.detail ToString_outside
                 match JSON_parse w (respBody response) with
                 | inl _ => JObj [("message", JStr (respBody response))]
                 | inr v => v
                 end (respBody response) w) = []) as Hc.
  { unfold Bedrock.detail, readProp. cbn -[js_or lookup].
    destruct (getProp _ "message") as [m|]; [|reflexivity].
    cbn -[js_or lookup]. destruct (js_or m (JStr (respBody response))) as [| |[|]| | | |];
      cbn; try reflexivity;
      match goal with |- context [ToString_outside ?v] => destruct (ToString_outside v) end;
      reflexivity. }
  destruct (Bedrock.detail _ _ _ w) as [[d|e] cs]; cbn in Hc; subst cs; eexists; reflexivity.
Qed.

(** X12.  The client never returns when the response is not OK, and the
    error it throws is chosen by the status alone: 403, 404, 429 and 400
    have their own message, every other status the generic one, each
    followed by the [message] of a JSON error body, or by the body itself
    when it is not JSON or has no [message].  A body that is the JSON
    [null] makes the client throw the TypeError of the property read
    instead. *)
Theorem bedrock_error_status (config : BedrockConfig) (systemPrompt userPrompt : string)
    (w : World) (response : Response) :
  aws_fetch config (Bedrock.endpoint config) systemPrompt userPrompt = FetchResponse response ->
  ok response = false ->
  let run := Bedrock.invokeClaudeSonnet aws_fetch ToString_outside gt0_outside
               config systemPrompt userPrompt w in
  let status := respStatus response in
  (exists e, run = (Thrown e, []))
  /\ (JSON_parse w (respBody response) = inr JNull ->
      run = (Thrown (nullReadError w "message"), []))
  /\ (forall d, detailIs w (respBody response) d ->
        exists message,
          run = (Thrown (Error message), [])
          /\ (status = 403%N ->
              message = "AWS Access Denied (403): Check IAM permissions for bedrock:InvokeModel. Error: "
                        ++ d)
          /\ (status = 404%N ->
              message = "Model Not Found (404): Claude 3.7 Sonnet may not be enabled in "
                        ++ region config ++ ". Enable it in AWS Bedrock Console. Error: " ++ d)
          /\ (status = 429%N ->
              message = "Rate Limited (429): Too many requests. Wait and retry. Error: " ++ d)
          /\ (status = 400%N ->
              message = "Bad Request (400): Invalid model ID or request format. Error: " ++ d)
          /\ (status <> 403%N -> status <> 404%N -> status <> 429%N -> status <> 400%N ->
              message = "Bedrock API error (" ++ JsString.ofN status ++ "): " ++ d)).
Proof.
  intros Hf Hok run status. subst run.
  rewrite (invokeClaudeSonnet_not_ok config systemPrompt userPrompt w response Hf Hok).
  split; [|split].
  - rewrite <- (invokeClaudeSonnet_not_ok config systemPrompt userPrompt w response Hf Hok).
    exact (bedrock_not_ok_throws config systemPrompt userPrompt w response Hf Hok).
  - intros Hp. rewrite Hp. reflexivity.
  - intros d Hd. rewrite (detail_run w (respBody response) d Hd).
    eexists. split; [reflexivity|]. fold status.
    repeat split.
    + intros ->. reflexivity.
    + intros ->. reflexivity.
    + intros ->. reflexivity.
    + intros ->. reflexivity.
    + intros H3 H4 H9 H0.
      apply N.eqb_neq in H3, H4, H9, H0. rewrite H3, H4, H9, H0. reflexivity.
Qed.

Lemma lengthPositive_calls (content : JSValue) (w : World) :
  snd (Bedrock.lengthPositive gt0_outside content w) = [].
Proof.
  unfold Bedrock.lengthPositive, Bedrock.gt0.
  destruct content as [| | | | |items|fields]; try reflexivity.
  cbn -[lookup]. destruct (lookup fields "length"); try reflexivity;
    match goal with |- context [gt0_outside ?v] => destruct (gt0_outside v) end;
    reflexivity.
Qed.

(** The success branch of the client in closed form. *)
Lemma invokeClaudeSonnet_ok (config : BedrockConfig) (systemPrompt userPrompt : string)
    (w : World) (response : Response) :
  aws_fetch config (Bedrock.endpoint config) systemPrompt userPrompt = FetchResponse response ->
  ok response = true ->
  Bedrock.invokeClaudeSonnet aws_fetch ToString_outside gt0_outside
    config systemPrompt userPrompt w
  = match JSON_parse w (respBody response) with
    | inl e => (Thrown e, [])
    | inr responseBody =>
        match getProp responseBody "output" with
        | None => (Thrown (nullReadError w "output"), [])
        | Some output =>
            let message := field output "message" in
            let content := field message "content" in
            match fst ((if truthy output && truthy message && truthy content
                        then Bedrock.lengthPositive gt0_outside content else ret false) w) with
            | Thrown e => (Thrown e, [])
            | Normal false => (Thrown Bedrock.noText, [])
            | Normal true =>
                match getProp (Bedrock.firstBlock content) "text" with
                | None => (Thrown (nullReadError w "text"), [])
                | Some text =>
                    if truthy text then (Normal text, []) else (Thrown Bedrock.noText, [])
                end
            end
        end
    end.
Proof.
  intros Hf Hok. unfold Bedrock.invokeClaudeSonnet. rewrite catch_rethrow.
  rewrite (bind_pure ask _ w w eq_refl). rewrite Hf, Hok. cbn [negb].
  assert (json response w
          = (match JSON_parse w (respBody response) with
             | inl e => Thrown e
             | inr v => Normal v
             end, [])) as Hj.
  { unfold json. cbn. destruct (JSON_parse w (respBody response)); reflexivity. }
  destruct (JSON_parse w (respBody response)) as [e|responseBody];
    [rewrite (bind_Thrown _ _ w e [] Hj); reflexivity|].
  rewrite (bind_pure _ _ w responseBody Hj).
  assert (readProp responseBody "output" w
          = (match getProp responseBody "output" with
             | Some x => Normal x
             | None => Thrown (nullReadError w "output")
             end, [])) as Hr.
  { unfold readProp. cbn. destruct (getProp responseBody "output"); reflexivity. }
  destruct (getProp responseBody "output") as [output|];
    [|rewrite (bind_Thrown _ _ w _ [] Hr); reflexivity].
  rewrite (bind_pure _ _ w output Hr). cbv zeta.
  set (content := field (field output "message") "content").
  set (guard := if truthy output && truthy (field output "message") && truthy content
                then Bedrock.lengthPositive gt0_outside content else ret false).
  assert (snd (guard w) = []) as Hc.
  { subst guard. destruct (truthy output && truthy (field output "message") && truthy content);
      [apply lengthPositive_calls | reflexivity]. }
  destruct (guard w) as [[hasContent|e] cs] eqn:Hg; cbn [snd] in Hc; subst cs; cbn [fst];
    [|rewrite (bind_Thrown _ _ w e [] Hg); reflexivity].
  rewrite (bind_pure _ _ w hasContent Hg).
  destruct hasContent; [|reflexivity].
  assert (readProp (Bedrock.firstBlock content) "text" w
          = (match getProp (Bedrock.firstBlock content) "text" with
             | Some x => Normal x
             | None => Thrown (nullReadError w "text")
             end, [])) as Ht.
  { unfold readProp. cbn. destruct (getProp (Bedrock.firstBlock content) "text"); reflexivity. }
  destruct (getProp (Bedrock.firstBlock content) "text") as [text|];
    [|rewrite (bind_Thrown _ _ w _ [] Ht); reflexivity].
  rewrite (bind_pure _ _ w text Ht).
  destruct (truthy text); reflexivity.
Qed.

Lemma content_is_array (responseBody : JSValue) (items : list JSValue) :
  converseContent responseBody = JArr items ->
  exists output,
    getProp responseBody "output" = Some output
    /\ truthy output = true
    /\ truthy (field output "message") = true.
Proof.
  unfold converseContent. intros H.
  assert (forall v k, field v k <> JUndefined -> truthy v = true /\ nullish v = false) as Hobj.
  { intros v k Hv. destruct v; try (exfalso; apply Hv; reflexivity). split; reflexivity. }
  destruct (Hobj (field (field responseBody "output") "message") "content") as [Hm _];
    [rewrite H; discriminate|].
  assert (field (field responseBody "output") "message" <> JUndefined) as Hm'
      by (intros E; rewrite E in Hm; discriminate Hm).
  destruct (Hobj (field responseBody "output") "message" Hm') as [Ho _].
  assert (field responseBody "output" <> JUndefined) as Ho'
      by (intros E; rewrite E in Ho; discriminate Ho).
  exists (field responseBody "output"). split; [|split; assumption].
  unfold field in *. destruct (getProp responseBody "output"); [reflexivity|].
  exfalso. apply Ho'. reflexivity.
Qed.

(** X13.  From an OK response whose body carries an array as
    [output.message.content], the client reads the first block only: it
    returns that block's [text] when it is truthy, throws
    ["No text content in Bedrock Converse response"] when the array is empty
    or the text is absent or empty, whatever the later blocks hold, and
    throws the TypeError of the property read when the first block is
    [null]. *)
Theorem bedrock_text_extraction (config : BedrockConfig) (systemPrompt userPrompt : string)
    (w : World) (response : Response) (responseBody : JSValue) (items : list JSValue) :
  aws_fetch config (Bedrock.endpoint config) systemPrompt userPrompt = FetchResponse response ->
  ok response = true ->
  JSON_parse w (respBody response) = inr responseBody ->
  converseContent responseBody = JArr items ->
  Bedrock.invokeClaudeSonnet aws_fetch ToString_outside gt0_outside
    config systemPrompt userPrompt w
  = match items with
    | [] => (Thrown Bedrock.noText, [])
    | block :: _ =>
        if nullish block then (Thrown (nullReadError w "text"), [])
        else if truthy (field block "text") then (Normal (field block "text"), [])
        else (Thrown Bedrock.noText, [])
    end.
Proof.
  intros Hf Hok Hp Hc.
  rewrite (invokeClaudeSonnet_ok config systemPrompt userPrompt w response Hf Hok), Hp.
  destruct (content_is_array responseBody items Hc) as (output & Ho & Hto & Htm).
  rewrite Ho. cbv zeta.
  assert (field (field output "message") "content" = JArr items) as Hc'.
  { assert (field responseBody "output" = output) as Hfo
        by (unfold field; rewrite Ho; reflexivity).
    unfold converseContent in Hc. rewrite Hfo in Hc. exact Hc. }
  rewrite Hc', Hto, Htm. cbn [truthy andb].
  destruct items as [|block rest]; [reflexivity|].
  cbn [Bedrock.lengthPositive Bedrock.firstBlock nth].
  cbn -[getProp truthy field nullish].
  unfold field. destruct block; reflexivity.
Qed.

(** X14.  Whatever the service answers, a value returned by the client is
    truthy, so never the empty string, and it comes from an OK response
    with a JSON body, as the [text] of the first element of
    [output.message.content]; the client itself calls none of the scanner's
    collaborators. *)
Theorem bedrock_returns_truthy_text (config : BedrockConfig)
    (systemPrompt userPrompt : string) (w : World) (v : JSValue) (cs : list Call) :
  Bedrock.invokeClaudeSonnet aws_fetch ToString_outside gt0_outside
    config systemPrompt userPrompt w = (Normal v, cs) ->
  truthy v = true
  /\ v <> JStr ""
  /\ cs = []
  /\ exists response responseBody,
       aws_fetch config (Bedrock.endpoint config) systemPrompt userPrompt
       = FetchResponse response
       /\ ok response = true
       /\ JSON_parse w (respBody response) = inr responseBody
       /\ v = field (Bedrock.firstBlock (converseContent responseBody)) "text".
Proof.
  intros H.
  destruct (aws_fetch config (Bedrock.endpoint config) systemPrompt userPrompt)
    as [e|response] eqn:Hf.
  { unfold Bedrock.invokeClaudeSonnet in H. rewrite catch_rethrow in H.
    rewrite (bind_pure ask _ w w eq_refl), Hf in H. discriminate H. }
  destruct (ok response) eqn:Hok.
  2:{ destruct (bedrock_not_ok_throws config systemPrompt userPrompt w response Hf Hok)
        as [e He].
      rewrite He in H. discriminate H. }
  rewrite (invokeClaudeSonnet_ok config systemPrompt userPrompt w response Hf Hok) in H.
  destruct (JSON_parse w (respBody response)) as [e|responseBody] eqn:Hp; [discriminate H|].
  destruct (getProp responseBody "output") as [output|] eqn:Ho; [|discriminate H].
  cbv zeta in H.
  destruct (fst _) as [[|]|e] in H; try discriminate H.
  assert (converseContent responseBody = field (field output "message") "content") as Hc.
  { assert (field responseBody "output" = output) as Hfo
        by (unfold field; rewrite Ho; reflexivity).
    unfold converseContent. rewrite Hfo. reflexivity. }
  rewrite <- Hc in H.
  destruct (getProp (Bedrock.firstBlock (converseContent responseBody)) "text")
    as [text|] eqn:Ht; [|discriminate H].
  destruct (truthy text) eqn:Htt; [|discriminate H].
  injection H as <- <-.
  split; [exact Htt|]. split; [intros ->; discriminate Htt|]. split; [reflexivity|].
  exists response, responseBody. repeat split; try assumption.
  unfold field. rewrite Ht. reflexivity.
Qed.

End BedrockFacts.

(** X12, witness: Bedrock answers 403 with a JSON error body. *)
Lemma bedrock_error_status_witness :
  Bedrock.invokeClaudeSonnet (bedrockAnswers accessDenied) plainToString plainGt0
    sampleConfig "system" "prompt" (bedrockWorld syntaxError)
  = (Thrown (Error ("AWS Access Denied (403): Check IAM permissions for bedrock:InvokeModel. Error: "
                    ++ "User is not authorized")), []).
Proof.
  destruct (bedrock_error_status (bedrockAnswers accessDenied) plainToString plainGt0
              sampleConfig "system" "prompt" (bedrockWorld syntaxError) accessDenied
              eq_refl eq_refl) as (_ & _ & H).
  destruct (H "User is not authorized") as (message & Hrun & H403 & _).
  { right. exists [("message", JStr "User is not authorized")].
    split; [reflexivity|]. left. split; [reflexivity | discriminate]. }
  rewrite Hrun, (H403 eq_refl). reflexivity.
Defined.

(** X13, witness: a body with one text block. *)
Lemma bedrock_text_extraction_witness :
  Bedrock.invokeClaudeSonnet (bedrockAnswers converseOk) plainToString plainGt0
    sampleConfig "system" "prompt" (bedrockWorld syntaxError)
  = (Normal (JStr "{}"), []).
Proof.
  exact (bedrock_text_extraction (bedrockAnswers converseOk) plainToString plainGt0
           sampleConfig "system" "prompt" (bedrockWorld syntaxError) converseOk
           converseValue [JObj [("text", JStr "{}")]] eq_refl eq_refl eq_refl eq_refl).
Defined.

(** X14, witness: the same response. *)
Lemma bedrock_returns_truthy_text_witness :
  exists response responseBody,
    bedrockAnswers converseOk sampleConfig (Bedrock.endpoint sampleConfig) "system" "prompt"
    = FetchResponse response
    /\ ok response = true
    /\ JSON_parse (bedrockWorld syntaxError) (respBody response) = inr responseBody
    /\ JStr "{}" = field (Bedrock.firstBlock (converseContent responseBody)) "text".
Proof.
  exact (proj2 (proj2 (proj2
           (bedrock_returns_truthy_text (bedrockAnswers converseOk) plainToString plainGt0
              sampleConfig "system" "prompt" (bedrockWorld syntaxError) (JStr "{}") []
              eq_refl)))).
Defined.

(* ===================================================================== *)
(** ** Bedrock errors as the scanner reports them *)
(* ===================================================================== *)

(** What the client throws is what the scanner's model call throws. *)
Lemma clientWorld_throws
    (aws_fetch : BedrockConfig -> string -> string -> string -> FetchOutcome)
    (ToString_outside : JSValue -> JSError + string)
    (gt0_outside : JSValue -> JSError + bool)
    (render : PromptInputs -> string) (w : World)
    (config : BedrockConfig) (system : string) (prompt : PromptInputs)
    (e : JSError) (cs : list Call) :
  Bedrock.invokeClaudeSonnet aws_fetch ToString_outside gt0_outside
    config system (render prompt) w = (Thrown e, cs) ->
  Claude (clientWorld aws_fetch ToString_outside gt0_outside render w) config system prompt
  = inl e.
Proof.
  intros H. cbn [Claude clientWorld]. unfold clientAnswer. rewrite H. reflexivity.
Qed.

(** X15.  The scanner run against the client of bedrock-client.ts, for a
    scan that has collected its evidence and whose model request is
    answered with a response that is not OK.  When the error body is not
    JSON, or is a JSON object whose [message] is a non-empty string or is
    absent, the scan returns the technical-failure result, and: a 403 is
    shown as the access-denied category; a 404, 429 or 400 is shown as its
    own category unless the message also carries a marker of an earlier
    test; any other status whose message carries no marker is shown with
    the client's raw message ["Bedrock API error (<status>): <detail>"].
    When the error body is the JSON text [null], whatever the status (403
    included), reading its [message] throws, and the scan returns the
    technical failure of that [TypeError] instead. *)
Theorem bedrock_errors_reach_the_user
    (aws_fetch : BedrockConfig -> string -> string -> string -> FetchOutcome)
    (ToString_outside : JSValue -> JSError + string)
    (gt0_outside : JSValue -> JSError + bool)
    (render : PromptInputs -> string)
    (w : World) (url key : string) (config : BedrockConfig) (u : URLRecord)
    (ev : Evidence) (cs : list Call) (response : Response) :
  reachesFetch (clientWorld aws_fetch ToString_outside gt0_outside render w) url key u ->
  collectEvidence (normalizeUrl url) key
    (clientWorld aws_fetch ToString_outside gt0_outside render w) = (Normal ev, cs) ->
  aws_fetch config (Bedrock.endpoint config) systemPrompt
            (render (analysisPrompt (normalizeUrl url) ev)) = FetchResponse response ->
  ok response = false ->
  let status := respStatus response in
  (forall d, detailIs w (respBody response) d ->
   exists r message,
    analyzeUrl url (Some key) (Some config)
               (clientWorld aws_fetch ToString_outside gt0_outside render w)
    = (Normal r, (cs ++ [claudeCall config (normalizeUrl url) ev])%list)
    /\ success r = false
    /\ detectedIssues r
       = JArr [JStr ("Scan failed: " ++ userFriendlyError (Error message)); JStr technicalNote]
    /\ (status = 403%N ->
        userFriendlyError (Error message)
        = "AWS Access Denied - Check IAM permissions for bedrock:InvokeModel")
    /\ (status = 404%N -> mentionsNone message ["Access Denied"; "403"] = true ->
        userFriendlyError (Error message)
        = "Model not found - Enable Claude 3.7 Sonnet in AWS Bedrock Console")
    /\ (status = 429%N ->
        mentionsNone message ["Access Denied"; "403"; "404"; "Not Found"] = true ->
        userFriendlyError (Error message)
        = "AWS rate limit exceeded - Wait a moment and retry")
    /\ (status = 400%N ->
        mentionsNone message ["Access Denied"; "403"; "404"; "Not Found"; "429"; "Throttl"]
        = true ->
        userFriendlyError (Error message)
        = "Invalid request format - Check model ID and region")
    /\ (status <> 403%N -> status <> 404%N -> status <> 429%N -> status <> 400%N ->
        mentionsNone message awsMarkers = true ->
        JsString.includes message "Firecrawl" = false ->
        message = "Bedrock API error (" ++ JsString.ofN status ++ "): " ++ d
        /\ userFriendlyError (Error message) = message))
  /\ (JSON_parse w (respBody response) = inr JNull ->
      exists r,
        analyzeUrl url (Some key) (Some config)
                   (clientWorld aws_fetch ToString_outside gt0_outside render w)
        = (Normal r, (cs ++ [claudeCall config (normalizeUrl url) ev])%list)
        /\ r = scanFailed url (Date_toISOString w) (nullReadError w "message")
        /\ success r = false
        /\ detectedIssues r
           = JArr [JStr ("Scan failed: " ++ userFriendlyError (nullReadError w "message"));
                   JStr technicalNote]).
Proof.
  intros Hr Hev Hf Hok status.
  pose proof (invokeClaudeSonnet_not_ok aws_fetch ToString_outside gt0_outside config
                systemPrompt (render (analysisPrompt (normalizeUrl url) ev)) w response
                Hf Hok) as Hrun0.
  destruct Hr as (Hk & Hu & Hkn).
  destruct (fatal_paths url key config _ u Hk Hu Hkn) as (_ & Hmodel & _).
  split.
  2:{ intros Hnull. rewrite Hnull in Hrun0.
      change (Bedrock.detail ToString_outside JNull (respBody response) w)
        with (@Thrown string (nullReadError w "message"), @nil Call) in Hrun0.
      pose proof (clientWorld_throws aws_fetch ToString_outside gt0_outside render w config
                    systemPrompt (analysisPrompt (normalizeUrl url) ev) _ _ Hrun0) as Hc.
      eexists. split; [exact (Hmodel ev cs _ Hev Hc)|]. repeat split. }
  intros d Hd. pose proof Hrun0 as Hrun.
  rewrite (detail_run ToString_outside w (respBody response) d Hd) in Hrun.
  fold status in Hrun.
  set (message := if (status =? 403)%N then _ else _) in Hrun.
  assert (status = 403%N ->
          message = "AWS Access Denied (403): Check IAM permissions for bedrock:InvokeModel. Error: "
                    ++ d) as H403
      by (intros E; unfold message; rewrite E; reflexivity).
  assert (status = 404%N ->
          message = "Model Not Found (404): Claude 3.7 Sonnet may not be enabled in "
                    ++ region config ++ ". Enable it in AWS Bedrock Console. Error: " ++ d)
    as H404 by (intros E; unfold message; rewrite E; reflexivity).
  assert (status = 429%N ->
          message = "Rate Limited (429): Too many requests. Wait and retry. Error: " ++ d)
    as H429 by (intros E; unfold message; rewrite E; reflexivity).
  assert (status = 400%N ->
          message = "Bad Request (400): Invalid model ID or request format. Error: " ++ d)
    as H400 by (intros E; unfold message; rewrite E; reflexivity).
  assert (status <> 403%N -> status <> 404%N -> status <> 429%N -> status <> 400%N ->
          message = "Bedrock API error (" ++ JsString.ofN status ++ "): " ++ d) as Hother.
  { intros H3 H4 H9 H0. unfold message.
    apply N.eqb_neq in H3, H4, H9, H0. rewrite H3, H4, H9, H0. reflexivity. }
  clearbody message.
  pose proof (clientWorld_throws aws_fetch ToString_outside gt0_outside render w config
                systemPrompt (analysisPrompt (normalizeUrl url) ev) _ _ Hrun) as Hc.
  exists (scanFailed url (Date_toISOString w) (Error message)), message.
  split; [exact (Hmodel ev cs _ Hev Hc)|]. split; [reflexivity|]. split; [reflexivity|].
  assert (message <> "") as Hne.
  { destruct (N.eq_dec status 403) as [E|N3]; [rewrite (H403 E); discriminate|].
    destruct (N.eq_dec status 404) as [E|N4]; [rewrite (H404 E); discriminate|].
    destruct (N.eq_dec status 429) as [E|N9]; [rewrite (H429 E); discriminate|].
    destruct (N.eq_dec status 400) as [E|N0]; [rewrite (H400 E); discriminate|].
    rewrite (Hother N3 N4 N9 N0). discriminate. }
  rewrite (userFriendlyError_message message Hne).
  split; [|split; [|split; [|split]]].
  - intros E.
    assert (JsString.includes message "Access Denied" = true) as ->; [|reflexivity].
    rewrite (H403 E). apply includes_app_l. reflexivity.
  - intros E Hm. split_markers Hm.
    assert (JsString.includes message "404" = true) as H4.
    { rewrite (H404 E). apply includes_app_l. reflexivity. }
    repeat match goal with
           | H : JsString.includes message _ = false |- _ => rewrite H; clear H
           end.
    rewrite H4. reflexivity.
  - intros E Hm. split_markers Hm.
    assert (JsString.includes message "429" = true) as H4.
    { rewrite (H429 E). apply includes_app_l. reflexivity. }
    repeat match goal with
           | H : JsString.includes message _ = false |- _ => rewrite H; clear H
           end.
    rewrite H4. reflexivity.
  - intros E Hm. split_markers Hm.
    assert (JsString.includes message "400" = true) as H4.
    { rewrite (H400 E). apply includes_app_l. reflexivity. }
    repeat match goal with
           | H : JsString.includes message _ = false |- _ => rewrite H; clear H
           end.
    rewrite H4. reflexivity.
  - intros N3 N4 N9 N0 Hm Hfc. split; [exact (Hother N3 N4 N9 N0)|].
    split_markers Hm.
    repeat match goal with
           | H : JsString.includes message _ = false |- _ => rewrite H; clear H
           end.
    reflexivity.
Qed.

(** X15, witness: Bedrock answers 403 with a JSON error body to the model
    request of the sample scan. *)
Lemma bedrock_errors_reach_the_user_witness :
  exists r,
    fst (analyzeUrl "shop.example" (Some "fc-key") (Some sampleConfig)
           (clientWorld (bedrockAnswers accessDenied) plainToString plainGt0 promptOpening
                        (bedrockWorld syntaxError)))
    = Normal r
    /\ detectedIssues r
       = JArr [JStr "Scan failed: AWS Access Denied - Check IAM permissions for bedrock:InvokeModel";
               JStr technicalNote].
Proof.
  assert (reachesFetch (clientWorld (bedrockAnswers accessDenied) plainToString plainGt0
                                    promptOpening (bedrockWorld syntaxError))
                       "shop.example" "fc-key" (mkURL "https:" "shop.example")) as Hr.
  { split; [discriminate|]. split; reflexivity. }
  assert (detailIs (bedrockWorld syntaxError) (respBody accessDenied) "User is not authorized")
    as Hd.
  { right. exists [("message", JStr "User is not authorized")].
    split; [reflexivity|]. left. split; [reflexivity | discriminate]. }
  destruct (bedrock_errors_reach_the_user (bedrockAnswers accessDenied) plainToString plainGt0
              promptOpening (bedrockWorld syntaxError) "shop.example" "fc-key" sampleConfig _
              sampleEvidence sampleCalls accessDenied Hr) as [H _].
  - vm_compute. reflexivity.
  - reflexivity.
  - reflexivity.
  - destruct (H "User is not authorized" Hd) as (r & message & Hrun & _ & Hissues & H403 & _).
    exists r. split; [rewrite Hrun; reflexivity|].
    rewrite Hissues, (H403 eq_refl). reflexivity.
Defined.

(** A 403 whose body is the JSON text [null] is not shown as access denied:
    the issue names the [TypeError] of the read. *)
Example null_error_body_403 :
  exists r cs,
    analyzeUrl "shop.example" (Some "fc-key") (Some sampleConfig)
               (clientWorld (bedrockAnswers nullBody) plainToString plainGt0 promptOpening
                            nullBodyWorld)
    = (Normal r, cs)
    /\ success r = false
    /\ detectedIssues r
       = JArr [JStr "Scan failed: Cannot read properties of null (reading 'message')";
               JStr technicalNote].
Proof.
  destruct (analyzeUrl_returns "shop.example" (Some "fc-key") (Some sampleConfig)
              (clientWorld (bedrockAnswers nullBody) plainToString plainGt0 promptOpening
                           nullBodyWorld)) as (r & cs & Hrun & _).
  exists r, cs. split; [exact Hrun|].
  vm_compute in Hrun. injection Hrun as <- _. split; reflexivity.
Qed.

(* ===================================================================== *)
(** ** The worker's scan handler *)
(* ===================================================================== *)

Section WorkerFacts.

Variable aws_fetch : Lambda.LambdaInvokeOptions -> string -> FetchOutcome.
Variable ToString_outside : JSValue -> JSError + string.

Lemma invokeLambda_run (options : Lambda.LambdaInvokeOptions) (w : World) :
  Lambda.invokeLambda aws_fetch options w
  = (match aws_fetch options
             (Lambda.lambdaUrl (Lambda.region options)
                               (Lambda.functionName (Lambda.functionArn options))) with
     | FetchRejected e => Thrown e
     | FetchResponse response =>
         if ok response then
           match JSON_parse w (respBody response) with
           | inl e => Thrown e
           | inr v => Normal v
           end
         else Thrown (Error ("Lambda invocation failed: " ++ JsString.ofN (respStatus response)))
     end, []).
Proof.
  unfold Lambda.invokeLambda.
  destruct (aws_fetch _ _) as [e|response]; [reflexivity|].
  destruct (ok response); [|reflexivity].
  unfold json. cbn. destruct (JSON_parse w (respBody response)); reflexivity.
Qed.

Lemma templateValue_calls (v : JSValue) (w : World) :
  snd (templateValue ToString_outside v w) = [].
Proof.
  destruct v as [| |[|]| | |items|fields]; try reflexivity;
    cbn; match goal with |- context [ToString_outside ?v] => destruct (ToString_outside v) end;
    reflexivity.
Qed.

(** The Lambda branch in closed form: it returns a reply and calls none of
    the scanner's collaborators. *)
Lemma lambdaScan_run (env : Worker.Env) (url : string) (w : World) :
  Worker.lambdaScan aws_fetch ToString_outside env url w
  = (Normal
       match fst (Lambda.invokeLambda aws_fetch
                    (Lambda.mkOptions
                       (Worker.orElse (Worker.LAMBDA_SCANNER_ARN env) "")
                       (Worker.orElse (Worker.AWS_REGION env) "us-east-1")
                       (Worker.orElse (Worker.AWS_ACCESS_KEY_ID env) "")
                       (Worker.orElse (Worker.AWS_SECRET_ACCESS_KEY env) "")
                       (JObj [ ("url", JStr (Worker.withScheme url));
                               ("userId", JStr "anonymous");
                               ("isScheduledScan", JBool false) ])) w) with
       | Thrown e => Worker.c_json (Worker.BodyValue (Worker.lambdaFailure (errMessage e))) 500
       | Normal result =>
           if nullish result then
             Worker.c_json
               (Worker.BodyValue
                  (Worker.lambdaFailure (errMessage (nullReadError w "riskScore")))) 500
           else
             match fst (templateValue ToString_outside (field result "riskScore") w) with
             | Thrown e =>
                 Worker.c_json (Worker.BodyValue (Worker.lambdaFailure (errMessage e))) 500
             | Normal _ => Worker.c_json (Worker.BodyValue result) 200
             end
       end, []).
Proof.
  unfold Worker.lambdaScan.
  set (options := Lambda.mkOptions _ _ _ _ _).
  assert (snd (Lambda.invokeLambda aws_fetch options w) = []) as Hs
      by (rewrite invokeLambda_run; reflexivity).
  destruct (Lambda.invokeLambda aws_fetch options w) as [[result|e] cs] eqn:Hn;
    cbn [snd] in Hs; subst cs; cbn [fst].
  - destruct (nullish result) eqn:En.
    + erewrite catch_Thrown;
        [|rewrite (bind_pure _ _ w result Hn); apply bind_Thrown, readProp_nullish; exact En].
      reflexivity.
    + pose proof (templateValue_calls (field result "riskScore") w) as Hc.
      destruct (templateValue ToString_outside (field result "riskScore") w)
        as [[text|e] cs] eqn:Et; cbn [snd] in Hc; subst cs; cbn [fst].
      * erewrite catch_Normal;
          [|rewrite (bind_pure _ _ w result Hn);
            rewrite (bind_pure _ _ w _ (readProp_field result "riskScore" w En));
            rewrite (bind_pure _ _ w text Et); reflexivity].
        reflexivity.
      * erewrite catch_Thrown;
          [|rewrite (bind_pure _ _ w result Hn);
            rewrite (bind_pure _ _ w _ (readProp_field result "riskScore" w En));
            apply bind_Thrown; exact Et].
        reflexivity.
  - erewrite catch_Thrown; [|apply bind_Thrown; exact Hn].
    reflexivity.
Qed.

(** The local branch returns what [analyzeUrl] returns, with status 200. *)
Lemma localScan_run (env : Worker.Env) (url : string) (w : World) :
  exists r cs,
    analyzeUrl url (Worker.FIRECRAWL_API_KEY env)
      (if Worker.present (Worker.AWS_ACCESS_KEY_ID env)
          && Worker.present (Worker.AWS_SECRET_ACCESS_KEY env)
          && Worker.present (Worker.AWS_REGION env)
       then Some (mkBedrockConfig (Worker.orElse (Worker.AWS_ACCESS_KEY_ID env) "")
                                  (Worker.orElse (Worker.AWS_SECRET_ACCESS_KEY env) "")
                                  (Worker.orElse (Worker.AWS_REGION env) ""))
       else None) w = (Normal r, cs)
    /\ Worker.localScan env url w = (Normal (Worker.c_json (Worker.BodyResult r) 200), cs).
Proof.
  unfold Worker.localScan.
  cbv zeta.
  match goal with
  | |- context [analyzeUrl url ?k ?c] =>
      destruct (analyzeUrl_returns url k c w) as (r & cs & Hrun & _)
  end.
  exists r, cs. split; [exact Hrun|].
  rewrite (bind_Normal _ _ w r cs Hrun). cbn. rewrite app_nil_r. reflexivity.
Qed.

(** The handler in closed form. *)
Lemma scan_run (env : Worker.Env) (requestBody : string) (w : World) :
  Worker.scan aws_fetch ToString_outside env requestBody w
  = match JSON_parse w requestBody with
    | inl e => (Normal (Worker.unavailable e), [])
    | inr body =>
        match getProp body "url" with
        | None => (Normal (Worker.unavailable (nullReadError w "url")), [])
        | Some (JStr s) =>
            if String.eqb s "" then (Normal Worker.urlRequired, [])
            else
              match fst (new_URL (Worker.withScheme s) w) with
              | Thrown _ => (Normal Worker.invalidUrlFormat, [])
              | Normal _ =>
                  if Worker.present (Worker.LAMBDA_SCANNER_ARN env)
                     && Worker.present (Worker.AWS_ACCESS_KEY_ID env)
                     && Worker.present (Worker.AWS_SECRET_ACCESS_KEY env)
                  then Worker.lambdaScan aws_fetch ToString_outside env s w
                  else Worker.localScan env s w
              end
        | Some url =>
            if truthy url then (Normal Worker.invalidUrlFormat, [])
            else (Normal Worker.urlRequired, [])
        end
    end.
Proof.
  unfold Worker.scan.
  destruct (JSON_parse w requestBody) as [e|body] eqn:Hp.
  { erewrite catch_Thrown;
      [|rewrite (bind_pure ask _ w w eq_refl), Hp; apply bind_Thrown; reflexivity].
    reflexivity. }
  assert (forall (k : JSValue -> M Worker.Reply),
            bind ask (fun w0 => bind (liftSum (JSON_parse w0 requestBody)) k) w = k body w)
    as Hstart.
  { intros k. rewrite (bind_pure ask _ w w eq_refl), Hp.
    apply (bind_pure (liftSum (inr body)) k w body). reflexivity. }
  destruct (getProp body "url") as [url|] eqn:Hu.
  2:{ erewrite catch_Thrown;
        [|rewrite Hstart; apply bind_Thrown; unfold readProp; cbn; rewrite Hu; reflexivity].
      reflexivity. }
  assert (readProp body "url" w = (Normal url, [])) as Hr
      by (unfold readProp; cbn; rewrite Hu; reflexivity).
  assert (forall reply cs,
            (if negb (truthy url) then ret Worker.urlRequired
             else
               valid <- catch
                          (match url with
                           | JStr s => _ <- new_URL (Worker.withScheme s) ;; ret true
                           | _ => raise (mkError "TypeError" "url.startsWith is not a function")
                           end)
                          (fun _ => ret false) ;;
               match valid, url with
               | true, JStr s =>
                   if Worker.present (Worker.LAMBDA_SCANNER_ARN env)
                      && Worker.present (Worker.AWS_ACCESS_KEY_ID env)
                      && Worker.present (Worker.AWS_SECRET_ACCESS_KEY env)
                   then Worker.lambdaScan aws_fetch ToString_outside env s
                   else Worker.localScan env s
               | _, _ => ret Worker.invalidUrlFormat
               end) w = (Normal reply, cs) ->
            catch
              (w0 <- ask ;;
               body0 <- liftSum (JSON_parse w0 requestBody) ;;
               url0 <- readProp body0 "url" ;;
               if negb (truthy url0) then ret Worker.urlRequired
               else
                 valid <- catch
                            (match url0 with
                             | JStr s => _ <- new_URL (Worker.withScheme s) ;; ret true
                             | _ => raise (mkError "TypeError" "url.startsWith is not a function")
                             end)
                            (fun _ => ret false) ;;
                 match valid, url0 with
                 | true, JStr s =>
                     if Worker.present (Worker.LAMBDA_SCANNER_ARN env)
                        && Worker.present (Worker.AWS_ACCESS_KEY_ID env)
                        && Worker.present (Worker.AWS_SECRET_ACCESS_KEY env)
                     then Worker.lambdaScan aws_fetch ToString_outside env s
                     else Worker.localScan env s
                 | _, _ => ret Worker.invalidUrlFormat
                 end)
              (fun error => ret (Worker.unavailable error)) w = (Normal reply, cs)) as Hwrap.
  { intros reply cs H. apply catch_Normal. rewrite Hstart.
    rewrite (bind_pure _ _ w url Hr). exact H. }
  destruct url as [| |b|n|s|items|fields]; cbn [truthy negb].
  - apply Hwrap. reflexivity.
  - apply Hwrap. reflexivity.
  - destruct b; apply Hwrap; reflexivity.
  - destruct (n =? 0) eqn:E; cbn [negb]; apply Hwrap; cbn [truthy]; rewrite E; reflexivity.
  - destruct (String.eqb s "") eqn:Es; cbn [negb]; [apply Hwrap; cbn [truthy]; rewrite Es; reflexivity|].
    pose proof (new_URL_makes_no_call (Worker.withScheme s) w) as Hc.
    destruct (new_URL (Worker.withScheme s) w) as [[u|e] cs0] eqn:En; cbn [snd] in Hc;
      subst cs0; cbn [fst].
    + assert (catch (_ <- new_URL (Worker.withScheme s) ;; ret true) (fun _ => ret false) w
              = (Normal true, [])) as Hv.
      { apply catch_Normal. rewrite (bind_pure _ _ w u En). reflexivity. }
      destruct (Worker.present (Worker.LAMBDA_SCANNER_ARN env)
                && Worker.present (Worker.AWS_ACCESS_KEY_ID env)
                && Worker.present (Worker.AWS_SECRET_ACCESS_KEY env)) eqn:Em.
      * rewrite lambdaScan_run. apply Hwrap. cbn [truthy]. rewrite Es. cbn [negb].
        rewrite (bind_pure _ _ w true Hv). apply lambdaScan_run.
      * destruct (localScan_run env s w) as (r & cs & _ & Hl). rewrite Hl.
        apply Hwrap. cbn [truthy]. rewrite Es. cbn [negb].
        rewrite (bind_pure _ _ w true Hv). exact Hl.
    + assert (catch (_ <- new_URL (Worker.withScheme s) ;; ret true) (fun _ => ret false) w
              = (Normal false, [])) as Hv.
      { erewrite catch_Thrown; [|apply bind_Thrown; exact En]. reflexivity. }
      apply Hwrap. cbn [truthy]. rewrite Es. cbn [negb].
      rewrite (bind_pure _ _ w false Hv). reflexivity.
  - apply Hwrap. reflexivity.
  - apply Hwrap. reflexivity.
Qed.

(** X16.  Validation of the request by [POST /api/scan], for a body that
    is JSON and not [null]: a missing or falsy [url] is answered 400
    ["URL is required"]; a truthy [url] that is not a string, or a string
    that [new URL] rejects once ["https://"] has been put before it unless
    it starts with ["http"], is answered 400 ["Invalid URL format"]; in all
    three cases nothing is called. *)
Theorem scan_request_validation (env : Worker.Env) (requestBody : string) (w : World)
    (body : JSValue) :
  JSON_parse w requestBody = inr body ->
  nullish body = false ->
  let url := field body "url" in
  let reply := Worker.scan aws_fetch ToString_outside env requestBody w in
  (truthy url = false -> reply = (Normal Worker.urlRequired, []))
  /\ (truthy url = true -> (forall s, url <> JStr s) ->
      reply = (Normal Worker.invalidUrlFormat, []))
  /\ (forall s e cs, url = JStr s -> s <> "" ->
        new_URL (Worker.withScheme s) w = (Thrown e, cs) ->
        reply = (Normal Worker.invalidUrlFormat, [])).
Proof.
  intros Hp Hn url reply. subst reply. rewrite scan_run, Hp.
  assert (getProp body "url" = Some url) as Hu.
  { subst url. unfold field. destruct body; try discriminate Hn; reflexivity. }
  rewrite Hu. clearbody url. split; [|split].
  - intros Ht. destruct url as [| |b|n|s|items|fields]; cbn in Ht |- *;
      try rewrite Ht; try reflexivity; try discriminate Ht.
    apply negb_false_iff in Ht. rewrite Ht. reflexivity.
  - intros Ht Hs. destruct url as [| |b|n|s|items|fields]; cbn in Ht |- *;
      try rewrite Ht; try reflexivity; try discriminate Ht.
    destruct (Hs s eq_refl).
  - intros s e cs -> Hs He. rewrite He. cbn [fst].
    destruct (String.eqb s "") eqn:Es; [|reflexivity].
    apply String.eqb_eq in Es. contradiction.
Qed.


(** X18.  Without Lambda mode, a request that passes validation is answered
    with status 200 and the result of [analyzeUrl] on the [url] as it was
    sent, and the calls made are those of [analyzeUrl]: a scan that fails,
    for a missing key or a failure of Firecrawl or of the model, is still
    answered 200, with [success = false] in the body. *)
Theorem local_scan_is_transparent (env : Worker.Env) (requestBody : string) (w : World)
    (body : JSValue) (s : string) (u : URLRecord) :
  JSON_parse w requestBody = inr body ->
  field body "url" = JStr s ->
  s <> "" ->
  new_URL (Worker.withScheme s) w = (Normal u, []) ->
  lambdaConfigured env = false ->
  exists r cs,
    analyzeUrl s (Worker.FIRECRAWL_API_KEY env) (localConfig env) w = (Normal r, cs)
    /\ Worker.scan aws_fetch ToString_outside env requestBody w
       = (Normal (Worker.c_json (Worker.BodyResult r) 200), cs).
Proof.
  intros Hp Hu Hs Hn Hm. rewrite scan_run, Hp.
  assert (getProp body "url" = Some (JStr s)) as Hg.
  { unfold field in Hu. destruct (getProp body "url"); [congruence | discriminate Hu]. }
  rewrite Hg, Hn. cbn [fst]. fold (lambdaConfigured env). rewrite Hm.
  destruct (String.eqb s "") eqn:Es; [apply String.eqb_eq in Es; contradiction|].
  destruct (localScan_run env s w) as (r & cs & Hrun & Hl).
  exists r, cs. split; [exact Hrun | exact Hl].
Qed.

(** X19.  In Lambda mode a request that passes validation is answered
    without any call to Firecrawl, the site or the model.  A Lambda
    response that is not OK, or a request that fails, gives status 500 and
    the fixed failure object, whose four issue flags are [true] and whose
    [error] is ["Lambda scan failed: "] followed by the message (for a
    response: ["Lambda invocation failed: <status>"]); an OK response whose
    JSON body is not [null] and has a primitive [riskScore] is passed on
    unchanged with status 200. *)
Theorem lambda_scan_replies (env : Worker.Env) (requestBody : string) (w : World)
    (body : JSValue) (s : string) (u : URLRecord) :
  JSON_parse w requestBody = inr body ->
  field body "url" = JStr s ->
  s <> "" ->
  new_URL (Worker.withScheme s) w = (Normal u, []) ->
  lambdaConfigured env = true ->
  let options := scanOptions env s in
  let answer := aws_fetch options
                  (Lambda.lambdaUrl (Lambda.region options)
                                    (Lambda.functionName (Lambda.functionArn options))) in
  exists reply,
    Worker.scan aws_fetch ToString_outside env requestBody w = (Normal reply, [])
    /\ (forall e, answer = FetchRejected e ->
        reply = Worker.c_json (Worker.BodyValue (Worker.lambdaFailure (errMessage e))) 500)
    /\ (forall response, answer = FetchResponse response -> ok response = false ->
        reply = Worker.c_json
                  (Worker.BodyValue
                     (Worker.lambdaFailure
                        ("Lambda invocation failed: " ++ JsString.ofN (respStatus response))))
                  500)
    /\ (forall response result,
          answer = FetchResponse response -> ok response = true ->
          JSON_parse w (respBody response) = inr result ->
          nullish result = false ->
          primitive (field result "riskScore") = true ->
          reply = Worker.c_json (Worker.BodyValue result) 200).
Proof.
  intros Hp Hu Hs Hn Hm options answer. rewrite scan_run, Hp.
  assert (getProp body "url" = Some (JStr s)) as Hg.
  { unfold field in Hu. destruct (getProp body "url"); [congruence | discriminate Hu]. }
  rewrite Hg, Hn. cbn [fst]. fold (lambdaConfigured env). rewrite Hm.
  destruct (String.eqb s "") eqn:Es; [apply String.eqb_eq in Es; contradiction|].
  rewrite lambdaScan_run. fold (scanOptions env s). fold options.
  rewrite (invokeLambda_run options w). fold answer. cbn [fst].
  eexists. split; [reflexivity|]. split; [|split].
  - intros e ->. reflexivity.
  - intros response -> ->. reflexivity.
  - intros response result -> -> Hr Hnn Hprim. rewrite Hr, Hnn.
    destruct (field result "riskScore") as [| |[|]| | | |]; try discriminate Hprim;
      reflexivity.
Qed.

End WorkerFacts.

(** X16, witness: the request [{"url": ""}]. *)
Lemma scan_request_validation_witness :
  Worker.scan noLambda plainToString localEnv (scanRequest "") (requestWorld "" samplePage)
  = (Normal Worker.urlRequired, []).
Proof.
  destruct (scan_request_validation noLambda plainToString localEnv (scanRequest "")
              (requestWorld "" samplePage) (JObj [("url", JStr "")]) eq_refl eq_refl)
    as (H & _).
  apply H. reflexivity.
Defined.

(** X18, witness: Firecrawl is down; the reply is still a 200. *)
Lemma local_scan_is_transparent_witness :
  exists r cs,
    Worker.scan noLambda plainToString localEnv (scanRequest "shop.example")
                (requestWorld "shop.example" firecrawlDown)
    = (Normal (Worker.c_json (Worker.BodyResult r) 200), cs)
    /\ success r = false.
Proof.
  destruct (local_scan_is_transparent noLambda plainToString localEnv
              (scanRequest "shop.example") (requestWorld "shop.example" firecrawlDown)
              (JObj [("url", JStr "shop.example")]) "shop.example"
              (mkURL "https:" "shop.example") eq_refl eq_refl)
    as (r & cs & Hrun & Hscan); [discriminate | reflexivity | reflexivity |].
  exists r, cs. split; [exact Hscan|].
  vm_compute in Hrun. injection Hrun as <- _. reflexivity.
Defined.

(** X19, witness: the Lambda endpoint answers 503. *)
Lemma lambda_scan_replies_witness :
  Worker.scan lambdaDown plainToString lambdaEnv (scanRequest "shop.example")
              (requestWorld "shop.example" samplePage)
  = (Normal (Worker.c_json
               (Worker.BodyValue (Worker.lambdaFailure "Lambda invocation failed: 503")) 500),
     []).
Proof.
  destruct (lambda_scan_replies lambdaDown plainToString lambdaEnv
              (scanRequest "shop.example") (requestWorld "shop.example" samplePage)
              (JObj [("url", JStr "shop.example")]) "shop.example"
              (mkURL "https:" "shop.example") eq_refl eq_refl)
    as (reply & Hscan & _ & Hdown & _); [discriminate | reflexivity | reflexivity |].
  rewrite Hscan. rewrite (Hdown (mkResponse 503 "Service Unavailable") eq_refl eq_refl).
  reflexivity.
Defined.

(* ===================================================================== *)
(** ** The handler's check and the scanner's normalization *)
(* ===================================================================== *)

(** X20.  The handler and the scanner do not default the scheme in the same
    way: the handler leaves every string that starts with ["http"] as it
    is, the scanner only those that start with ["http://"] or
    ["https://"].  So for a [url] that starts with ["http"], that
    [new URL] rejects as it stands and accepts once normalized (a host name
    such as [httpbin.org]), the handler answers 400
    ["Invalid URL format"] and calls nothing, while [analyzeUrl] on the
    same string does not return its invalid-URL result: it goes on to the
    scan. *)
Theorem handler_rejects_what_the_scanner_accepts
    (aws_fetch : Lambda.LambdaInvokeOptions -> string -> FetchOutcome)
    (ToString_outside : JSValue -> JSError + string)
    (env : Worker.Env) (requestBody : string) (w : World) (body : JSValue)
    (s key : string) (config : BedrockConfig) (e : JSError) (u : URLRecord) :
  JSON_parse w requestBody = inr body ->
  field body "url" = JStr s ->
  JsString.startsWith s "http" = true ->
  new_URL s w = (Thrown e, []) ->
  new_URL (normalizeUrl s) w = (Normal u, []) ->
  key <> "" ->
  Worker.scan aws_fetch ToString_outside env requestBody w
  = (Normal Worker.invalidUrlFormat, [])
  /\ exists r cs,
       analyzeUrl s (Some key) (Some config) w = (Normal r, cs)
       /\ r <> invalidUrlResult.
Proof.
  intros Hp Hu Hh He Hn Hk. split.
  - rewrite scan_run, Hp.
    assert (getProp body "url" = Some (JStr s)) as Hg.
    { unfold field in Hu. destruct (getProp body "url"); [congruence | discriminate Hu]. }
    rewrite Hg. unfold Worker.withScheme. rewrite Hh, He. cbn [fst].
    destruct (String.eqb s "") eqn:Es; [|reflexivity].
    apply String.eqb_eq in Es. subst s. discriminate Hh.
  - rewrite (analyzeUrl_configured s key config w Hk), Hn.
    destruct (scanBody (normalizeUrl s) key config w) as [[r|e'] cs] eqn:Hb.
    + exists r, cs. split; [reflexivity|]. intros ->.
      pose proof (scanBody_success _ _ _ _ _ _ Hb) as Hs. discriminate Hs.
    + eexists. exists cs. split; [reflexivity|]. intros H.
      apply (f_equal detectedIssues) in H. discriminate H.
Qed.

(** X20, witness: [httpbin.org]. *)
Lemma handler_rejects_what_the_scanner_accepts_witness :
  Worker.scan noLambda plainToString localEnv (scanRequest "httpbin.org")
              (requestWorld "httpbin.org" samplePage)
  = (Normal Worker.invalidUrlFormat, [])
  /\ exists r cs,
       analyzeUrl "httpbin.org" (Some "fc-key") (Some sampleConfig)
                  (requestWorld "httpbin.org" samplePage) = (Normal r, cs)
       /\ r <> invalidUrlResult.
Proof.
  apply (handler_rejects_what_the_scanner_accepts noLambda plainToString localEnv
           (scanRequest "httpbin.org") (requestWorld "httpbin.org" samplePage)
           (JObj [("url", JStr "httpbin.org")]) "httpbin.org" "fc-key" sampleConfig
           (mkError "TypeError" "Invalid URL") (mkURL "https:" "httpbin.org"));
    try reflexivity.
  discriminate.
Defined.

(* ===================================================================== *)
(** ** The function name of a Lambda ARN *)
(* ===================================================================== *)

Lemma includes_colon_cons (c : ascii) (s : string) :
  JsString.includes (String c s) ":" = Ascii.eqb c ":" || JsString.includes s ":".
Proof.
  rewrite includes_cons. f_equal.
  assert (String.prefix ":" (String c s)
          = if Ascii.ascii_dec ":" c then String.prefix "" s else false) as -> by reflexivity.
  destruct (Ascii.ascii_dec ":" c) as [<-|Hc].
  - destruct s; reflexivity.
  - symmetry. apply Ascii.eqb_neq. congruence.
Qed.

Lemma cut_noSep (s : string) :
  JsString.includes s ":" = false -> Url.cut ":" s = (s, None).
Proof.
  induction s as [|c s IH]; intros H; [reflexivity|].
  rewrite includes_colon_cons in H. apply orb_false_iff in H. destruct H as [Hc Hs].
  cbn [Url.cut]. rewrite Hc, (IH Hs). reflexivity.
Qed.

Lemma cut_app (p name : string) :
  Url.cut ":" (p ++ String ":" name)
  = match Url.cut ":" p with
    | (_, None) => (p, Some name)
    | (a, Some rest) => (a, Some (rest ++ String ":" name))
    end.
Proof.
  induction p as [|c p IH]; [reflexivity|].
  change (String c p ++ String ":" name) with (String c (p ++ String ":" name)).
  cbn [Url.cut]. destruct (Ascii.eqb c ":"); [reflexivity|].
  rewrite IH. destruct (Url.cut ":" p) as [a [rest|]]; reflexivity.
Qed.

Lemma cut_length (p a rest : string) :
  Url.cut ":" p = (a, Some rest) -> (String.length rest < String.length p)%nat.
Proof.
  revert a. induction p as [|c p IH]; intros a H; [discriminate H|].
  cbn [Url.cut] in H. destruct (Ascii.eqb c ":").
  - injection H as _ <-. cbn. lia.
  - destruct (Url.cut ":" p) as [a' [rest'|]]; [|discriminate H].
    injection H as _ <-. specialize (IH a' eq_refl). cbn. lia.
Qed.

Lemma splitOn_noSep (fuel : nat) (s : string) :
  JsString.includes s ":" = false -> Url.splitOn fuel ":" s = [s].
Proof.
  intros H. destruct fuel; [reflexivity|]. cbn [Url.splitOn]. rewrite (cut_noSep s H).
  reflexivity.
Qed.

Lemma last_splitOn_cons (fuel : nat) (a s : string) :
  List.last (a :: Url.splitOn fuel ":" s) "" = List.last (Url.splitOn fuel ":" s) "".
Proof.
  destruct fuel; [reflexivity|]. cbn [Url.splitOn].
  destruct (Url.cut ":" s) as [b [rest|]]; reflexivity.
Qed.

Lemma last_splitOn (fuel : nat) (p name : string) :
  (String.length p < fuel)%nat ->
  JsString.includes name ":" = false ->
  List.last (Url.splitOn fuel ":" (p ++ String ":" name)) "" = name.
Proof.
  revert p. induction fuel as [|fuel IH]; intros p Hf Hn; [lia|].
  cbn [Url.splitOn]. rewrite cut_app.
  destruct (Url.cut ":" p) as [a [rest|]] eqn:Hc.
  - rewrite last_splitOn_cons. apply IH; [|exact Hn].
    pose proof (cut_length p a rest Hc). lia.
  - rewrite last_splitOn_cons, (splitOn_noSep fuel name Hn). reflexivity.
Qed.

Lemma length_app (p q : string) :
  String.length (p ++ q) = (String.length p + String.length q)%nat.
Proof. induction p as [|c p IH]; [reflexivity|]. cbn. rewrite IH. reflexivity. Qed.

(** X21.  [invokeLambda] addresses the function by the part of the ARN that
    follows its last colon; an ARN without a colon, or one that ends with a
    colon, is used whole.  It sends one request, to
    [https://lambda.<region>.amazonaws.com/2015-03-31/functions/<name>/invocations],
    throws ["Lambda invocation failed: <status>"] when the response is not
    OK, and otherwise returns the parsed body, or throws what parsing
    throws. *)
Theorem invokeLambda_function_name :
  (forall arn, JsString.includes arn ":" = false -> Lambda.functionName arn = arn)
  /\ (forall p name, JsString.includes name ":" = false -> name <> "" ->
        Lambda.functionName (p ++ ":" ++ name) = name)
  /\ (forall p, Lambda.functionName (p ++ ":") = p ++ ":")
  /\ (forall aws_fetch options p name w,
        Lambda.functionArn options = p ++ ":" ++ name ->
        JsString.includes name ":" = false -> name <> "" ->
        Lambda.invokeLambda aws_fetch options w
        = (match aws_fetch options
                   ("https://lambda." ++ Lambda.region options
                    ++ ".amazonaws.com/2015-03-31/functions/" ++ name ++ "/invocations") with
           | FetchRejected e => Thrown e
           | FetchResponse response =>
               if ok response then
                 match JSON_parse w (respBody response) with
                 | inl e => Thrown e
                 | inr v => Normal v
                 end
               else Thrown (Error ("Lambda invocation failed: "
                                   ++ JsString.ofN (respStatus response)))
           end, [])).
Proof.
  assert (forall p name, JsString.includes name ":" = false ->
            List.last (Url.splitOn (String.length (p ++ ":" ++ name)) ":" (p ++ ":" ++ name)) ""
            = name) as Hlast.
  { intros p name Hn. apply (last_splitOn _ p name); [|exact Hn].
    rewrite length_app. cbn. lia. }
  assert (forall p name, JsString.includes name ":" = false -> name <> "" ->
            Lambda.functionName (p ++ ":" ++ name) = name) as Hname.
  { intros p name Hn Hne. unfold Lambda.functionName. rewrite (Hlast p name Hn).
    destruct (String.eqb name "") eqn:E; [|reflexivity].
    apply String.eqb_eq in E. contradiction. }
  split; [|split; [exact Hname|split]].
  - intros arn H. unfold Lambda.functionName. rewrite (splitOn_noSep _ arn H).
    cbn [List.last]. destruct (String.eqb arn "") eqn:E; reflexivity.
  - intros p. unfold Lambda.functionName.
    change (p ++ ":") with (p ++ ":" ++ ""). rewrite (Hlast p "" eq_refl). reflexivity.
  - intros aws_fetch options p name w Harn Hn Hne.
    rewrite invokeLambda_run, Harn, (Hname p name Hn Hne). reflexivity.
Qed.

(* ===================================================================== *)
(** ** Webhook signatures *)
(* ===================================================================== *)

Lemma cut_noChar (sep : ascii) (s : string) :
  noChar sep s = true -> Url.cut sep s = (s, None).
Proof.
  induction s as [|c s IH]; intros H; [reflexivity|].
  cbn [noChar] in H. apply andb_true_iff in H. destruct H as [Hc Hs].
  apply negb_true_iff in Hc. cbn [Url.cut]. rewrite Hc, (IH Hs). reflexivity.
Qed.

Lemma cut_at_sep (sep : ascii) (p q : string) :
  noChar sep p = true -> Url.cut sep (p ++ String sep q) = (p, Some q).
Proof.
  induction p as [|c p IH]; intros H.
  - cbn. rewrite Ascii.eqb_refl. reflexivity.
  - cbn [noChar] in H. apply andb_true_iff in H. destruct H as [Hc Hp].
    apply negb_true_iff in Hc.
    change (String c p ++ String sep q) with (String c (p ++ String sep q)).
    cbn [Url.cut]. rewrite Hc, (IH Hp). reflexivity.
Qed.

Lemma split_two (sep : ascii) (p q : string) :
  noChar sep p = true -> noChar sep q = true ->
  Stripe.split sep (p ++ String sep q) = [p; q].
Proof.
  intros Hp Hq. unfold Stripe.split. rewrite length_app.
  replace (String.length p + String.length (String sep q))%nat
    with (S (String.length p + String.length q)) by (cbn; lia).
  cbn [Url.splitOn]. rewrite (cut_at_sep sep p q Hp). f_equal.
  destruct (String.length p + String.length q)%nat; [reflexivity|].
  cbn [Url.splitOn]. rewrite (cut_noChar sep q Hq). reflexivity.
Qed.

Lemma noChar_app (c : ascii) (s t : string) :
  noChar c (s ++ t) = noChar c s && noChar c t.
Proof.
  induction s as [|d s IH]; [reflexivity|]. cbn. rewrite IH. apply andb_assoc.
Qed.

Lemma hexDigit_plain (n : N) (c : ascii) :
  c = ","%char \/ c = "="%char -> Ascii.eqb (Stripe.hexDigit n) c = false.
Proof.
  intros [-> | ->];
    (destruct n as [|p]; [reflexivity|]);
    do 4 (try (destruct p as [p|p|]; try reflexivity)).
Qed.

Lemma hex_noChar (digest : string) (c : ascii) :
  c = ","%char \/ c = "="%char -> noChar c (Stripe.hex digest) = true.
Proof.
  intros Hc. induction digest as [|b digest IH]; [reflexivity|].
  cbn [Stripe.hex]. rewrite noChar_app, IH, andb_true_r.
  unfold Stripe.hexByte. cbn [noChar]. rewrite !(hexDigit_plain _ c Hc). reflexivity.
Qed.

Lemma startsWith_app (p s : string) : JsString.startsWith (p ++ s) p = true.
Proof.
  unfold JsString.startsWith. induction p as [|c p IH]; [destruct s; reflexivity|].
  cbn. destruct (Ascii.ascii_dec c c) as [_|N]; [exact IH | destruct (N eq_refl)].
Qed.

(** X22.  Signing and verifying agree: for a non-empty timestamp without
    [,] and [=], the header ["t=<timestamp>,v1=<signature>"] is accepted
    when the signature is the lower-case hexadecimal HMAC of
    ["<timestamp>.<payload>"] under the secret, and rejected for every
    other signature without [,] and [=].  The timestamp is only a part of
    the signed text: no value of it is refused. *)
Theorem webhook_signature_round_trip
    (HMAC_SHA256 : string -> string -> JSError + string)
    (payload secret timestamp digest : string) :
  HMAC_SHA256 secret (timestamp ++ "." ++ payload) = inr digest ->
  timestamp <> "" ->
  noChar "," timestamp = true ->
  noChar "=" timestamp = true ->
  Stripe.verifyWebhookSignature HMAC_SHA256 payload
    (stripeHeader timestamp (Stripe.hex digest)) secret = inr true
  /\ (forall forged,
        forged <> Stripe.hex digest ->
        noChar "," forged = true -> noChar "=" forged = true ->
        Stripe.verifyWebhookSignature HMAC_SHA256 payload
          (stripeHeader timestamp forged) secret = inr false).
Proof.
  intros Hh Ht Hc He.
  assert (forall signature,
            noChar "," signature = true -> noChar "=" signature = true ->
            Stripe.verifyWebhookSignature HMAC_SHA256 payload
              (stripeHeader timestamp signature) secret
            = inr (String.eqb signature (Stripe.hex digest))) as Hrun.
  { intros signature Hsc Hse. unfold Stripe.verifyWebhookSignature, stripeHeader.
    change ("t=" ++ timestamp ++ ",v1=" ++ signature)
      with (("t=" ++ timestamp) ++ String "," ("v1=" ++ signature)).
    rewrite (split_two "," ("t=" ++ timestamp) ("v1=" ++ signature));
      [|exact Hc | exact Hsc].
    assert (JsString.startsWith ("t=" ++ timestamp) "t=" = true) as Ht1
        by apply startsWith_app.
    assert (JsString.startsWith ("v1=" ++ signature) "v1=" = true) as Hv1
        by apply startsWith_app.
    cbn [find filter]. rewrite Ht1, Hv1.
    assert (JsString.startsWith ("t=" ++ timestamp) "v1=" = false) as -> by reflexivity.
    change ("t=" ++ timestamp) with ("t" ++ String "=" timestamp).
    rewrite (split_two "=" "t" timestamp eq_refl He).
    cbn [Stripe.second nth_error].
    destruct (String.eqb timestamp "") eqn:E; [apply String.eqb_eq in E; contradiction|].
    cbn [List.length Nat.eqb orb]. rewrite Hh. cbn [existsb].
    change ("v1=" ++ signature) with ("v1" ++ String "=" signature).
    rewrite (split_two "=" "v1" signature eq_refl Hse).
    cbn [Stripe.second nth_error]. rewrite orb_false_r. reflexivity. }
  split.
  - rewrite Hrun; [rewrite String.eqb_refl; reflexivity | |]; apply hex_noChar; auto.
  - intros forged Hf Hfc Hfe. rewrite (Hrun forged Hfc Hfe).
    destruct (String.eqb forged (Stripe.hex digest)) eqn:E; [|reflexivity].
    apply String.eqb_eq in E. contradiction.
Qed.

(** X22, witness: the digest [ab 05] for the timestamp 1700000000. *)
Lemma webhook_signature_round_trip_witness :
  Stripe.verifyWebhookSignature fixedDigest "{}" "t=1700000000,v1=ab05" "whsec_test"
  = inr true.
Proof.
  exact (proj1 (webhook_signature_round_trip fixedDigest "{}" "whsec_test" "1700000000" _
                  eq_refl ltac:(discriminate) eq_refl eq_refl)).
Defined.

(* ===================================================================== *)
(** ** The pre-save of a scan at checkout *)
(* ===================================================================== *)


(* ===================================================================== *)
(** ** Trimming and normalizing twice *)
(* ===================================================================== *)

Lemma append_assoc (a b c : string) : (a ++ b) ++ c = a ++ (b ++ c).
Proof. induction a as [|x a IH]; [reflexivity|]. cbn. rewrite IH. reflexivity. Qed.

Lemma append_nil_r (a : string) : a ++ "" = a.
Proof. induction a as [|x a IH]; [reflexivity|]. cbn. rewrite IH. reflexivity. Qed.

Lemma revAcc_app (s acc : string) : JsString.revAcc s acc = JsString.revAcc s "" ++ acc.
Proof.
  revert acc. induction s as [|c s IH]; intros acc; [reflexivity|].
  cbn [JsString.revAcc]. rewrite (IH (String c acc)), (IH (String c "")).
  rewrite append_assoc. reflexivity.
Qed.

Lemma rev_cons (c : ascii) (s : string) :
  JsString.rev (String c s) = JsString.rev s ++ String c "".
Proof. unfold JsString.rev. cbn [JsString.revAcc]. apply revAcc_app. Qed.

Lemma rev_app (a b : string) : JsString.rev (a ++ b) = JsString.rev b ++ JsString.rev a.
Proof.
  induction a as [|c a IH]; [cbn; rewrite append_nil_r; reflexivity|].
  change (String c a ++ b) with (String c (a ++ b)).
  rewrite !rev_cons, IH, append_assoc. reflexivity.
Qed.

Lemma rev_involutive (s : string) : JsString.rev (JsString.rev s) = s.
Proof.
  induction s as [|c s IH]; [reflexivity|].
  rewrite rev_cons, rev_app, IH. reflexivity.
Qed.

Lemma rev_length (s : string) : String.length (JsString.rev s) = String.length s.
Proof.
  induction s as [|c s IH]; [reflexivity|].
  rewrite rev_cons, length_app, IH. cbn. lia.
Qed.

Lemma prefix_length (w s : string) :
  String.prefix w s = true -> (String.length w <= String.length s)%nat.
Proof.
  revert s. induction w as [|c w IH]; intros s H; [cbn; lia|].
  destruct s as [|d s]; [discriminate H|]. cbn in H.
  destruct (Ascii.ascii_dec c d); [|discriminate H]. specialize (IH s H). cbn. lia.
Qed.

Lemma drop_suffix (n : nat) (s : string) :
  exists pre, s = pre ++ JsString.drop n s
              /\ String.length (JsString.drop n s) = (String.length s - n)%nat.
Proof.
  revert s. induction n as [|n IH]; intros s.
  - exists "". split; [reflexivity|]. cbn. lia.
  - destruct s as [|c s]; [exists ""; split; reflexivity|].
    destruct (IH s) as (pre & Hs & Hl). exists (String c pre). cbn [JsString.drop].
    split; [cbn; rewrite <- Hs; reflexivity | exact Hl].
Qed.

Section Strip.

Variable ws : list string.
Hypothesis ws_nonempty : forall w, In w ws -> w <> "".

Lemma stripOne_None (s : string) :
  JsString.stripOne ws s = None <-> forall w, In w ws -> String.prefix w s = false.
Proof.
  unfold JsString.stripOne. split.
  - intros H w Hw. destruct (find _ ws) eqn:E; [discriminate H|].
    exact (find_none _ _ E w Hw).
  - intros H. destruct (find _ ws) as [w|] eqn:E; [|reflexivity].
    apply find_some in E. destruct E as [Hw Hp]. rewrite (H w Hw) in Hp. discriminate Hp.
Qed.

Lemma stripOne_Some (s s' : string) :
  JsString.stripOne ws s = Some s' ->
  (String.length s' < String.length s)%nat /\ exists pre, s = pre ++ s'.
Proof.
  unfold JsString.stripOne. destruct (find _ ws) as [w|] eqn:E; [|discriminate].
  intros [= <-]. apply find_some in E. destruct E as [Hw Hp].
  pose proof (prefix_length w s Hp) as Hl.
  destruct (drop_suffix (String.length w) s) as (pre & Hs & Hd).
  split; [|exists pre; exact Hs].
  rewrite Hd. assert (String.length w <> 0%nat); [|lia].
  intros H0. apply (ws_nonempty w Hw). destruct w; [reflexivity | discriminate H0].
Qed.

Lemma stripAll_fixed (fuel : nat) (s : string) :
  (String.length s <= fuel)%nat ->
  JsString.stripOne ws (JsString.stripAll fuel ws s) = None.
Proof.
  revert s. induction fuel as [|fuel IH]; intros s Hl; cbn [JsString.stripAll].
  - destruct (JsString.stripOne ws s) as [s'|] eqn:E; [|reflexivity].
    destruct (stripOne_Some s s' E) as [Hlt _]. lia.
  - destruct (JsString.stripOne ws s) as [s'|] eqn:E; [|exact E].
    destruct (stripOne_Some s s' E) as [Hlt _]. apply IH. lia.
Qed.

Lemma stripAll_None (fuel : nat) (s : string) :
  JsString.stripOne ws s = None -> JsString.stripAll fuel ws s = s.
Proof. intros H. destruct fuel; cbn [JsString.stripAll]; [|rewrite H]; reflexivity. Qed.

Lemma stripAll_suffix (fuel : nat) (s : string) :
  exists pre, s = pre ++ JsString.stripAll fuel ws s.
Proof.
  revert s. induction fuel as [|fuel IH]; intros s; cbn [JsString.stripAll];
    [exists ""; reflexivity|].
  destruct (JsString.stripOne ws s) as [s'|] eqn:E; [|exists ""; reflexivity].
  destruct (stripOne_Some s s' E) as [_ [pre Hs]]. destruct (IH s') as [pre' Hs'].
  exists (pre ++ pre'). rewrite append_assoc, <- Hs'. exact Hs.
Qed.

End Strip.

Lemma whiteSpace_nonempty (w : string) : In w JsString.whiteSpace -> w <> "".
Proof.
  intros H. cbn in H.
  repeat (destruct H as [<- | H]; [discriminate|]). destruct H.
Qed.

Lemma whiteSpace_rev_nonempty (w : string) :
  In w (map JsString.rev JsString.whiteSpace) -> w <> "".
Proof.
  intros H. cbn in H.
  repeat (destruct H as [<- | H]; [discriminate|]). destruct H.
Qed.

Lemma trimStart_fixed (s : string) :
  JsString.stripOne JsString.whiteSpace (JsString.trimStart s) = None.
Proof. apply (stripAll_fixed _ whiteSpace_nonempty). lia. Qed.

Lemma trimEnd_fixed (s : string) :
  JsString.stripOne (map JsString.rev JsString.whiteSpace) (JsString.rev (JsString.trimEnd s))
  = None.
Proof.
  unfold JsString.trimEnd. rewrite rev_involutive.
  apply (stripAll_fixed _ whiteSpace_rev_nonempty). rewrite rev_length. lia.
Qed.

(** A string that has no white space at either end is left alone. *)
Lemma trim_fixed (s : string) :
  JsString.stripOne JsString.whiteSpace s = None ->
  JsString.stripOne (map JsString.rev JsString.whiteSpace) (JsString.rev s) = None ->
  JsString.trim s = s.
Proof.
  intros Hs He. unfold JsString.trim, JsString.trimStart.
  rewrite (stripAll_None _ _ _ Hs). unfold JsString.trimEnd.
  rewrite (stripAll_None _ _ _ He). apply rev_involutive.
Qed.

Lemma trimEnd_prefix (s : string) : exists suffix, s = JsString.trimEnd s ++ suffix.
Proof.
  unfold JsString.trimEnd.
  destruct (stripAll_suffix (map JsString.rev JsString.whiteSpace) whiteSpace_rev_nonempty
              (String.length s) (JsString.rev s)) as [pre H].
  exists (JsString.rev pre).
  rewrite <- rev_app, <- H. symmetry. apply rev_involutive.
Qed.

Lemma trim_clean (s : string) :
  JsString.stripOne JsString.whiteSpace (JsString.trim s) = None
  /\ JsString.stripOne (map JsString.rev JsString.whiteSpace) (JsString.rev (JsString.trim s))
     = None.
Proof.
  unfold JsString.trim. split; [|apply trimEnd_fixed].
  apply stripOne_None. intros w Hw.
  destruct (String.prefix w (JsString.trimEnd (JsString.trimStart s))) eqn:E; [|reflexivity].
  destruct (trimEnd_prefix (JsString.trimStart s)) as [suffix Hs].
  pose proof (prefix_app w _ suffix E) as Hp. rewrite <- Hs in Hp.
  pose proof (proj1 (stripOne_None _ _) (trimStart_fixed s) w Hw) as Hn.
  rewrite Hn in Hp. discriminate Hp.
Qed.

(** No white-space sequence, read backwards, matches across the end of a
    string that is followed by the reversed scheme. *)
Lemma prefix_before (c : ascii) (w x y : string) :
  noChar c w = true -> String.prefix w x = false ->
  String.prefix w (x ++ String c y) = false.
Proof.
  revert x. induction w as [|a w IH]; intros x Hw Hp.
  - destruct x; discriminate Hp.
  - cbn [noChar] in Hw. apply andb_true_iff in Hw. destruct Hw as [Ha Hw].
    apply negb_true_iff, Ascii.eqb_neq in Ha.
    destruct x as [|b x].
    + cbn. destruct (Ascii.ascii_dec a c); [contradiction | reflexivity].
    + change (String b x ++ String c y) with (String b (x ++ String c y)).
      assert (forall t, String.prefix (String a w) (String b t)
                        = if Ascii.ascii_dec a b then String.prefix w t else false) as Hstep
          by reflexivity.
      rewrite Hstep in Hp |- *. destruct (Ascii.ascii_dec a b); [|reflexivity].
      apply IH; assumption.
Qed.

Lemma whiteSpace_rev_no_slash (w : string) :
  In w (map JsString.rev JsString.whiteSpace) -> noChar "/" w = true.
Proof.
  intros H. cbn in H.
  repeat (destruct H as [<- | H]; [reflexivity|]). destruct H.
Qed.

Lemma whiteSpace_not_h (w s : string) :
  In w JsString.whiteSpace -> String.prefix w (String "h" s) = false.
Proof.
  intros H. cbn in H.
  repeat (destruct H as [<- | H]; [reflexivity|]). destruct H.
Qed.

(** X24.  Normalizing is idempotent: [trim] leaves a trimmed string alone,
    the result of [normalizeUrl] always starts with ["http://"] or
    ["https://"], and normalizing it again changes nothing, so the URL that
    [analyzeUrl] validates, scrapes and reports is a fixed point of its own
    normalization. *)
Theorem normalizeUrl_idempotent (url : string) :
  JsString.trim (JsString.trim url) = JsString.trim url
  /\ (JsString.startsWith (normalizeUrl url) "http://" = true
      \/ JsString.startsWith (normalizeUrl url) "https://" = true)
  /\ normalizeUrl (normalizeUrl url) = normalizeUrl url.
Proof.
  destruct (trim_clean url) as [Hs He].
  assert (JsString.trim (JsString.trim url) = JsString.trim url) as Htrim
      by (apply trim_fixed; assumption).
  split; [exact Htrim|].
  assert (forall t, JsString.trim t = t ->
            normalizeUrl t
            = if negb (JsString.startsWith t "http://")
                 && negb (JsString.startsWith t "https://")
              then "https://" ++ t else t) as Hnorm
      by (intros t Ht; unfold normalizeUrl; rewrite Ht; reflexivity).
  assert (normalizeUrl url
          = if negb (JsString.startsWith (JsString.trim url) "http://")
               && negb (JsString.startsWith (JsString.trim url) "https://")
            then "https://" ++ JsString.trim url else JsString.trim url) as -> by reflexivity.
  destruct (JsString.startsWith (JsString.trim url) "http://") eqn:E1; cbn [negb andb].
  { split; [left; exact E1|]. rewrite (Hnorm _ Htrim), E1. reflexivity. }
  destruct (JsString.startsWith (JsString.trim url) "https://") eqn:E2; cbn [negb andb].
  { split; [right; exact E2|]. rewrite (Hnorm _ Htrim), E1, E2. reflexivity. }
  assert (JsString.startsWith ("https://" ++ JsString.trim url) "https://" = true) as Hh
      by apply startsWith_app.
  split; [right; exact Hh|].
  assert (JsString.trim ("https://" ++ JsString.trim url) = "https://" ++ JsString.trim url)
    as Hfix.
  { apply trim_fixed.
    - apply stripOne_None. intros w Hw. apply whiteSpace_not_h. exact Hw.
    - apply stripOne_None. intros w Hw. rewrite rev_app.
      change (JsString.rev "https://") with (String "/" "/:sptth").
      apply prefix_before; [apply whiteSpace_rev_no_slash; exact Hw|].
      exact (proj1 (stripOne_None _ _) He w Hw). }
  rewrite (Hnorm _ Hfix), Hh. rewrite andb_false_r. reflexivity.
Qed.

(* ===================================================================== *)
(** ** Letter case in the markup *)
(* ===================================================================== *)

Lemma lowerAscii_fixes (c k : ascii) :
  In k ["226"; "132"; "170"; "196"; "176"]%char ->
  Ascii.eqb (JsString.lowerAscii c) k = Ascii.eqb c k.
Proof.
  intros Hk. cbn in Hk.
  destruct Hk as [<-|[<-|[<-|[<-|[<-|[]]]]]];
    destruct c as [[] [] [] [] [] [] [] []]; reflexivity.
Qed.

Lemma lowerAscii_idempotent (c : ascii) :
  JsString.lowerAscii (JsString.lowerAscii c) = JsString.lowerAscii c.
Proof. destruct c as [[] [] [] [] [] [] [] []]; reflexivity. Qed.

Lemma lowerAscii_upperAscii (c : ascii) :
  JsString.lowerAscii (upperAscii c) = JsString.lowerAscii c.
Proof. destruct c as [[] [] [] [] [] [] [] []]; reflexivity. Qed.

Lemma caseChange_fixes (f : ascii -> ascii) (c k : ascii) :
  caseChange f ->
  In k ["226"; "132"; "170"; "196"; "176"]%char ->
  Ascii.eqb (f c) k = Ascii.eqb c k.
Proof.
  intros Hf Hk.
  rewrite <- (lowerAscii_fixes (f c) k Hk), <- (lowerAscii_fixes c k Hk), (Hf c).
  reflexivity.
Qed.

(** The equations of [toLowerCase], with the byte tests written out. *)
Lemma toLowerCase_cons (c : ascii) (s : string) :
  JsString.toLowerCase (String c s)
  = match s with
    | String c2 (String c3 r) =>
        if Ascii.eqb c "226" && Ascii.eqb c2 "132" && Ascii.eqb c3 "170"
        then String "k" (JsString.toLowerCase r)
        else if Ascii.eqb c "196" && Ascii.eqb c2 "176"
             then String "i" (String "204" (String "135"
                                              (JsString.toLowerCase (String c3 r))))
             else String (JsString.lowerAscii c) (JsString.toLowerCase s)
    | String c2 EmptyString =>
        if Ascii.eqb c "196" && Ascii.eqb c2 "176"
        then String "i" (String "204" (String "135" EmptyString))
        else String (JsString.lowerAscii c) (JsString.toLowerCase s)
    | EmptyString => String (JsString.lowerAscii c) EmptyString
    end.
Proof.
  destruct s as [|c2 [|c3 r]].
  - destruct c as [[] [] [] [] [] [] [] []]; reflexivity.
  - destruct c as [[] [] [] [] [] [] [] []]; try reflexivity;
      destruct c2 as [[] [] [] [] [] [] [] []]; reflexivity.
  - destruct c as [[] [] [] [] [] [] [] []]; try reflexivity;
      destruct c2 as [[] [] [] [] [] [] [] []]; try reflexivity;
      destruct c3 as [[] [] [] [] [] [] [] []]; reflexivity.
Qed.

Lemma toLowerCase_mapBytes (f : ascii -> ascii) :
  caseChange f ->
  forall n s, (String.length s <= n)%nat ->
    JsString.toLowerCase (mapBytes f s) = JsString.toLowerCase s.
Proof.
  intros Hf.
  assert (forall c k, In k ["226"; "132"; "170"; "196"; "176"]%char ->
                      Ascii.eqb (f c) k = Ascii.eqb c k) as Hk
      by (intros c k; apply caseChange_fixes; exact Hf).
  induction n as [|n IH]; intros s Hl.
  - destruct s; [reflexivity | cbn in Hl; lia].
  - destruct s as [|c s]; [reflexivity|].
    cbn [mapBytes]. rewrite (toLowerCase_cons (f c)), (toLowerCase_cons c).
    destruct s as [|c2 [|c3 r]]; cbn [mapBytes].
    + rewrite (Hf c). reflexivity.
    + rewrite (Hk c "196"%char), (Hk c2 "176"%char) by (cbn; intuition reflexivity).
      destruct (Ascii.eqb c "196" && Ascii.eqb c2 "176"); [reflexivity|].
      rewrite (Hf c). f_equal.
      apply (IH (String c2 "")). cbn in Hl |- *. lia.
    + rewrite (Hk c "226"%char), (Hk c2 "132"%char), (Hk c3 "170"%char), (Hk c "196"%char), (Hk c2 "176"%char)
        by (cbn; intuition reflexivity).
      cbn in Hl.
      destruct (Ascii.eqb c "226" && Ascii.eqb c2 "132" && Ascii.eqb c3 "170").
      * f_equal. apply IH. lia.
      * destruct (Ascii.eqb c "196" && Ascii.eqb c2 "176").
        -- do 3 f_equal. apply (IH (String c3 r)). cbn. lia.
        -- rewrite (Hf c). f_equal. apply (IH (String c2 (String c3 r))). cbn. lia.
Qed.

Lemma asciiLower_mapBytes (f : ascii -> ascii) (s : string) :
  caseChange f -> JsString.asciiLower (mapBytes f s) = JsString.asciiLower s.
Proof.
  intros Hf. induction s as [|c s IH]; [reflexivity|].
  cbn. rewrite (Hf c), IH. reflexivity.
Qed.

(** X25.  Tracker detection does not depend on the case of ASCII letters:
    rewriting the markup and the page text with any map that only changes
    the case of ASCII letters (upper-casing them all, say) leaves the whole
    result of [analyzeThirdPartyScripts] unchanged, for the four major
    trackers, which are searched in [html.toLowerCase()], as for the
    thirteen patterns, which are matched with the [i] flag. *)
Theorem tracker_detection_ignores_case (f g : ascii -> ascii) (html content : string) :
  caseChange f -> caseChange g ->
  analyzeThirdPartyScripts (mapBytes f html) (mapBytes g content)
  = analyzeThirdPartyScripts html content.
Proof.
  intros Hf Hg. unfold analyzeThirdPartyScripts, pattern_test.
  rewrite (toLowerCase_mapBytes f Hf _ html (le_n _)).
  rewrite (toLowerCase_mapBytes g Hg _ content (le_n _)).
  rewrite (asciiLower_mapBytes f html Hf). reflexivity.
Qed.

(** X25, witness: upper-case markup. *)
Lemma tracker_detection_ignores_case_witness :
  analyzeThirdPartyScripts (mapBytes upperAscii sixTrackerMarkup)
                           (mapBytes upperAscii disclosingText)
  = analyzeThirdPartyScripts sixTrackerMarkup disclosingText.
Proof.
  exact (tracker_detection_ignores_case upperAscii upperAscii sixTrackerMarkup disclosingText
           lowerAscii_upperAscii lowerAscii_upperAscii).
Defined.
